(** * A11y overlay content script: element scanner, selector generator,
      action executor and analysis orchestrator

    A shallow embedding of the [A11yOverlay] class of
    [src/frontend/a11y-extension/popup.js] (the content script in that file)
    and the properties of it that the specification states.

    Conventions of the model.
    - A JavaScript string is a [string]; one character stands for one UTF-16
      code unit, restricted to the code units below 256.
    - A JavaScript number that the browser hands out (layout boxes, scroll
      offsets, confidences) is a binary64 [float], compared with the
      primitive comparisons.
    - The browser is the environment: layout ([getComputedStyle],
      [getBoundingClientRect]) is carried by the page; selector resolution
      ([document.querySelector] on a generated selector string), the parser
      behind [innerHTML], what the [click] method of an element does and
      what the page's own listeners do on a click are parameters.
    - The host page is a list of elements in document order. What the
      overlay builds below its container is a tree, which stands in the
      document at the place of the container; the page's own listeners are
      taken to leave that tree alone.
    - A click runs the listeners of the overlay on its path inside the
      click. An analysis started by such a listener runs up to its first
      [await] there and goes on in a later step; an analysis called from
      outside is run to its end against the outcomes of the steps it
      awaits. *)

From Stdlib Require Import List String Ascii Bool Arith ZArith Lia Sorted.
From Stdlib Require Import PrimFloat SpecFloat FloatOps FloatAxioms.
Import ListNotations.

Set Implicit Arguments.

(** ** JavaScript strings *)

Module JsString.

Definition code (c : ascii) : nat := nat_of_ascii c.

(** [WhiteSpace] and [LineTerminator] code units below 256: TAB, LF, VT,
    FF, CR, SP and NBSP. These are what [String.prototype.trim] strips. *)
Definition isWhiteSpace (c : ascii) : bool :=
  let n := code c in
  ((9 <=? n) && (n <=? 13)) || (n =? 32) || (n =? 160).

Fixpoint trimStart (s : string) : string :=
  match s with
  | EmptyString => EmptyString
  | String c r => if isWhiteSpace c then trimStart r else s
  end.

Fixpoint trimEnd (s : string) : string :=
  match s with
  | EmptyString => EmptyString
  | String c r =>
      match trimEnd r with
      | EmptyString => if isWhiteSpace c then EmptyString else String c EmptyString
      | r' => String c r'
      end
  end.

Definition trim (s : string) : string := trimEnd (trimStart s).

(** [s.substring(0, n)] for a non-negative [n]. *)
Definition substring0 (n : nat) (s : string) : string := substring 0 n s.

(** Default Unicode lower-casing on the code units below 256: A-Z and the
    Latin-1 capitals (0xC0-0xDE without the multiplication sign 0xD7). *)
Definition lowerChar (c : ascii) : ascii :=
  let n := code c in
  if ((65 <=? n) && (n <=? 90))
     || ((192 <=? n) && (n <=? 222) && negb (n =? 215))
  then ascii_of_nat (n + 32) else c.

Fixpoint toLowerCase (s : string) : string :=
  match s with
  | EmptyString => EmptyString
  | String c r => String (lowerChar c) (toLowerCase r)
  end.

(** [Array.prototype.join]. *)
Fixpoint join (sep : string) (l : list string) : string :=
  match l with
  | [] => EmptyString
  | [s] => s
  | s :: r => (s ++ sep ++ join sep r)%string
  end.

(** Truthiness of a string: every string but the empty one. *)
Definition truthy (s : string) : bool := negb (s =? EmptyString)%string.

(** Truthiness of a property or attribute that may be absent
    ([undefined] or [null]). *)
Definition truthyOpt (o : option string) : bool :=
  match o with
  | Some s => truthy s
  | None => false
  end.

End JsString.

Import JsString.

(** ** The page as the content script reads it *)

Definition number := float.

(** [DOMRect], the fields the script reads. *)
Record DOMRect := mkRect {
  rect_x : number;
  rect_y : number;
  rect_width : number;
  rect_height : number;
  rect_top : number;
  rect_bottom : number;
  rect_left : number
}.

(** [CSSStyleDeclaration] of [getComputedStyle], the properties read. *)
Record CSSStyle := mkStyle {
  display : string;
  visibility : string;
  opacity : string
}.

(** The inline style ([style.cssText]) of an element: the box of a highlight
    overlay (left, top, width, height, in px) and the fixed block of a
    notification, which the script writes, or the text of a [style]
    attribute in markup. *)
Inductive InlineStyle :=
| NoInlineStyle
| HighlightBox (left top width height : number)
| NotificationStyle
| StyleText (css : string).

(** A DOM element: its identity and the properties and attributes the script
    reads or writes. [None] is an absent ([undefined]) property. *)
Record Element := mkElement {
  nodeId : nat;
  tagName : string;
  id_ : string;
  classList : list string;
  attributes : list (string * string);
  textContent : string;
  value : option string;
  alt : option string;
  title : option string;
  type_ : option string;
  cssText : InlineStyle
}.

Fixpoint lookupAttr (name : string) (l : list (string * string)) : option string :=
  match l with
  | [] => None
  | (k, v) :: r => if (k =? name)%string then Some v else lookupAttr name r
  end.

(** [el.getAttribute(name)]; [None] is [null]. *)
Definition getAttribute (el : Element) (name : string) : option string :=
  lookupAttr name (attributes el).

Definition hasAttribute (el : Element) (name : string) : bool :=
  match getAttribute el name with Some _ => true | None => false end.

(** [[name="v"]] *)
Definition attrIs (el : Element) (name v : string) : bool :=
  match getAttribute el name with
  | Some w => (w =? v)%string
  | None => false
  end.

(** The document and window state the script reads: the elements in document
    order (the tree is flattened; the overlay's own nodes are elements like
    any other), the layout the browser computed for them, the viewport
    height, the scroll offsets and the address of the page. *)
Record Page := mkPage {
  nodes : list Element;
  getComputedStyle : Element -> CSSStyle;
  getBoundingClientRect : Element -> DOMRect;
  innerHeight : number;
  scrollX : number;
  scrollY : number;
  locationHref : string
}.

Definition setNodes (p : Page) (ns : list Element) : Page :=
  {| nodes := ns;
     getComputedStyle := getComputedStyle p;
     getBoundingClientRect := getBoundingClientRect p;
     innerHeight := innerHeight p;
     scrollX := scrollX p;
     scrollY := scrollY p;
     locationHref := locationHref p |}.

(** ** Element scanner: [captureDomElements] *)

Module Scanner.

(** A type selector on an element, compared on the lower-case name. *)
Definition isTag (el : Element) (t : string) : bool :=
  (toLowerCase (tagName el) =? t)%string.

(** The eight category selectors of [captureDomElements], in source order.
    The [type] attribute is matched without regard to ASCII case, as HTML
    documents do for it. *)
Definition sel_button (el : Element) : bool :=
  isTag el "button" && negb (hasAttribute el "disabled").

Definition sel_anchor (el : Element) : bool :=
  isTag el "a" && hasAttribute el "href" && negb (attrIs el "href" "#").

Definition typeIsHidden (el : Element) : bool :=
  match getAttribute el "type" with
  | Some v => (toLowerCase v =? "hidden")%string
  | None => false
  end.

Definition sel_input (el : Element) : bool :=
  isTag el "input" && negb (typeIsHidden el) && negb (hasAttribute el "disabled").

Definition sel_select (el : Element) : bool :=
  isTag el "select" && negb (hasAttribute el "disabled").

Definition sel_textarea (el : Element) : bool :=
  isTag el "textarea" && negb (hasAttribute el "disabled").

Definition sel_roleButton (el : Element) : bool := attrIs el "role" "button".

Definition sel_roleLink (el : Element) : bool := attrIs el "role" "link".

Definition sel_tabindex (el : Element) : bool :=
  hasAttribute el "tabindex" && negb (attrIs el "tabindex" "-1").

Definition selectors : list (Element -> bool) :=
  [sel_button; sel_anchor; sel_input; sel_select; sel_textarea;
   sel_roleButton; sel_roleLink; sel_tabindex].

(** An element matches the comma-joined selector list when it matches one
    of its members. *)
Definition matchesSelectors (el : Element) : bool :=
  existsb (fun sel => sel el) selectors.

(** [document.querySelectorAll(selectors)]: the matching elements in
    document order. *)
Definition querySelectorAll (p : Page) : list Element :=
  filter matchesSelectors (nodes p).

(** The [isVisible] test of the scan loop. *)
Definition isVisible (p : Page) (el : Element) : bool :=
  let rect := getBoundingClientRect p el in
  let style := getComputedStyle p el in
  negb (display style =? "none")%string &&
  negb (visibility style =? "hidden")%string &&
  negb (opacity style =? "0")%string &&
  (0 <? rect_width rect)%float &&
  (0 <? rect_height rect)%float &&
  (rect_top rect <? innerHeight p)%float &&
  (0 <? rect_bottom rect)%float.

(** The label chain of the scan loop. *)
Definition elementText (el : Element) : string :=
  if truthy (textContent el) && truthy (trim (textContent el))
  then substring0 100 (trim (textContent el))
  else if truthyOpt (getAttribute el "aria-label")
  then match getAttribute el "aria-label" with Some s => s | None => EmptyString end
  else if truthyOpt (getAttribute el "placeholder")
  then match getAttribute el "placeholder" with Some s => s | None => EmptyString end
  else if truthyOpt (value el)
  then match value el with Some s => s | None => EmptyString end
  else if truthyOpt (alt el)
  then match alt el with Some s => s | None => EmptyString end
  else if truthyOpt (title el)
  then match title el with Some s => s | None => EmptyString end
  else EmptyString.

(** The double quote character of the [data-testid] selector. *)
Definition dquote : string := String (ascii_of_nat 34) EmptyString.

(** [generateSelector(element)]. *)
Definition generateSelector (element : Element) : string :=
  if truthy (id_ element) then ("#" ++ id_ element)%string
  else if truthyOpt (getAttribute element "data-testid")
  then match getAttribute element "data-testid" with
       | Some v => ("[data-testid=" ++ dquote ++ v ++ dquote ++ "]")%string
       | None => EmptyString
       end
  else if 0 <? List.length (classList element)
  then ("." ++ join "." (classList element))%string
  else toLowerCase (tagName element).

Record Bounds := mkBounds {
  b_x : number;
  b_y : number;
  b_width : number;
  b_height : number
}.

(** The object pushed for one surviving element. *)
Record Descriptor := mkDescriptor {
  d_index : nat;
  d_tag : string;
  d_text : string;
  d_type : string;
  d_id : string;
  d_classes : list string;
  d_selector : string;
  d_bounds : Bounds
}.

Definition describe (p : Page) (el : Element) (index : nat) : Descriptor :=
  let rect := getBoundingClientRect p el in
  {| d_index := index;
     d_tag := toLowerCase (tagName el);
     d_text := elementText el;
     d_type := match type_ el with
               | Some t => if truthy t then t else EmptyString
               | None => EmptyString
               end;
     d_id := id_ el;
     d_classes := classList el;
     d_selector := generateSelector el;
     d_bounds := {| b_x := (rect_x rect + scrollX p)%float;
                    b_y := (rect_y rect + scrollY p)%float;
                    b_width := rect_width rect;
                    b_height := rect_height rect |} |}.

(** The body of [allElements.forEach((el, index) => ...)]: [index] is the
    loop counter of [forEach], [elements] the array being filled. *)
Definition scanStep (p : Page) (el : Element) (index : nat)
    (elements : list Descriptor) : list Descriptor :=
  if negb (isVisible p el) then elements
  else elements ++ [describe p el index].

Fixpoint forEachFrom (p : Page) (allElements : list Element) (index : nat)
    (elements : list Descriptor) : list Descriptor :=
  match allElements with
  | [] => elements
  | el :: rest => forEachFrom p rest (S index) (scanStep p el index elements)
  end.

(** [elements.slice(0, 50)] *)
Definition slice0 (n : nat) (l : list Descriptor) : list Descriptor := firstn n l.

Definition captureDomElements (p : Page) : list Descriptor :=
  let allElements := querySelectorAll p in
  let elements := forEachFrom p allElements 0 [] in
  slice0 50 elements.

End Scanner.

(** ** The subtree the overlay builds in the document *)

Module Dom.

(** A node of the subtree below the overlay's container: a text node or an
    element with its children. The [textContent] an element shows is the
    text of its descendants; the field of the element kept here is not
    read. *)
#[local] Unset Elimination Schemes.

Inductive Node :=
| TextNode (data : string)
| ElementNode (el : Element) (children : list Node).

#[local] Set Elimination Schemes.

(** Induction on a node, with the property at hand for the children. *)
Fixpoint Node_ind (P : Node -> Prop)
    (HText : forall data, P (TextNode data))
    (HElement : forall el children, Forall P children -> P (ElementNode el children))
    (t : Node) {struct t} : P t :=
  match t with
  | TextNode data => HText data
  | ElementNode el children =>
      HElement el children
        ((fix all (l : list Node) : Forall P l :=
            match l with
            | [] => Forall_nil P
            | c :: r => Forall_cons c (Node_ind HText HElement c) (all r)
            end) children)
  end.

Definition withTextContent (el : Element) (t : string) : Element :=
  mkElement (nodeId el) (tagName el) (id_ el) (classList el) (attributes el)
            t (value el) (alt el) (title el) (type_ el) (cssText el).

Definition withCssText (el : Element) (c : InlineStyle) : Element :=
  mkElement (nodeId el) (tagName el) (id_ el) (classList el) (attributes el)
            (textContent el) (value el) (alt el) (title el) (type_ el) c.

Definition withAttributes (el : Element) (l : list (string * string)) : Element :=
  mkElement (nodeId el) (tagName el) (id_ el) (classList el) l
            (textContent el) (value el) (alt el) (title el) (type_ el) (cssText el).

Definition removeAttr (name : string) (l : list (string * string))
    : list (string * string) :=
  filter (fun kv => negb (fst kv =? name)%string) l.

(** [el.className = c] on an element without classes, for one class. *)
Definition withClassName (el : Element) (c : string) : Element :=
  mkElement (nodeId el) (tagName el) (id_ el) [c] (("class"%string, c) :: attributes el)
            (textContent el) (value el) (alt el) (title el) (type_ el) (cssText el).

(** The class list of [el] set to [cl], with the [class] attribute that
    shows it. *)
Definition withClasses (el : Element) (cl : list string) : Element :=
  mkElement (nodeId el) (tagName el) (id_ el) cl
            (("class"%string, join " " cl) :: removeAttr "class" (attributes el))
            (textContent el) (value el) (alt el) (title el) (type_ el) (cssText el).

(** [el.classList.add(c)] *)
Definition addClass (el : Element) (c : string) : Element :=
  if existsb (String.eqb c) (classList el) then el
  else withClasses el (classList el ++ [c]).

(** [el.id = i] and [el.title = t]: the property and the attribute that
    reflects it. *)
Definition withId (el : Element) (i : string) : Element :=
  mkElement (nodeId el) (tagName el) i (classList el)
            (("id"%string, i) :: removeAttr "id" (attributes el))
            (textContent el) (value el) (alt el) (title el) (type_ el) (cssText el).

Definition withTitle (el : Element) (t : string) : Element :=
  mkElement (nodeId el) (tagName el) (id_ el) (classList el)
            (("title"%string, t) :: removeAttr "title" (attributes el))
            (textContent el) (value el) (alt el) (Some t) (type_ el) (cssText el).

Definition withSrc (el : Element) (src : string) : Element :=
  mkElement (nodeId el) (tagName el) (id_ el) (classList el)
            (("src"%string, src) :: attributes el)
            (textContent el) (value el) (alt el) (title el) (type_ el) (cssText el).

(** The elements whose [disabled] property reflects the [disabled]
    attribute; on any other element the property is a plain field of the
    object, which the document does not show. *)
Definition reflectsDisabled (el : Element) : bool :=
  existsb (String.eqb (toLowerCase (tagName el)))
          ["button"; "fieldset"; "input"; "optgroup"; "option"; "select";
           "textarea"]%string.

(** [el.disabled = d] *)
Definition withDisabled (d : bool) (el : Element) : Element :=
  if reflectsDisabled el
  then withAttributes el
         (if d then ("disabled"%string, EmptyString) :: removeAttr "disabled" (attributes el)
          else removeAttr "disabled" (attributes el))
  else el.

(** The text of a node and of a list of nodes. *)
Fixpoint textOf (t : Node) : string :=
  match t with
  | TextNode data => data
  | ElementNode _ children => String.concat EmptyString (map textOf children)
  end.

Definition textOfAll (forest : list Node) : string :=
  String.concat EmptyString (map textOf forest).

(** The elements of a subtree in document order, each with the text of its
    descendants. *)
Fixpoint flatten (t : Node) : list Element :=
  match t with
  | TextNode _ => []
  | ElementNode el children =>
      withTextContent el (String.concat EmptyString (map textOf children))
        :: flat_map flatten children
  end.

Definition elementsOf (forest : list Node) : list Element := flat_map flatten forest.

(** The children of the element of identity [n] become [new]. *)
Fixpoint setChildren (n : nat) (new : list Node) (t : Node) : Node :=
  match t with
  | TextNode data => TextNode data
  | ElementNode el children =>
      if nodeId el =? n then ElementNode el new
      else ElementNode el (map (setChildren n new) children)
  end.

(** [parent.appendChild(child)] for the parent of identity [n]. *)
Fixpoint appendChild (n : nat) (child : Node) (t : Node) : Node :=
  match t with
  | TextNode data => TextNode data
  | ElementNode el children =>
      if nodeId el =? n then ElementNode el (children ++ [child])
      else ElementNode el (map (appendChild n child) children)
  end.

(** A write to the properties of the element of identity [n]. *)
Fixpoint updateElement (n : nat) (f : Element -> Element) (t : Node) : Node :=
  match t with
  | TextNode data => TextNode data
  | ElementNode el children =>
      ElementNode (if nodeId el =? n then f el else el)
                  (map (updateElement n f) children)
  end.

(** The children of the element of identity [n]. *)
Fixpoint childrenOf (n : nat) (t : Node) : list Node :=
  match t with
  | TextNode _ => []
  | ElementNode el children =>
      if nodeId el =? n then children else flat_map (childrenOf n) children
  end.

(** The element of identity [n] and its ancestors inside [t], from the
    element up; empty when [t] does not hold the element. *)
Fixpoint pathTo (n : nat) (t : Node) : list nat :=
  match t with
  | TextNode _ => []
  | ElementNode el children =>
      if nodeId el =? n then [nodeId el]
      else match flat_map (pathTo n) children with
           | [] => []
           | below => below ++ [nodeId el]
           end
  end.

(** [el.remove()] for every element that [p] selects: the element goes with
    all it holds. *)
Fixpoint removeWhere (p : Element -> bool) (t : Node) : list Node :=
  match t with
  | TextNode data => [TextNode data]
  | ElementNode el children =>
      if p el then [] else [ElementNode el (flat_map (removeWhere p) children)]
  end.

End Dom.

(** ** The overlay: session state, panel, listeners, timers and the
       operations on them *)

Module Overlay.

Import Scanner Dom.

(** One suggested action of the backend's answer, the properties the script
    reads. [None] is [undefined]. *)
Record Action := mkAction {
  label : option string;
  description : option string;
  confidence : option number;
  element_index : option Z
}.

(** [response.analysis], an object. *)
Record Analysis := mkAnalysis {
  an_actions : option (list Action)
}.

(** The parsed body of the backend's answer, an object. *)
Record Response := mkResponse {
  session_id : option string;
  analysis : option Analysis
}.

(** What [setTimeout] was given. *)
Inductive TimerTask :=
| RemoveNode (n : nat)
| ClosePanel.

Record Timer := mkTimer {
  delay : nat;
  task : TimerTask
}.

(** The click listeners the overlay registers: on the trigger button
    ([togglePanel], after [stopPropagation]), on the analyze button
    ([analyzeCurrentPage]) and on the button of an action
    ([executeAction(action)]). *)
Inductive Listener :=
| OnTrigger
| OnAnalyze
| OnAction (action : Action).

(** What leaves the script other than through the document. *)
Inductive Event :=
| ConsoleError (msg : string)
| Clicked (el : Element)
| FetchPost (url screenshot : string) (dom_elements : list Descriptor)
            (pageUrl : string).

(** [this.config] *)
Definition backendUrl : string := "http://localhost:8000".
Definition wakeWord : string := "hey assistant".

(** The overlay and the document it lives in.
    - [page]: the document without what the overlay's container holds; the
      container itself is one of its elements.
    - [container], [triggerBtn], [panel]: the identities of
      [this.container], [this.triggerBtn] and [this.panel].
    - [triggerContent], [panelContent]: the children of the trigger button
      and of the panel.
    - [listeners]: the click listeners registered, by the identity of their
      element.
    - [panelActive]: whether the class list of the panel holds [active];
      [listening]: whether that of the trigger button holds [listening].
    - [sessionId], [currentPage], [actions]: [this.state].
    - [timers]: the pending timers; [log]: what left the script. *)
Record State := mkState {
  page : Page;
  nextId : nat;
  container : nat;
  triggerBtn : nat;
  panel : nat;
  triggerContent : list Node;
  panelContent : list Node;
  listeners : list (nat * Listener);
  panelActive : bool;
  listening : bool;
  sessionId : option string;
  currentPage : option Analysis;
  actions : list Action;
  timers : list Timer;
  log : list Event
}.

Definition setPage (s : State) (v : Page) : State :=
  mkState v (nextId s) (container s) (triggerBtn s) (panel s) (triggerContent s)
          (panelContent s) (listeners s) (panelActive s) (listening s)
          (sessionId s) (currentPage s) (actions s) (timers s) (log s).

Definition setNextId (s : State) (v : nat) : State :=
  mkState (page s) v (container s) (triggerBtn s) (panel s) (triggerContent s)
          (panelContent s) (listeners s) (panelActive s) (listening s)
          (sessionId s) (currentPage s) (actions s) (timers s) (log s).

Definition setTriggerContent (s : State) (v : list Node) : State :=
  mkState (page s) (nextId s) (container s) (triggerBtn s) (panel s) v
          (panelContent s) (listeners s) (panelActive s) (listening s)
          (sessionId s) (currentPage s) (actions s) (timers s) (log s).

Definition setPanelContent (s : State) (v : list Node) : State :=
  mkState (page s) (nextId s) (container s) (triggerBtn s) (panel s)
          (triggerContent s) v (listeners s) (panelActive s) (listening s)
          (sessionId s) (currentPage s) (actions s) (timers s) (log s).

Definition setListeners (s : State) (v : list (nat * Listener)) : State :=
  mkState (page s) (nextId s) (container s) (triggerBtn s) (panel s)
          (triggerContent s) (panelContent s) v (panelActive s) (listening s)
          (sessionId s) (currentPage s) (actions s) (timers s) (log s).

Definition setPanelActive (s : State) (v : bool) : State :=
  mkState (page s) (nextId s) (container s) (triggerBtn s) (panel s)
          (triggerContent s) (panelContent s) (listeners s) v (listening s)
          (sessionId s) (currentPage s) (actions s) (timers s) (log s).

Definition setListening (s : State) (v : bool) : State :=
  mkState (page s) (nextId s) (container s) (triggerBtn s) (panel s)
          (triggerContent s) (panelContent s) (listeners s) (panelActive s) v
          (sessionId s) (currentPage s) (actions s) (timers s) (log s).

Definition setSessionId (s : State) (v : option string) : State :=
  mkState (page s) (nextId s) (container s) (triggerBtn s) (panel s)
          (triggerContent s) (panelContent s) (listeners s) (panelActive s)
          (listening s) v (currentPage s) (actions s) (timers s) (log s).

Definition setCurrentPage (s : State) (v : option Analysis) : State :=
  mkState (page s) (nextId s) (container s) (triggerBtn s) (panel s)
          (triggerContent s) (panelContent s) (listeners s) (panelActive s)
          (listening s) (sessionId s) v (actions s) (timers s) (log s).

Definition setActions (s : State) (v : list Action) : State :=
  mkState (page s) (nextId s) (container s) (triggerBtn s) (panel s)
          (triggerContent s) (panelContent s) (listeners s) (panelActive s)
          (listening s) (sessionId s) (currentPage s) v (timers s) (log s).

Definition setTimers (s : State) (v : list Timer) : State :=
  mkState (page s) (nextId s) (container s) (triggerBtn s) (panel s)
          (triggerContent s) (panelContent s) (listeners s) (panelActive s)
          (listening s) (sessionId s) (currentPage s) (actions s) v (log s).

Definition setLog (s : State) (v : list Event) : State :=
  mkState (page s) (nextId s) (container s) (triggerBtn s) (panel s)
          (triggerContent s) (panelContent s) (listeners s) (panelActive s)
          (listening s) (sessionId s) (currentPage s) (actions s) (timers s) v.

(** *** The document *)

(** The element [document.createElement(tag)] returns, of identity [n]: no
    attribute, no class. A button has an empty [value] and the [type]
    [submit]; on the other elements the script creates ([div], [script])
    the two are absent. *)
Definition isButtonTag (tag : string) : bool := (toLowerCase tag =? "button")%string.

Definition newElement (n : nat) (tag : string) : Element :=
  mkElement n tag EmptyString [] [] EmptyString
            (if isButtonTag tag then Some EmptyString else None)
            None (Some EmptyString)
            (if isButtonTag tag then Some "submit"%string else None)
            NoInlineStyle.

(** The trigger button and the panel as [addTriggerButton] sets them up,
    with the class that [recognition.onstart] and [togglePanel] add. *)
Definition triggerElement (s : State) : Element :=
  let el := withTitle (withClassName (newElement (triggerBtn s) "BUTTON")
                                     "a11y-trigger-btn")
                      "A11y Assistant" in
  if listening s then addClass el "listening" else el.

Definition panelElement (s : State) : Element :=
  let el := withClassName (newElement (panel s) "DIV") "a11y-control-panel" in
  if panelActive s then addClass el "active" else el.

(** The children of the container. *)
Definition overlayTree (s : State) : list Node :=
  [ElementNode (triggerElement s) (triggerContent s);
   ElementNode (panelElement s) (panelContent s)].

(** The container stands in the document with what it holds. *)
Definition expand (s : State) (el : Element) : list Element :=
  if nodeId el =? container s
  then withTextContent el (textOfAll (overlayTree s)) :: elementsOf (overlayTree s)
  else [el].

(** The elements of the document, in document order. *)
Definition document (s : State) : list Element :=
  flat_map (expand s) (nodes (page s)).

(** The page as a scan reads it: the layout of the browser on the elements
    of the document. *)
Definition documentPage (s : State) : Page := setNodes (page s) (document s).

(** The container is in the document. *)
Definition attached (s : State) : bool :=
  existsb (fun el => nodeId el =? container s) (nodes (page s)).

(** *** Statements that may throw *)

Inductive Exn :=
| TypeError
| SyntaxError
| ScriptLoadError
| ScreenshotError
| NetworkError
| BackendError (status : nat).

Inductive Outcome (A : Type) :=
| Done (a : A) (s : State)
| Thrown (e : Exn) (s : State).

Arguments Done {A} a s.
Arguments Thrown {A} e s.

Definition M (A : Type) := State -> Outcome A.

Definition ret {A} (a : A) : M A := fun s => Done a s.

Definition throw {A} (e : Exn) : M A := fun s => Thrown e s.

Definition bind {A B} (m : M A) (k : A -> M B) : M B :=
  fun s => match m s with
           | Done a s' => k a s'
           | Thrown e s' => Thrown e s'
           end.

Definition gets {A} (f : State -> A) : M A := fun s => Done (f s) s.

Definition modify (f : State -> State) : M unit := fun s => Done tt (f s).

(** The state an outcome leaves. *)
Definition stateOf {A} (o : Outcome A) : State :=
  match o with
  | Done _ s => s
  | Thrown _ s => s
  end.

Definition completed {A} (o : Outcome A) : bool :=
  match o with
  | Done _ _ => true
  | Thrown _ _ => false
  end.

Declare Scope overlay_scope.
Delimit Scope overlay_scope with overlay.
Notation "x <- m ;; k" := (bind m (fun x => k))
  (at level 61, m at next level, right associativity) : overlay_scope.
Notation "m ;; k" := (bind m (fun _ => k))
  (at level 61, right associativity) : overlay_scope.
Local Open Scope overlay_scope.

(** [try { body } catch (error) { handler }] *)
Definition tryCatch {A} (body : M A) (handler : Exn -> M A) : M A :=
  fun s => match body s with
           | Done a s' => Done a s'
           | Thrown e s' => handler e s'
           end.

(** A call of an [async] method whose promise is dropped: a rejection
    goes nowhere. *)
Definition detached (m : M unit) : M unit :=
  fun s => Done tt (stateOf (m s)).

(** *** Document primitives *)

(** [arr[i]] for an integer [i]; [None] is [undefined]. *)
Definition arrayGet {A} (arr : list A) (i : Z) : option A :=
  if (i <? 0)%Z then None else nth_error arr (Z.to_nat i).

(** Reading a property of [o]: a [TypeError] on [undefined] or [null]. *)
Definition propertyOf {A B} (o : option A) (f : A -> B) : M B :=
  match o with
  | Some a => ret (f a)
  | None => throw TypeError
  end.

(** An element matches [.a11y-highlight-box]. *)
Definition isHighlight (el : Element) : bool :=
  existsb (String.eqb "a11y-highlight-box") (classList el).

Definition highlightCount (p : Page) : nat :=
  List.length (filter isHighlight (nodes p)).

(** [document.querySelectorAll('.a11y-highlight-box').forEach(el => el.remove())]:
    the matching elements of the document go, those the container holds
    with all they hold. *)
Definition removeHighlights : M unit :=
  modify (fun s =>
    let s1 := setPage s (setNodes (page s)
                (filter (fun el => negb (isHighlight el)) (nodes (page s)))) in
    if attached s
    then setPanelContent
           (setTriggerContent s1 (flat_map (removeWhere isHighlight) (triggerContent s)))
           (flat_map (removeWhere isHighlight) (panelContent s))
    else s1).

(** [node.remove()] for a child of the body, of identity [n]. *)
Definition removeNode (n : nat) (s : State) : State :=
  setPage s (setNodes (page s)
    (filter (fun el => negb (nodeId el =? n)) (nodes (page s)))).

(** [document.createElement(tag)]: a fresh identity. *)
Definition createElement (tag : string) : M Element :=
  fun s => Done (newElement (nextId s) tag) (setNextId s (S (nextId s))).

(** [document.body.appendChild(el)]: last in document order. *)
Definition appendToBody (el : Element) : M unit :=
  modify (fun s => setPage s (setNodes (page s) (nodes (page s) ++ [el]))).

(** [document.head.appendChild(el)]: the head comes before the elements of
    the body; the place among the children of the head is not kept. *)
Definition appendToHead (el : Element) : M unit :=
  modify (fun s => setPage s (setNodes (page s) (el :: nodes (page s)))).

Definition setTimeout (t : TimerTask) (ms : nat) : M unit :=
  modify (fun s => setTimers s (timers s ++ [mkTimer ms t])).

Definition consoleError (msg : string) : M unit :=
  modify (fun s => setLog s (log s ++ [ConsoleError msg])).

(** [el.addEventListener('click', listener)] for the element of identity
    [n]. *)
Definition addEventListener (n : nat) (l : Listener) : M unit :=
  modify (fun s => setListeners s (listeners s ++ [(n, l)])).

(** [this.captureDomElements()] *)
Definition scan : M (list Descriptor) :=
  gets (fun s => captureDomElements (documentPage s)).

(** [this.panel.querySelector('#' + i)]: the first element below the panel
    with the id [i]. *)
Definition panelQuery (i : string) : M (option Element) :=
  gets (fun s => find (fun el => (id_ el =? i)%string) (elementsOf (panelContent s))).

(** A write to the properties of the element of identity [n], found below
    the panel. *)
Definition setProperty (n : nat) (f : Element -> Element) : M unit :=
  modify (fun s => setPanelContent s (map (updateElement n f) (panelContent s))).

(** [parent.appendChild(child)] *)
Definition appendTo (n : nat) (child : Node) : M unit :=
  modify (fun s => setPanelContent s (map (appendChild n child) (panelContent s))).

(** [el.innerHTML = ''] *)
Definition clearChildren (n : nat) : M unit :=
  modify (fun s => setPanelContent s (map (setChildren n []) (panelContent s))).

(** What [document.querySelector] answers. *)
Inductive QueryResult :=
| QNull
| QElement (el : Element)
| QSyntaxError.

(** The two passes of a click through the listeners of the page: down to
    the target, before the listeners on the target run, and up again. *)
Inductive Phase :=
| Capturing
| Bubbling.

(** What [el.click()] does: an element that is no HTML element (an SVG
    element) has no such method; on a form control that is disabled the
    method returns without an event; else it dispatches a click. *)
Inductive ClickMethod :=
| NoClickMethod
| InertClick
| DispatchesClick.

(** The pictographs in the markup of the overlay. Their characters lie
    outside the code units of the model. *)
Inductive Pictograph :=
| Microphone
| Magnifier
| Hourglass
| CrossMark.

(** What the script takes from the browser.
    - [querySelector]: [document.querySelector(selector)] on the elements of
      the document.
    - [parseHTML]: the nodes a write to [innerHTML] creates from the markup;
      the first argument is the next free identity.
    - [serializeHTML]: what a read of [innerHTML] gives.
    - [clickMethod]: what the [click] method of the element does.
    - [dispatchClick]: what the page's own listeners make of the page on a
      click, in each phase.
    - [pictograph]: the text of a pictograph. *)
Record Browser := mkBrowser {
  querySelector : list Element -> string -> QueryResult;
  parseHTML : nat -> string -> list Node;
  serializeHTML : list Node -> string;
  clickMethod : Element -> ClickMethod;
  dispatchClick : Element -> Phase -> Page -> Page;
  pictograph : Pictograph -> string
}.

(** [`${v}`] *)
Definition template (v : option string) : string :=
  match v with
  | Some t => t
  | None => "undefined"
  end.

(** [v || d] *)
Definition orDefault (v : option string) (d : string) : string :=
  if truthyOpt v then template v else d.

(** *** The markup of the overlay, as the template literals spell it *)

Fixpoint spaces (n : nat) : string :=
  match n with
  | O => EmptyString
  | S k => String " "%char (spaces k)
  end.

(** A line break and the indentation of the next line. *)
Definition indent (n : nat) : string := String (ascii_of_nat 10) (spaces n).

Definition quoted (s : string) : string := (dquote ++ s ++ dquote)%string.

Local Open Scope string_scope.

Definition panelMarkup (magnifier : string) : string :=
  indent 12 ++ "<div class=" ++ quoted "a11y-panel-header" ++ ">" ++
  indent 16 ++ "<h3 class=" ++ quoted "a11y-panel-title" ++ ">A11y Assistant</h3>" ++
  indent 16 ++ "<p class=" ++ quoted "a11y-panel-subtitle" ++ ">AI navigation helper</p>" ++
  indent 12 ++ "</div>" ++
  indent 12 ++ "<div class=" ++ quoted "a11y-panel-content" ++ ">" ++
  indent 16 ++ "<div style=" ++
    quoted "margin-bottom: 16px; font-size: 14px; color: #6b7280;" ++ ">" ++
  indent 20 ++ "Say " ++ quoted "hey assistant" ++ " or click below" ++
  indent 16 ++ "</div>" ++
  indent 16 ++ "<div id=" ++ quoted "a11y-actions" ++ ">" ++
  indent 20 ++ "<button class=" ++ quoted "a11y-action-btn primary" ++
    " id=" ++ quoted "analyze-btn" ++ ">" ++
  indent 24 ++ magnifier ++ " Analyze This Page" ++
  indent 20 ++ "</button>" ++
  indent 16 ++ "</div>" ++
  indent 12 ++ "</div>" ++
  indent 8.

Definition analyzingMarkup (hourglass : string) : string :=
  hourglass ++ " Analyzing...".

Definition failedMarkup (crossMark : string) : string :=
  crossMark ++ " Failed - Try Again".

Definition failureMarkup : string :=
  indent 16 ++ "<div style=" ++
    quoted "text-align: center; padding: 20px; color: #dc2626;" ++ ">" ++
  indent 20 ++ "<p>Failed to analyze page.</p>" ++
  indent 20 ++ "<p>Make sure backend is running at " ++ backendUrl ++ "</p>" ++
  indent 16 ++ "</div>" ++
  indent 12.

Definition noActionsMarkup : string :=
  indent 16 ++ "<div style=" ++
    quoted "text-align: center; padding: 20px; color: #6b7280;" ++ ">" ++
  indent 20 ++ "<p>No actions found.</p>" ++
  indent 16 ++ "</div>" ++
  indent 12.

Definition buttonMarkup (action : Action) : string :=
  indent 16 ++ "<strong>" ++ orDefault (label action) "Action" ++ "</strong>" ++
  indent 16 ++ "<div style=" ++
    quoted "font-size: 12px; color: #666; margin-top: 4px;" ++ ">" ++
  indent 20 ++ orDefault (description action) EmptyString ++
  indent 16 ++ "</div>" ++
  indent 12.

Local Close Scope string_scope.

(** *** The environment of one analysis *)

Inductive Body :=
| BodyInvalid
| BodyNull
| BodyObject (r : Response).

Inductive FetchOutcome :=
| FetchFailed
| FetchResponse (status : nat) (body : Body).

(** Whether [html2canvas] is defined when the analysis starts, and how the
    steps it awaits end. *)
Record AnalysisEnv := mkEnv {
  html2canvasDefined : bool;
  scriptLoads : bool;
  screenshotResult : option string;
  fetchResult : FetchOutcome
}.

(** [response.ok] *)
Definition statusOk (status : nat) : bool := (200 <=? status) && (status <=? 299).

Section Browser.

Variable b : Browser.

Definition documentQuerySelector (selector : string) : M (option Element) :=
  fun s => match querySelector b (document s) selector with
           | QNull => Done None s
           | QElement el => Done (Some el) s
           | QSyntaxError => Thrown SyntaxError s
           end.

(** The nodes the parser creates from [markup]; each element takes an
    identity. *)
Definition parseMarkup (markup : string) : M (list Node) :=
  fun s => let new := parseHTML b (nextId s) markup in
           Done new (setNextId s (nextId s + List.length (elementsOf new))).

(** [el.innerHTML = markup] for the element of identity [n]: the nodes
    parsed from the markup take the place of its children. *)
Definition setInnerHTML (n : nat) (markup : string) : M unit :=
  new <- parseMarkup markup ;;
  modify (fun s => setPanelContent s (map (setChildren n new) (panelContent s))).

(** [el.innerHTML] for the element of identity [n]. *)
Definition innerHTML (n : nat) : M string :=
  gets (fun s => serializeHTML b (flat_map (childrenOf n) (panelContent s))).

(** [highlightElement(elementIndex)] *)
Definition highlightElement (elementIndex : Z) : M unit :=
  removeHighlights ;;
  elements <- scan ;;
  if (elementIndex <? Z.of_nat (List.length elements))%Z then
    selector <- propertyOf (arrayGet elements elementIndex) d_selector ;;
    element <- documentQuerySelector selector ;;
    match element with
    | Some el =>
        p <- gets page ;;
        let rect := getBoundingClientRect p el in
        highlight <- createElement "DIV" ;;
        let highlight :=
          withCssText (withClassName highlight "a11y-highlight-box")
            (HighlightBox (rect_left rect + scrollX p)%float
                          (rect_top rect + scrollY p)%float
                          (rect_width rect) (rect_height rect)) in
        appendToBody highlight ;;
        setTimeout (RemoveNode (nodeId highlight)) 3000
    | None => ret tt
    end
  else ret tt.

(** [showNotification(message)] *)
Definition showNotification (message : string) : M unit :=
  notification <- createElement "DIV" ;;
  let notification :=
    withCssText (withTextContent notification message) NotificationStyle in
  appendToBody notification ;;
  setTimeout (RemoveNode (nodeId notification)) 3000.

(** [loadHtml2Canvas()] up to the promise it returns: when [html2canvas] is
    not defined, the script element is put into the head. *)
Definition loadHtml2Canvas (defined : bool) : M unit :=
  if defined then ret tt
  else
    script <- createElement "SCRIPT" ;;
    let script :=
      withSrc script
        "https://cdn.jsdelivr.net/npm/html2canvas@1.4.1/dist/html2canvas.min.js" in
    appendToHead script.

(** [this.panel.querySelector('#analyze-btn')] and the first use of the
    button found: a [TypeError] when there is none. *)
Definition analyzeBtnQuery : M nat :=
  analyzeBtn <- panelQuery "analyze-btn" ;;
  propertyOf analyzeBtn nodeId.

(** [this.panel.querySelector('#a11y-actions')] and its first use. *)
Definition actionsContainerQuery : M nat :=
  actionsContainer <- panelQuery "a11y-actions" ;;
  propertyOf actionsContainer nodeId.

(** The [try] block of [analyzeCurrentPage] up to its first [await]: the
    button shows that the analysis runs, and the load of the library is
    started. The button found and its former markup are kept for the end of
    the block. *)
Definition beginAnalysis (defined : bool) : M (nat * string) :=
  analyzeBtn <- analyzeBtnQuery ;;
  originalText <- innerHTML analyzeBtn ;;
  setInnerHTML analyzeBtn (analyzingMarkup (pictograph b Hourglass)) ;;
  setProperty analyzeBtn (withDisabled true) ;;
  loadHtml2Canvas defined ;;
  ret (analyzeBtn, originalText).

(** The [catch] block of [analyzeCurrentPage]. *)
Definition analysisFailure : M unit :=
  consoleError "Analysis failed:" ;;
  analyzeBtn <- analyzeBtnQuery ;;
  setInnerHTML analyzeBtn (failedMarkup (pictograph b CrossMark)) ;;
  setProperty analyzeBtn (withDisabled false) ;;
  actionsContainer <- actionsContainerQuery ;;
  setInnerHTML actionsContainer failureMarkup.

(** [analyzeCurrentPage()] as far as it runs inside the call: up to the
    first [await], or through the [catch] block when the button is
    missing. *)
Definition startAnalysis (defined : bool) : M unit :=
  tryCatch (beginAnalysis defined ;; ret tt) (fun _ => analysisFailure).

(** [togglePanel()], given what the call of [analyzeCurrentPage] in it
    does. *)
Definition togglePanelWith (analyze : M unit) : M unit :=
  active <- gets panelActive ;;
  if active then modify (fun s => setPanelActive s false)
  else
    modify (fun s => setPanelActive s true) ;;
    current <- gets currentPage ;;
    match current with
    | None => detached analyze
    | Some _ => ret tt
    end.

(** *** Clicks *)

Definition isTrigger (l : Listener) : bool :=
  match l with
  | OnTrigger => true
  | _ => false
  end.

(** The listeners the overlay registered on the element of identity [n], in
    the order of their registration. *)
Definition listenersAt (s : State) (n : nat) : list Listener :=
  map snd (filter (fun l => fst l =? n) (listeners s)).

(** The target of a click and its ancestors up to the container, from the
    target up; empty for a target outside the container. *)
Definition eventPath (s : State) (target : Element) : list nat :=
  match flat_map (pathTo (nodeId target)) (overlayTree s) with
  | [] => if nodeId target =? container s then [container s] else []
  | below => below ++ [container s]
  end.

Section Dispatch.

(** Whether [html2canvas] is defined during the click, and what a call of
    [executeAction] from a listener does. *)
Variable defined : bool.
Variable execute : Action -> M unit.

(** One listener of the overlay runs. Each of the three calls an [async]
    method and drops its promise; an analysis started here runs up to its
    first [await]. *)
Definition runListener (l : Listener) : M unit :=
  match l with
  | OnTrigger => togglePanelWith (startAnalysis defined)
  | OnAnalyze => detached (startAnalysis defined)
  | OnAction action => detached (execute action)
  end.

Fixpoint runListeners (ls : list Listener) : M unit :=
  match ls with
  | [] => ret tt
  | l :: rest => runListener l ;; runListeners rest
  end.

(** The click goes up the path; the listener of the trigger button stops
    it. The result tells whether it was stopped. *)
Fixpoint propagate (path : list nat) : M bool :=
  match path with
  | [] => ret false
  | n :: up =>
      ls <- gets (fun s => listenersAt s n) ;;
      runListeners ls ;;
      if existsb isTrigger ls then ret true else propagate up
  end.

(** [element.click()]: a [TypeError] on an element without the method and
    nothing on a disabled form control; else the listeners of the page on
    the way down, those of the overlay on the path of the target, and,
    unless the click was stopped, the listeners of the page on the way
    up. *)
Definition click (el : Element) : M unit :=
  match clickMethod b el with
  | NoClickMethod => throw TypeError
  | InertClick => ret tt
  | DispatchesClick =>
      modify (fun s => setLog s (log s ++ [Clicked el])) ;;
      modify (fun s => setPage s (dispatchClick b el Capturing (page s))) ;;
      path <- gets (fun s => eventPath s el) ;;
      stopped <- propagate path ;;
      if stopped then ret tt
      else modify (fun s => setPage s (dispatchClick b el Bubbling (page s)))
  end.

(** The [try] block of [executeAction], in its three parts: highlight the
    element, simulate the click, close the panel after the action. *)
Definition highlightStep (action : Action) : M unit :=
  match element_index action with
  | Some i => highlightElement i
  | None => ret tt
  end.

Definition clickStep (action : Action) : M unit :=
  elements <- scan ;;
  match element_index action with
  | Some i =>
      if (i <? Z.of_nat (List.length elements))%Z then
        selector <- propertyOf (arrayGet elements i) d_selector ;;
        element <- documentQuerySelector selector ;;
        match element with
        | Some el =>
            click el ;;
            showNotification ("Clicked: " ++ template (label action))%string
        | None => ret tt
        end
      else ret tt
  | None => ret tt
  end.

Definition executeBody (action : Action) : M unit :=
  highlightStep action ;;
  clickStep action ;;
  setTimeout ClosePanel 1000.

(** [executeAction(action)], given what the calls from the listeners it
    reaches do. *)
Definition executeActionWith (action : Action) : M unit :=
  tryCatch (executeBody action)
    (fun _ =>
       consoleError "Action execution failed:" ;;
       showNotification "Failed to execute action").

End Dispatch.

(** A call of [executeAction] from a listener, [depth] calls of it being
    allowed inside one another. A click on the button of an action runs
    [executeAction] inside the [executeAction] that clicked; the depth
    stands for the stack of the engine, and a call past it fails before it
    does anything. *)
Fixpoint nested (defined : bool) (depth : nat) (action : Action) : M unit :=
  match depth with
  | O => ret tt
  | S d => executeActionWith defined (nested defined d) action
  end.

(** [executeAction(action)] *)
Definition executeAction (defined : bool) (depth : nat) (action : Action) : M unit :=
  executeActionWith defined (nested defined depth) action.

(** [displayActions(actions)]; the literal [0.7] is the double nearest
    to it. *)
Definition isPrimary (action : Action) : bool :=
  match confidence action with
  | Some c => (0x1.6666666666666p-1 <? c)%float
  | None => false
  end.

(** The body of [actions.forEach(action => ...)]. *)
Definition displayAction (actionsContainer : nat) (action : Action) : M unit :=
  button <- createElement "BUTTON" ;;
  let button := withClassName button "a11y-action-btn" in
  let button := if isPrimary action then addClass button "primary" else button in
  inner <- parseMarkup (buttonMarkup action) ;;
  addEventListener (nodeId button) (OnAction action) ;;
  appendTo actionsContainer (ElementNode button inner).

Fixpoint forEachAction (actionsContainer : nat) (acts : list Action) : M unit :=
  match acts with
  | [] => ret tt
  | action :: rest =>
      displayAction actionsContainer action ;;
      forEachAction actionsContainer rest
  end.

Definition displayActions (acts : list Action) : M unit :=
  actionsContainer <- actionsContainerQuery ;;
  clearChildren actionsContainer ;;
  if List.length acts =? 0 then setInnerHTML actionsContainer noActionsMarkup
  else forEachAction actionsContainer acts.

Section Analysis.

Variable env : AnalysisEnv.

(** How the promise of [loadHtml2Canvas()] ends. *)
Definition awaitLoad : M unit :=
  if html2canvasDefined env then ret tt
  else if scriptLoads env then ret tt else throw ScriptLoadError.

Definition captureScreenshot : M string :=
  match screenshotResult env with
  | Some screenshot => ret screenshot
  | None => throw ScreenshotError
  end.

(** [sendToBackend(endpoint, data)]; [None] is a body that parses to
    [null]. *)
Definition sendToBackend (endpoint screenshot : string)
    (dom_elements : list Descriptor) (url : string) : M (option Response) :=
  modify (fun s => setLog s
    (log s ++ [FetchPost (backendUrl ++ endpoint) screenshot dom_elements url])) ;;
  match fetchResult env with
  | FetchFailed => throw NetworkError
  | FetchResponse status body =>
      if negb (statusOk status) then throw (BackendError status)
      else match body with
           | BodyInvalid => throw SyntaxError
           | BodyNull => ret None
           | BodyObject r => ret (Some r)
           end
  end.

(** The [try] block of [analyzeCurrentPage] after its first [await], in
    its two parts: up to the answer of the backend, and from the answer
    on. *)
Definition requestAnalysis : M (option Response) :=
  awaitLoad ;;
  screenshot <- captureScreenshot ;;
  domElements <- scan ;;
  href <- gets (fun s => locationHref (page s)) ;;
  sendToBackend "/api/analyze-page" screenshot domElements href.

Definition storeAnalysis (started : nat * string) (response : option Response)
    : M unit :=
  sid <- propertyOf response session_id ;;
  modify (fun s => setSessionId s sid) ;;
  an <- propertyOf response analysis ;;
  modify (fun s => setCurrentPage s an) ;;
  acts <- propertyOf an an_actions ;;
  modify (fun s => setActions s (match acts with Some l => l | None => [] end)) ;;
  current <- gets actions ;;
  displayActions current ;;
  setInnerHTML (fst started) (snd started) ;;
  setProperty (fst started) (withDisabled false).

Definition analysisRest (started : nat * string) : M unit :=
  response <- requestAnalysis ;;
  storeAnalysis started response.

Definition analyzeBody : M unit :=
  started <- beginAnalysis (html2canvasDefined env) ;;
  analysisRest started.

(** [analyzeCurrentPage()], run to its end against the outcomes of the
    steps it awaits; [Thrown] is a rejected promise. *)
Definition analyzeCurrentPage : M unit :=
  tryCatch analyzeBody (fun _ => analysisFailure).

(** An analysis that a click started, from its first [await] on. *)
Definition resumeAnalysis (started : nat * string) : M unit :=
  tryCatch (analysisRest started) (fun _ => analysisFailure).

(** [togglePanel()], with the analysis it may start run to its end. *)
Definition togglePanel : M unit :=
  togglePanelWith analyzeCurrentPage.

End Analysis.

(** [init()], called by the constructor, on the page [p] with [n] the next
    free identity: the container goes to the end of the body, the trigger
    button and the panel into the container, and the listeners of the two
    buttons are registered. (The voice recognition and the listener for the
    messages of the extension are set up apart.) *)
Definition init (p : Page) (n : nat) : Outcome unit :=
  let container := withId (newElement n "DIV") "a11y-overlay-root" in
  let glyph := parseHTML b (n + 2) (pictograph b Microphone) in
  let k := n + 2 + List.length (elementsOf glyph) in
  let content := parseHTML b (S k) (panelMarkup (pictograph b Magnifier)) in
  (analyzeBtn <- analyzeBtnQuery ;;
   addEventListener analyzeBtn OnAnalyze)
    (mkState (setNodes p (nodes p ++ [container]))
             (S k + List.length (elementsOf content))
             n (n + 1) k glyph content
             [(n + 1, OnTrigger)]
             false false None None [] [] []).

(** *** Timers and the operations of the overlay as steps *)

Fixpoint dropNth {A} (k : nat) (l : list A) : list A :=
  match k, l with
  | _, [] => []
  | O, _ :: r => r
  | S k', a :: r => a :: dropNth k' r
  end.

Definition runTask (t : TimerTask) (s : State) : State :=
  match t with
  | RemoveNode n => removeNode n s
  | ClosePanel => setPanelActive s false
  end.

(** The [k]-th pending timer fires. *)
Definition fireTimer (k : nat) (s : State) : State :=
  match nth_error (timers s) k with
  | Some t => runTask (task t) (setTimers s (dropNth k (timers s)))
  | None => s
  end.

(** What moves the overlay: an action is executed; an analysis or a toggle
    of the panel runs in one piece; an analysis is started and left at its
    first [await], alone or by a toggle, and goes on later; a timer
    fires. *)
Inductive step : State -> State -> Prop :=
| step_execute (defined : bool) (depth : nat) (action : Action) (s : State) :
    step s (stateOf (executeAction defined depth action s))
| step_analyze (env : AnalysisEnv) (s : State) :
    step s (stateOf (analyzeCurrentPage env s))
| step_toggle (env : AnalysisEnv) (s : State) :
    step s (stateOf (togglePanel env s))
| step_start (defined : bool) (s : State) :
    step s (stateOf (startAnalysis defined s))
| step_toggle_start (defined : bool) (s : State) :
    step s (stateOf (togglePanelWith (startAnalysis defined) s))
| step_resume (env : AnalysisEnv) (started : nat * string) (s : State) :
    step s (stateOf (resumeAnalysis env started s))
| step_timer (k : nat) (s : State) :
    step s (fireTimer k s).

Inductive reachable (s0 : State) : State -> Prop :=
| reach_start : reachable s0 s0
| reach_step (s s' : State) :
    reachable s0 s -> step s s' -> reachable s0 s'.

End Browser.

End Overlay.

(** ** The scan read as a list of survivors *)

Module ScanSpec.

Import Scanner.

(** The elements of a list with their positions, counted from [i]. *)
Fixpoint indexedFrom {A} (i : nat) (l : list A) : list (A * nat) :=
  match l with
  | [] => []
  | a :: r => (a, i) :: indexedFrom (S i) r
  end.

(** The candidates of a scan with their position in the result of
    [querySelectorAll], and those that pass the visibility filter. *)
Definition candidates (p : Page) : list (Element * nat) :=
  indexedFrom 0 (querySelectorAll p).

Definition survivors (p : Page) : list (Element * nat) :=
  filter (fun c => isVisible p (fst c)) (candidates p).

Definition describeAt (p : Page) (c : Element * nat) : Descriptor :=
  describe p (fst c) (snd c).

End ScanSpec.

(** ** What an execution leaves to observe *)

Module Observe.

Import Scanner Overlay.

(** The notifications on the page: the nodes [showNotification] styled. *)
Definition isNotification (el : Element) : bool :=
  match cssText el with
  | NotificationStyle => true
  | _ => false
  end.

Definition notifications (s : State) : list string :=
  map textContent (filter isNotification (nodes (page s))).

(** The clicks performed so far. *)
Definition isClick (e : Event) : bool :=
  match e with
  | Clicked _ => true
  | _ => false
  end.

Definition clickCount (s : State) : nat :=
  List.length (filter isClick (log s)).

(** The pending timers that collapse the panel after one second. *)
Definition isCollapse (t : Timer) : bool :=
  match task t with
  | ClosePanel => delay t =? 1000
  | RemoveNode _ => false
  end.

Definition collapseCount (s : State) : nat :=
  List.length (filter isCollapse (timers s)).

(** The page the re-scan of [executeAction] reads when no highlight was
    drawn: the page without its highlight nodes. *)
Definition rescanned (s : State) : State := stateOf (removeHighlights s).

(** When the three awaited steps of an analysis fail. *)
Definition loadFails (env : AnalysisEnv) : bool :=
  negb (html2canvasDefined env) && negb (scriptLoads env).

Definition captureFails (env : AnalysisEnv) : bool :=
  match screenshotResult env with
  | Some _ => false
  | None => true
  end.

Definition requestFails (env : AnalysisEnv) : bool :=
  match fetchResult env with
  | FetchFailed => true
  | FetchResponse status body =>
      negb (statusOk status) ||
      match body with
      | BodyInvalid => true
      | _ => false
      end
  end.

End Observe.

(** ** Relations an operation may keep between the states before and after *)

Module Frame.

Import Overlay Observe.

(** [m] relates every state to the state it leaves, whether it returns or
    throws. *)
Definition keeps (R : State -> State -> Prop) {A} (m : M A) : Prop :=
  forall s, R s (stateOf (m s)).

Definition sameCollapse (s s' : State) : Prop := collapseCount s' = collapseCount s.

Definition sameClicks (s s' : State) : Prop := clickCount s' = clickCount s.

Definition noNewHighlight (s s' : State) : Prop :=
  highlightCount (page s') <= highlightCount (page s).

Definition sameSession (s s' : State) : Prop :=
  sessionId s' = sessionId s /\
  currentPage s' = currentPage s /\
  actions s' = actions s.

Definition samePanel (s s' : State) : Prop := panelActive s' = panelActive s.

Definition logGrows (s s' : State) : Prop :=
  List.length (log s) <= List.length (log s').

Definition collapseGrows (s s' : State) : Prop :=
  collapseCount s <= collapseCount s'.

(** At most one highlight node is among the children of the body. *)
Definition oneBox (s : State) : Prop := highlightCount (page s) <= 1.

(** What holds of the state before holds of the state after. *)
Definition carries (P : State -> Prop) (s s' : State) : Prop := P s -> P s'.

End Frame.

(** ** Concrete pages *)

Module Examples.

Import Scanner Dom Overlay.
Local Open Scope string_scope.

Definition shown : CSSStyle := mkStyle "block" "visible" "1".
Definition displayNone : CSSStyle := mkStyle "none" "visible" "1".

Definition box : DOMRect := (mkRect 10 20 100 30 20 50 10)%float.

(** [<button id=i class=cl>text</button>] *)
Definition button (n : nat) (i : string) (cl : list string) (text : string) : Element :=
  mkElement n "BUTTON" i cl [] text (Some EmptyString) None
            (Some EmptyString) (Some "submit") NoInlineStyle.

(** A page whose elements are all laid out in [box], those of the
    identities in [hidden] with [display: none]. *)
Definition pageOf (els : list Element) (hidden : list nat) : Page :=
  mkPage els
         (fun el => if existsb (Nat.eqb (nodeId el)) hidden then displayNone else shown)
         (fun _ => box) 800%float 0%float 0%float "http://example.test/".

(** A hidden button followed by a visible one. *)
Definition hiddenThenShown : Page :=
  pageOf [button 1 "a" [] "Cancel"; button 2 "b" [] "Save"] [1].

(** Three visible buttons. *)
Definition threeButtons : Page :=
  pageOf [button 1 "a" [] "One"; button 2 "b" [] "Two"; button 3 "c" [] "Three"] [].

(** Fifty-one visible buttons. *)
Definition manyButtons : Page :=
  pageOf (map (fun n => button n EmptyString ["item"] "Item") (seq 0 51)) [].

(** A string of [n] letters. *)
Fixpoint letters (n : nat) : string :=
  match n with
  | O => EmptyString
  | S k => String "a" (letters k)
  end.

(** [<input aria-label=...>] with a label of 101 characters and no text. *)
Definition longLabelInput : Element :=
  mkElement 1 "INPUT" EmptyString [] [("aria-label", letters 101)] EmptyString
            (Some EmptyString) (Some EmptyString) (Some EmptyString)
            (Some "text") NoInlineStyle.

(** [<button data-testid= class=btn>] : the attribute is there and empty. *)
Definition emptyTestId : Element :=
  mkElement 1 "BUTTON" EmptyString ["btn"] [("data-testid", EmptyString); ("class", "btn")]
            "Go" (Some EmptyString) None (Some EmptyString) (Some "submit")
            NoInlineStyle.

(** [<button id=save data-testid=t class=x y>] *)
Definition fullButton : Element :=
  mkElement 1 "BUTTON" "save" ["x"; "y"] [("id", "save"); ("data-testid", "t"); ("class", "x y")]
            "Save" (Some EmptyString) None (Some EmptyString) (Some "submit")
            NoInlineStyle.

(** A browser that resolves no selector, one that resolves every selector
    to the first element, one that rejects every selector, and a page
    without listeners. *)
Definition resolveNone (els : list Element) (selector : string) : QueryResult := QNull.

Definition resolveFirst (els : list Element) (selector : string) : QueryResult :=
  match els with
  | el :: _ => QElement el
  | [] => QNull
  end.

Definition rejectAll (els : list Element) (selector : string) : QueryResult :=
  QSyntaxError.

Definition noListeners (el : Element) (phase : Phase) (p : Page) : Page := p.

(** The parts of a string between the occurrences of a character. *)
Fixpoint splitOn (c : ascii) (s : string) : list string :=
  match s with
  | EmptyString => [EmptyString]
  | String d r =>
      if Ascii.eqb d c then EmptyString :: splitOn c r
      else match splitOn c r with
           | first :: others => String d first :: others
           | [] => [String d EmptyString]
           end
  end.

(** Whether an element matches a selector of one of the four forms that
    [generateSelector] builds. *)
Definition matchesSelector (el : Element) (selector : string) : bool :=
  match selector with
  | String "#" i => id_ el =? i
  | String "." classes =>
      forallb (fun c => existsb (String.eqb c) (classList el)) (splitOn "." classes)
  | String "[" _ =>
      match getAttribute el "data-testid" with
      | Some v => selector =? "[data-testid=" ++ dquote ++ v ++ dquote ++ "]"
      | None => false
      end
  | _ => toLowerCase (tagName el) =? selector
  end.

(** A browser that resolves such a selector to the first element of the
    document that matches it. *)
Definition resolve (els : list Element) (selector : string) : QueryResult :=
  match find (fun el => matchesSelector el selector) els with
  | Some el => QElement el
  | None => QNull
  end.

(** A stand-in for the text of a pictograph: two characters, as a
    pictograph takes two code units. *)
Definition glyph (p : Pictograph) : string := "##".

(** An element as the parser creates it for a tag without [value] and
    [type], and a button. *)
Definition parsed (n : nat) (tag i : string) (cl : list string)
    (attrs : list (string * string)) (style : InlineStyle) : Element :=
  mkElement n tag i cl attrs EmptyString None None (Some EmptyString) None style.

Definition parsedButton (n : nat) (i : string) (cl : list string)
    (attrs : list (string * string)) : Element :=
  mkElement n "BUTTON" i cl attrs EmptyString (Some EmptyString) None
            (Some EmptyString) (Some "submit") NoInlineStyle.

Definition styled (n : nat) (tag css : string) : Element :=
  parsed n tag EmptyString [] [("style", css)] (StyleText css).

(** The nodes of the markup of the panel, of the two messages and of the
    button of an action whose label and description are text. *)
Definition panelNodes (n : nat) : list Node :=
  [TextNode (indent 12);
   ElementNode
     (parsed n "DIV" EmptyString ["a11y-panel-header"]
             [("class", "a11y-panel-header")] NoInlineStyle)
     [TextNode (indent 16);
      ElementNode
        (parsed (n + 1) "H3" EmptyString ["a11y-panel-title"]
                [("class", "a11y-panel-title")] NoInlineStyle)
        [TextNode "A11y Assistant"];
      TextNode (indent 16);
      ElementNode
        (parsed (n + 2) "P" EmptyString ["a11y-panel-subtitle"]
                [("class", "a11y-panel-subtitle")] NoInlineStyle)
        [TextNode "AI navigation helper"];
      TextNode (indent 12)];
   TextNode (indent 12);
   ElementNode
     (parsed (n + 3) "DIV" EmptyString ["a11y-panel-content"]
             [("class", "a11y-panel-content")] NoInlineStyle)
     [TextNode (indent 16);
      ElementNode
        (styled (n + 4) "DIV" "margin-bottom: 16px; font-size: 14px; color: #6b7280;")
        [TextNode (indent 20 ++ "Say " ++ quoted "hey assistant" ++ " or click below"
                   ++ indent 16)];
      TextNode (indent 16);
      ElementNode
        (parsed (n + 5) "DIV" "a11y-actions" [] [("id", "a11y-actions")] NoInlineStyle)
        [TextNode (indent 20);
         ElementNode
           (parsedButton (n + 6) "analyze-btn" ["a11y-action-btn"; "primary"]
                         [("class", "a11y-action-btn primary"); ("id", "analyze-btn")])
           [TextNode (indent 24 ++ glyph Magnifier ++ " Analyze This Page" ++ indent 20)];
         TextNode (indent 16)];
      TextNode (indent 12)];
   TextNode (indent 8)].

Definition failureNodes (n : nat) : list Node :=
  [TextNode (indent 16);
   ElementNode
     (styled n "DIV" "text-align: center; padding: 20px; color: #dc2626;")
     [TextNode (indent 20);
      ElementNode (parsed (n + 1) "P" EmptyString [] [] NoInlineStyle)
                  [TextNode "Failed to analyze page."];
      TextNode (indent 20);
      ElementNode (parsed (n + 2) "P" EmptyString [] [] NoInlineStyle)
                  [TextNode ("Make sure backend is running at " ++ backendUrl)];
      TextNode (indent 16)];
   TextNode (indent 12)].

Definition noActionsNodes (n : nat) : list Node :=
  [TextNode (indent 16);
   ElementNode
     (styled n "DIV" "text-align: center; padding: 20px; color: #6b7280;")
     [TextNode (indent 20);
      ElementNode (parsed (n + 1) "P" EmptyString [] [] NoInlineStyle)
                  [TextNode "No actions found."];
      TextNode (indent 16)];
   TextNode (indent 12)].

Definition buttonNodes (n : nat) (inLabel : list Node) (description : string)
    : list Node :=
  [TextNode (indent 16);
   ElementNode (parsed n "STRONG" EmptyString [] [] NoInlineStyle) inLabel;
   TextNode (indent 16);
   ElementNode
     (styled (n + 1 + List.length (elementsOf inLabel)) "DIV"
             "font-size: 12px; color: #666; margin-top: 4px;")
     [TextNode (indent 20 ++ description ++ indent 16)];
   TextNode (indent 12)].

Definition action (name : string) (i : Z) : Action :=
  mkAction (Some name) None (Some 0.5%float) (Some i).

(** An action whose label is markup: two elements of the class of the
    highlight box. *)
Definition boxMarkup : string := "<div class=a11y-highlight-box></div>".

Definition boxed (i : Z) : Action :=
  mkAction (Some (boxMarkup ++ boxMarkup)) None (Some 0.5%float) (Some i).

Definition boxNode (n : nat) : Node :=
  ElementNode
    (parsed n "DIV" EmptyString ["a11y-highlight-box"]
            [("class", "a11y-highlight-box")] NoInlineStyle)
    [].

(** A parser that knows the markup of the overlay and of the actions used
    here, and takes all other markup for text. *)
Definition parse (n : nat) (markup : string) : list Node :=
  if markup =? panelMarkup (glyph Magnifier) then panelNodes n
  else if markup =? failureMarkup then failureNodes n
  else if markup =? noActionsMarkup then noActionsNodes n
  else if markup =? buttonMarkup (action "Save" 1)
  then buttonNodes n [TextNode "Save"] EmptyString
  else if markup =? buttonMarkup (action "Two" 1)
  then buttonNodes n [TextNode "Two"] EmptyString
  else if markup =? buttonMarkup (action "Overlay" 4)
  then buttonNodes n [TextNode "Overlay"] EmptyString
  else if markup =? buttonMarkup (boxed 0)
  then buttonNodes n [boxNode (n + 1); boxNode (n + 2)] EmptyString
  else if markup =? EmptyString then []
  else [TextNode markup].

(** The markup of children that are text. *)
Definition serialize (forest : list Node) : string := textOfAll forest.

(** The elements are HTML elements: their [click] method dispatches a
    click, unless the element is a form control with the [disabled]
    attribute. *)
Definition clickOf (el : Element) : ClickMethod :=
  if (isTag el "button" || isTag el "input" || isTag el "select" || isTag el "textarea")
     && hasAttribute el "disabled"
  then InertClick
  else DispatchesClick.

(** A browser of such elements, with one of the ways to resolve a
    selector. *)
Definition browserWith (query : list Element -> string -> QueryResult) : Browser :=
  mkBrowser query parse serialize clickOf noListeners glyph.

Definition browser : Browser := browserWith resolveFirst.

(** The overlay as constructed, on a given page. *)
Definition initial (p : Page) : State := stateOf (init browser p 1000).

Definition opened (p : Page) : State := setPanelActive (initial p) true.

Definition backendDown : AnalysisEnv := mkEnv true true (Some "data:image/jpeg;base64,") FetchFailed.

Definition answers (acts : list Action) : AnalysisEnv :=
  mkEnv true true (Some "data:image/jpeg;base64,")
        (FetchResponse 200
           (BodyObject (mkResponse (Some "s1") (Some (mkAnalysis (Some acts)))))).

Definition backendAnswers : AnalysisEnv := answers [action "Save" 1].

(** The state after an analysis that the backend answered with two actions:
    the first names the second button of the page, the second names the
    button that the panel shows for the first. *)
Definition twoActions : State :=
  stateOf (analyzeCurrentPage (browserWith resolve)
             (answers [action "Two" 1; action "Overlay" 4]) (opened threeButtons)).

End Examples.

(** ** Further observations *)

Module Observe2.

Import Scanner Dom Overlay Observe.

(** The requests sent to the backend so far. *)
Definition isFetch (e : Event) : bool :=
  match e with
  | FetchPost _ _ _ _ => true
  | _ => false
  end.

Definition fetchCount (s : State) : nat :=
  List.length (filter isFetch (log s)).

(** The identities of the children of the body, the container among them,
    are below the next identity [createElement] hands out. *)
Definition freshIds (s : State) : Prop :=
  Forall (fun el => nodeId el < nextId s) (nodes (page s)).

(** The highlight box [highlightElement] builds for the element [el] in the
    state [s]. *)
Definition highlightBoxFor (s : State) (el : Element) : Element :=
  let rect := getBoundingClientRect (page s) el in
  mkElement (nextId s) "DIV" EmptyString ["a11y-highlight-box"%string]
            [("class"%string, "a11y-highlight-box"%string)] EmptyString
            None None (Some EmptyString) None
            (HighlightBox (rect_left rect + scrollX (page s))%float
                          (rect_top rect + scrollY (page s))%float
                          (rect_width rect) (rect_height rect)).

(** The notification [showNotification] builds in the state [s]. *)
Definition notificationFor (s : State) (message : string) : Element :=
  mkElement (nextId s) "DIV" EmptyString [] [] message
            None None (Some EmptyString) None NotificationStyle.

(** The state after a node was created, appended to the body and given its
    removal timer of three seconds. *)
Definition withNewNode (s : State) (el : Element) : State :=
  setTimers
    (setPage (setNextId s (S (nextId s)))
             (setNodes (page s) (nodes (page s) ++ [el])))
    (timers s ++ [mkTimer 3000 (RemoveNode (nextId s))]).

(** The state after [element.click()] on an element outside the container
    of the overlay: the click is on record, and the listeners of the page
    ran on its way down and up. *)
Definition clicked (b : Browser) (s : State) (el : Element) : State :=
  let s1 := setLog s (log s ++ [Clicked el]) in
  let s2 := setPage s1 (dispatchClick b el Capturing (page s1)) in
  setPage s2 (dispatchClick b el Bubbling (page s2)).

(** The state after the collapse of the panel was scheduled. *)
Definition collapseScheduled (s : State) : State :=
  setTimers s (timers s ++ [mkTimer 1000 ClosePanel]).

(** The state after the handler of [executeAction] ran. *)
Definition failureReported (s : State) : State :=
  let s1 := setLog s (log s ++ [ConsoleError "Action execution failed:"]) in
  withNewNode s1 (notificationFor s1 "Failed to execute action").

(** The script element [loadHtml2Canvas] builds in the state [s], and the
    state after it was put into the head. *)
Definition scriptFor (s : State) : Element :=
  mkElement (nextId s) "SCRIPT" EmptyString []
            [("src"%string,
              "https://cdn.jsdelivr.net/npm/html2canvas@1.4.1/dist/html2canvas.min.js"%string)]
            EmptyString None None (Some EmptyString) None NoInlineStyle.

Definition withScript (s : State) : State :=
  setPage (setNextId s (S (nextId s)))
          (setNodes (page s) (scriptFor s :: nodes (page s))).

(** *** The panel during an analysis *)

(** What [this.panel.querySelector('#' + i)] finds. *)
Definition queried (s : State) (i : string) : option Element :=
  find (fun el => (id_ el =? i)%string) (elementsOf (panelContent s)).

(** The panel holds an element with the id [analyze-btn]. *)
Definition hasAnalyzeBtn (s : State) : bool :=
  match queried s "analyze-btn" with
  | Some _ => true
  | None => false
  end.

(** The first element of the panel that has the id [i] or the identity
    [n]. *)
Definition firstOf (s : State) (i : string) (n : nat) : option Element :=
  find (fun el => (id_ el =? i)%string || (nodeId el =? n))
       (elementsOf (panelContent s)).

(** The first element of the panel with the id [i] has the identity [k],
    and no element before it has the identity [n]. *)
Definition foundAt (s : State) (i : string) (n k : nat) : Prop :=
  exists el, firstOf s i n = Some el /\ id_ el = i /\ nodeId el = k.

(** The analyze button is the element of identity [btn]: the first element
    of the panel with the id [analyze-btn], and no element before it has
    its identity. *)
Definition analyzeBtnIs (s : State) (btn : nat) : Prop :=
  foundAt s "analyze-btn" btn btn.

(** The container of the actions is the element of identity [cid]: the
    first element of the panel with the id [a11y-actions], and it comes
    before the analyze button, of identity [btn]. *)
Definition actionsContainerIs (s : State) (btn cid : nat) : Prop :=
  foundAt s "a11y-actions" btn cid.

(** The state after [el.innerHTML = markup] for the element of identity
    [n]. *)
Definition written (b : Browser) (n : nat) (markup : string) (s : State) : State :=
  let new := parseHTML b (nextId s) markup in
  setPanelContent (setNextId s (nextId s + List.length (elementsOf new)))
                  (map (setChildren n new) (panelContent s)).

(** The state after [el.disabled = d] for the element of identity [n]. *)
Definition disabledSet (d : bool) (n : nat) (s : State) : State :=
  setPanelContent s (map (updateElement n (withDisabled d)) (panelContent s)).

(** The state at the first [await] of an analysis that found the analyze
    button [btn]: the button reads [Analyzing...] and is disabled, and the
    script of the library is in the head unless the library is defined. *)
Definition begun (b : Browser) (defined : bool) (btn : nat) (s : State) : State :=
  let s1 := disabledSet true btn
              (written b btn (analyzingMarkup (pictograph b Hourglass)) s) in
  if defined then s1 else withScript s1.

(** What the analyze button [btn] held when the analysis began. *)
Definition originalText (b : Browser) (btn : nat) (s : State) : string :=
  serializeHTML b (flat_map (childrenOf btn) (panelContent s)).

(** The state after the request of an analysis was sent from the state
    [s]. *)
Definition requestSent (screenshot : string) (s : State) : State :=
  setLog s
    (log s ++ [FetchPost (backendUrl ++ "/api/analyze-page") screenshot
                         (captureDomElements (documentPage s))
                         (locationHref (page s))]).

(** What [sendToBackend] makes of the answer. *)
Definition answerOf (env : AnalysisEnv) (s : State) : Outcome (option Response) :=
  match fetchResult env with
  | FetchFailed => Thrown NetworkError s
  | FetchResponse status body =>
      if negb (statusOk status) then Thrown (BackendError status) s
      else match body with
           | BodyInvalid => Thrown SyntaxError s
           | BodyNull => Done None s
           | BodyObject r => Done (Some r) s
           end
  end.

(** The state after the handler of [analyzeCurrentPage] found no analyze
    button: the error is on the console and the promise is rejected. *)
Definition analysisRejected (s : State) : State :=
  setLog s (log s ++ [ConsoleError "Analysis failed:"]).

(** The state after the handler of [analyzeCurrentPage] ran on a panel with
    the analyze button [btn] and the container [cid]: the error is on the
    console, the button reads [Failed - Try Again] and is enabled, and the
    container holds the failure message. *)
Definition failureShown (b : Browser) (btn cid : nat) (s : State) : State :=
  written b cid failureMarkup
    (disabledSet false btn
       (written b btn (failedMarkup (pictograph b CrossMark))
          (analysisRejected s))).

(** The state after the three fields of an answer were stored. *)
Definition sessionStored (r : Response) (an : Analysis) (s : State) : State :=
  setActions (setCurrentPage (setSessionId s (session_id r)) (Some an))
             (match an_actions an with Some l => l | None => [] end).

(** The button [displayActions] builds for an action, its element of
    identity [n]; the elements parsed from its markup take the identities
    from [S n] on. *)
Definition actionButton (n : nat) (action : Action) : Element :=
  let button := withClassName (newElement n "BUTTON") "a11y-action-btn" in
  if isPrimary action then addClass button "primary" else button.

Definition buttonNode (b : Browser) (n : nat) (action : Action) : Node :=
  ElementNode (actionButton n action) (parseHTML b (S n) (buttonMarkup action)).

Definition nextAfterButton (b : Browser) (n : nat) (action : Action) : nat :=
  S n + List.length (elementsOf (parseHTML b (S n) (buttonMarkup action))).

(** The identities of the buttons of a list of actions, [n] being the next
    free identity before, and the next free identity after them. *)
Fixpoint identitiesFrom (b : Browser) (n : nat) (acts : list Action) : list nat :=
  match acts with
  | [] => []
  | action :: rest => n :: identitiesFrom b (nextAfterButton b n action) rest
  end.

Fixpoint nextAfter (b : Browser) (n : nat) (acts : list Action) : nat :=
  match acts with
  | [] => n
  | action :: rest => nextAfter b (nextAfterButton b n action) rest
  end.

(** The buttons of a list of actions and the listeners registered on them:
    one for each action, in the order of the actions. *)
Definition buttonsFrom (b : Browser) (n : nat) (acts : list Action) : list Node :=
  map (fun ka => buttonNode b (fst ka) (snd ka))
      (combine (identitiesFrom b n acts) acts).

Definition listenersFrom (b : Browser) (n : nat) (acts : list Action)
    : list (nat * Listener) :=
  map (fun ka => (fst ka, OnAction (snd ka)))
      (combine (identitiesFrom b n acts) acts).

(** The state after [displayActions] on a panel with the container [cid]:
    the container holds the message [No actions found.], or one button for
    each action. *)
Definition displayed (b : Browser) (acts : list Action) (cid : nat) (s : State)
    : State :=
  if List.length acts =? 0
  then written b cid noActionsMarkup
         (setPanelContent s (map (setChildren cid []) (panelContent s)))
  else setPanelContent
         (setListeners (setNextId s (nextAfter b (nextId s) acts))
                       (listeners s ++ listenersFrom b (nextId s) acts))
         (map (setChildren cid (buttonsFrom b (nextId s) acts)) (panelContent s)).

(** The state after the analyze button [btn] was given back its markup and
    enabled. *)
Definition restored (b : Browser) (btn : nat) (original : string) (s : State)
    : State :=
  disabledSet false btn (written b btn original s).

(** The log is the same. *)
Definition sameLog (s s' : State) : Prop := log s' = log s.

End Observe2.

(** ** The voice trigger and the message listener of the content script *)

Module Voice.

Import Scanner Overlay.

(** [s.startsWith(w)] and [s.includes(w)]. *)
Fixpoint startsWith (s w : string) {struct w} : bool :=
  match w with
  | EmptyString => true
  | String c w' =>
      match s with
      | EmptyString => false
      | String d s' => Ascii.eqb c d && startsWith s' w'
      end
  end.

Fixpoint includes (s w : string) : bool :=
  startsWith s w ||
  match s with
  | EmptyString => false
  | String _ r => includes r w
  end.

(** One entry of [event.results]: whether it is final, and the transcript
    of its first alternative. *)
Record SpeechResult := mkSpeechResult {
  isFinal : bool;
  transcript : string
}.

Record SpeechEvent := mkSpeechEvent {
  resultIndex : nat;
  results : list SpeechResult
}.

(** The loop of [onresult] over the results from [resultIndex] on. *)
Fixpoint collectFinal (rs : list SpeechResult) (finalTranscript : string) : string :=
  match rs with
  | [] => finalTranscript
  | r :: rest =>
      collectFinal rest
        (if isFinal r then (finalTranscript ++ transcript r)%string
         else finalTranscript)
  end.

Definition finalTranscript (event : SpeechEvent) : string :=
  collectFinal (skipn (resultIndex event) (results event)) EmptyString.

(** The overlay with its recognition: whether [this.recognition] was set,
    and whether the recognition is started. *)
Record Widget := mkWidget {
  overlay : State;
  recognition : bool;
  recognizing : bool
}.

Definition setOverlay (w : Widget) (s : State) : Widget :=
  mkWidget s (recognition w) (recognizing w).

(** [recognition.onstart] and [recognition.onend]: the trigger button takes
    and loses the class [listening]. *)
Definition onstart (w : Widget) : Widget :=
  setOverlay w (setListening (overlay w) true).

Definition onend (w : Widget) : Widget :=
  mkWidget (setListening (overlay w) false) (recognition w) false.

(** [toggleVoiceListening()]: [recognition.start()] throws on a recognition
    that is started already, and the error goes to the console. *)
Definition toggleVoiceListening (w : Widget) : Widget :=
  if negb (recognition w) then w
  else if recognizing w
       then setOverlay w
              (setLog (overlay w)
                      (log (overlay w) ++ [ConsoleError "Voice recognition error:"]))
       else mkWidget (overlay w) (recognition w) true.

Section Environment.

Variable b : Browser.
Variable env : AnalysisEnv.

(** [recognition.onresult] *)
Definition onresult (event : SpeechEvent) (w : Widget) : Widget :=
  if includes (toLowerCase (finalTranscript event)) wakeWord
  then setOverlay w (stateOf (togglePanel b env (overlay w)))
  else w.

(** The listener of [chrome.runtime.onMessage] in [init]: three tests, one
    after the other. *)
Definition onMessage (action : string) (w : Widget) : Widget :=
  let w1 :=
    if (action =? "analyzePage")%string
    then setOverlay w (stateOf (analyzeCurrentPage b env (overlay w)))
    else w in
  let w2 :=
    if (action =? "toggleVoice")%string then toggleVoiceListening w1 else w1 in
  if (action =? "toggleWidget")%string
  then setOverlay w2 (stateOf (togglePanel b env (overlay w2)))
  else w2.

End Environment.

(** [n] calls of [toggleVoiceListening]. *)
Fixpoint toggleTimes (n : nat) (w : Widget) : Widget :=
  match n with
  | O => w
  | S k => toggleTimes k (toggleVoiceListening w)
  end.

End Voice.

(** ** The background script *)

Module Background.

Inductive SettingValue :=
| SString (s : string)
| SBool (b : bool).

(** [chrome.storage.sync]: keys and values. *)
Definition Storage := list (string * SettingValue).

Fixpoint storageLookup (key : string) (st : Storage) : option SettingValue :=
  match st with
  | [] => None
  | (k, v) :: r => if (k =? key)%string then Some v else storageLookup key r
  end.

Fixpoint setKey (key : string) (v : SettingValue) (st : Storage) : Storage :=
  match st with
  | [] => [(key, v)]
  | (k, w) :: r =>
      if (k =? key)%string then (key, v) :: r else (k, w) :: setKey key v r
  end.

(** [chrome.storage.sync.set(items)] *)
Definition storageSet (items : list (string * SettingValue)) (st : Storage) : Storage :=
  fold_left (fun acc kv => setKey (fst kv) (snd kv) acc) items st.

(** [chrome.storage.sync.get(keys, callback)]: the keys that are stored,
    with their values. *)
Definition storageGet (keys : list string) (st : Storage) : list (string * SettingValue) :=
  flat_map (fun k => match storageLookup k st with
                     | Some v => [(k, v)]
                     | None => []
                     end) keys.

Definition defaults : list (string * SettingValue) :=
  [("backendUrl"%string, SString "http://localhost:8000");
   ("enabled"%string, SBool true);
   ("wakeWord"%string, SString "hey assistant")].

(** The listener of [chrome.runtime.onInstalled]. *)
Definition onInstalled (st : Storage) : Storage := storageSet defaults st.

Inductive Reply :=
| Success
| Settings (items : list (string * SettingValue)).

(** What the listener of [chrome.runtime.onMessage] does with one message:
    whether it returns [true] (the channel stays open for a reply), the
    message it sends to a tab, and the reply it gives. *)
Record Relay := mkRelay {
  keepsChannel : bool;
  forwarded : option (nat * string);
  reply : option Reply
}.

(** Forwarding to [tabs[0]], the first tab of the query for the active
    tab. *)
Definition forwardTo (tabs : list nat) (action : string) : Relay :=
  match tabs with
  | tab :: _ => mkRelay true (Some (tab, action)) (Some Success)
  | [] => mkRelay true None None
  end.

Definition onMessage (action : string) (tabs : list nat) (st : Storage) : Relay :=
  if (action =? "analyzePage")%string then forwardTo tabs "analyzePage"
  else if (action =? "toggleVoice")%string then forwardTo tabs "toggleVoice"
  else if (action =? "getSettings")%string
  then mkRelay true None (Some (Settings (storageGet ["backendUrl"; "enabled"]%string st)))
  else mkRelay false None None.

End Background.

(** ** The popup *)

Module Popup.

(** What [chrome.tabs.query] answers. *)
Inductive TabsQuery :=
| QueryFails
| QueryTabs (tabs : list nat).

(** The status line of the popup and the messages it sent to tabs. *)
Record PopupState := mkPopup {
  status : string;
  sent : list (nat * string)
}.

(** The click listener of [#analyze-btn]; [delivered] tells whether
    [chrome.tabs.sendMessage] is fulfilled. *)
Definition analyzeClick (query : TabsQuery) (delivered : bool) (p : PopupState)
    : PopupState :=
  let p1 := mkPopup "Sending to page..." (sent p) in
  match query with
  | QueryFails => mkPopup "Error: Page not ready. Refresh and try again." (sent p1)
  | QueryTabs [] => mkPopup "No active tab found" (sent p1)
  | QueryTabs (tab :: _) =>
      let p2 := mkPopup (status p1) (sent p1 ++ [(tab, "analyzePage"%string)]) in
      if delivered then mkPopup "Analysis started!" (sent p2)
      else mkPopup "Error: Page not ready. Refresh and try again." (sent p2)
  end.

(** The click listener of [#voice-btn]. *)
Definition voiceClick (query : TabsQuery) (delivered : bool) (p : PopupState)
    : PopupState :=
  match query with
  | QueryFails => mkPopup "Voice not available on this page" (sent p)
  | QueryTabs [] => mkPopup "No active tab found" (sent p)
  | QueryTabs (tab :: _) =>
      let p2 := mkPopup (status p) (sent p ++ [(tab, "toggleVoice"%string)]) in
      if delivered then mkPopup "Voice toggled" (sent p2)
      else mkPopup "Voice not available on this page" (sent p2)
  end.

(** The content script of the tab receives the messages, in order. *)
Definition received (b : Overlay.Browser) (env : Overlay.AnalysisEnv)
    (messages : list (nat * string)) (w : Voice.Widget) : Voice.Widget :=
  fold_left (fun acc m => Voice.onMessage b env (snd m) acc) messages w.

End Popup.

(** ** More concrete inputs *)

Module Examples2.

Import Scanner Overlay Observe2 Voice Examples.
Local Open Scope string_scope.

(** A backend that answers with a session and no analysis. *)
Definition backendAnswersBare : AnalysisEnv :=
  mkEnv true true (Some "data:image/jpeg;base64,")
        (FetchResponse 200 (BodyObject (mkResponse (Some "s2") None))).

(** The state after one analysis that the backend answered. *)
Definition analysed : State :=
  stateOf (analyzeCurrentPage browser backendAnswers (opened threeButtons)).

(** The analyze button of the panel as [init] builds it. *)
Definition analyzeBtn : Element :=
  match queried (opened threeButtons) "analyze-btn" with
  | Some el => el
  | None => button 0 EmptyString [] EmptyString
  end.

(** The container of the actions in that panel. *)
Definition actionsContainer : Element :=
  match queried (opened threeButtons) "a11y-actions" with
  | Some el => el
  | None => button 0 EmptyString [] EmptyString
  end.

(** A widget with a recognition that is not started. *)
Definition widget : Widget := mkWidget (initial threeButtons) true false.

(** One final result that holds the wake phrase in capitals, and one
    interim result that holds it. *)
Definition spoken : SpeechEvent :=
  mkSpeechEvent 0 [mkSpeechResult true "Please say HEY Assistant now"].

Definition interim : SpeechEvent :=
  mkSpeechEvent 0 [mkSpeechResult false "hey assistant"].

End Examples2.

(** * Properties *)

(** ** Comparisons of numbers *)

Section NumberFacts.

Lemma SFcompare_antisym (x y : spec_float) :
  SFcompare y x = option_map CompOpp (SFcompare x y).
Proof.
  destruct x as [sx|sx| |sx mx ex], y as [sy|sy| |sy my ey]; cbn;
    try reflexivity;
    try (destruct sx; reflexivity); try (destruct sy; reflexivity);
    try (destruct sx, sy; reflexivity).
  destruct sx, sy; cbn; try reflexivity;
    rewrite (Z.compare_antisym ex ey);
    destruct (ex ?= ey)%Z; cbn; try reflexivity;
    rewrite (Pos.compare_cont_antisym mx my Eq); cbn;
    try rewrite CompOpp_involutive; reflexivity.
Qed.

(** [a >= b] excludes [a < b]. *)
Lemma ltb_false_of_leb (a b : number) :
  (b <=? a)%float = true -> (a <? b)%float = false.
Proof.
  rewrite leb_spec, ltb_spec. unfold SFleb, SFltb.
  rewrite (SFcompare_antisym (Prim2SF b) (Prim2SF a)).
  destruct (SFcompare (Prim2SF b) (Prim2SF a)) as [[]|]; cbn; congruence.
Qed.

(** [a == b] excludes [b < a]. *)
Lemma ltb_false_of_eqb (a b : number) :
  (a =? b)%float = true -> (b <? a)%float = false.
Proof.
  rewrite eqb_spec, ltb_spec. unfold SFeqb, SFltb.
  rewrite (SFcompare_antisym (Prim2SF a) (Prim2SF b)).
  destruct (SFcompare (Prim2SF a) (Prim2SF b)) as [[]|]; cbn; congruence.
Qed.

End NumberFacts.

(** ** The scanner *)

Module ScanFacts.

Import Scanner ScanSpec Examples.

Lemma substring0_length (n : nat) (s : string) :
  String.length (substring0 n s) <= n.
Proof.
  unfold substring0. revert n.
  induction s as [|c s IH]; intros [|n]; cbn; try lia.
  specialize (IH n). lia.
Qed.

(** The loop appends, to what was collected, the descriptors of the visible
    elements, each with the loop counter it was met at. *)
Lemma forEachFrom_survivors (p : Page) (els : list Element) :
  forall (i : nat) (acc : list Descriptor),
    forEachFrom p els i acc =
    acc ++ map (describeAt p)
               (filter (fun c => isVisible p (fst c)) (indexedFrom i els)).
Proof.
  induction els as [|el rest IH]; intros i acc; cbn.
  - now rewrite app_nil_r.
  - rewrite IH. unfold scanStep.
    destruct (isVisible p el); cbn; [|reflexivity].
    now rewrite <- app_assoc.
Qed.

Lemma captureDomElements_survivors (p : Page) :
  captureDomElements p = map (describeAt p) (firstn 50 (survivors p)).
Proof.
  unfold captureDomElements, slice0, survivors, candidates.
  rewrite forEachFrom_survivors. cbn [app].
  now rewrite firstn_map.
Qed.

Lemma indexedFrom_In {A} (l : list A) :
  forall (k i : nat) (a : A),
    In (a, i) (indexedFrom k l) -> k <= i /\ nth_error l (i - k) = Some a.
Proof.
  induction l as [|b r IH]; intros k i a Hin; cbn in Hin; [easy|].
  destruct Hin as [Heq | Hin].
  - inversion Heq; subst. rewrite Nat.sub_diag. now split.
  - apply IH in Hin. destruct Hin as [Hle Hnth]. split; [lia|].
    replace (i - k) with (S (i - S k)) by lia. exact Hnth.
Qed.

Lemma in_firstn {A} (n : nat) (l : list A) (a : A) :
  In a (firstn n l) -> In a l.
Proof.
  intros Hin. rewrite <- (firstn_skipn n l). apply in_or_app. now left.
Qed.

(** Every descriptor of a scan was built from a visible candidate, and its
    [index] is the position of that candidate in the result of
    [querySelectorAll]. *)
Lemma descriptor_origin (p : Page) (d : Descriptor) :
  In d (captureDomElements p) ->
  exists el,
    nth_error (querySelectorAll p) (d_index d) = Some el /\
    isVisible p el = true /\
    d = describe p el (d_index d).
Proof.
  rewrite captureDomElements_survivors. intros Hin.
  apply in_map_iff in Hin. destruct Hin as [[el i] [Hd Hin]].
  apply in_firstn in Hin. unfold survivors in Hin.
  apply filter_In in Hin. destruct Hin as [Hin Hvis].
  apply indexedFrom_In in Hin. destruct Hin as [_ Hnth].
  rewrite Nat.sub_0_r in Hnth.
  exists el. subst d. cbn in *. auto.
Qed.

Lemma scan_indices (p : Page) :
  map d_index (captureDomElements p) = map snd (firstn 50 (survivors p)).
Proof.
  rewrite captureDomElements_survivors, map_map. reflexivity.
Qed.

(** C1 (the code departs from it): a scan of a page with exactly N visible
    qualifying elements, N at most 50, should number its descriptors
    0..N-1. The loop numbers a descriptor with the counter of [forEach],
    which also counts the candidates the visibility filter dropped: on the
    page of a hidden button followed by a visible one, N is 1 and the one
    descriptor carries index 1. *)
Theorem index_counts_hidden_candidates :
  List.length (survivors hiddenThenShown) = 1 /\
  map d_index (captureDomElements hiddenThenShown) = [1] /\
  map d_index (captureDomElements hiddenThenShown) <> seq 0 1.
Proof.
  repeat split; try reflexivity. vm_compute. discriminate.
Qed.

Lemma trim_truthy (s : string) :
  truthy (trim s) = true -> truthy s = true.
Proof.
  destruct s; cbn; intros H; [discriminate | reflexivity].
Qed.

(** A label taken from the visible text has at most 100 characters. *)
Lemma visible_text_truncated (el : Element) :
  truthy (trim (textContent el)) = true ->
  elementText el = substring0 100 (trim (textContent el)) /\
  String.length (elementText el) <= 100.
Proof.
  intros Ht. unfold elementText.
  rewrite (@trim_truthy _ Ht), Ht. cbn [andb].
  split; [reflexivity | apply substring0_length].
Qed.

(** C4 (the code departs from it): the text of every descriptor should have
    at most 100 characters whatever its source. Only the visible-text
    branch of the label chain truncates: an input without text whose
    [aria-label] has 101 characters is described with all 101. *)
Theorem attribute_label_not_truncated :
  map (fun d => String.length (d_text d))
      (captureDomElements (pageOf [longLabelInput] [])) = [101].
Proof.
  vm_compute. reflexivity.
Qed.

(** C5: a scan returns the first 50 survivors of the visibility filter, in
    encounter order: exactly 50 descriptors when more than 50 elements
    survive, the descriptors of all survivors otherwise. *)
Theorem scan_keeps_first_fifty (p : Page) :
  captureDomElements p = map (describeAt p) (firstn 50 (survivors p)) /\
  (50 < List.length (survivors p) -> List.length (captureDomElements p) = 50) /\
  (List.length (survivors p) <= 50 ->
   captureDomElements p = map (describeAt p) (survivors p)).
Proof.
  rewrite captureDomElements_survivors. split; [reflexivity|]. split.
  - intros Hlen. rewrite length_map, length_firstn. lia.
  - intros Hlen. now rewrite firstn_all2.
Qed.

Lemma scan_keeps_first_fifty_witness :
  List.length (captureDomElements manyButtons) = 50 /\
  captureDomElements threeButtons = map (describeAt threeButtons) (survivors threeButtons).
Proof.
  split.
  - apply (proj1 (proj2 (scan_keeps_first_fifty manyButtons))).
    vm_compute. lia.
  - apply (proj2 (proj2 (scan_keeps_first_fifty threeButtons))).
    vm_compute. lia.
Defined.

Lemma isVisible_false (p : Page) (el : Element) :
  display (getComputedStyle p el) = "none"%string \/
  (innerHeight p <=? rect_top (getBoundingClientRect p el))%float = true \/
  visibility (getComputedStyle p el) = "hidden"%string \/
  opacity (getComputedStyle p el) = "0"%string \/
  (rect_width (getBoundingClientRect p el) =? 0)%float = true \/
  (rect_height (getBoundingClientRect p el) =? 0)%float = true ->
  isVisible p el = false.
Proof.
  unfold isVisible.
  intros [H | [H | [H | [H | [H | H]]]]].
  - rewrite H. reflexivity.
  - rewrite (@ltb_false_of_leb _ _ H). now rewrite !andb_false_r.
  - rewrite H. cbn. now rewrite andb_false_r.
  - rewrite H. cbn. now rewrite !andb_false_r.
  - rewrite (@ltb_false_of_eqb _ _ H). now rewrite !andb_false_r.
  - rewrite (@ltb_false_of_eqb _ _ H). now rewrite !andb_false_r.
Qed.

(** C6: a candidate of the scan (an element that matches a category
    selector, met at position [i] of [querySelectorAll]) whose computed
    display is none, whose box starts at or below the bottom of the
    viewport, whose visibility is hidden, whose opacity is 0 or whose
    width or height is 0 is not among the survivors, and no descriptor of
    the output was built from it. *)
Theorem invisible_candidate_dropped (p : Page) (i : nat) (el : Element) :
  nth_error (querySelectorAll p) i = Some el ->
  display (getComputedStyle p el) = "none"%string \/
  (innerHeight p <=? rect_top (getBoundingClientRect p el))%float = true \/
  visibility (getComputedStyle p el) = "hidden"%string \/
  opacity (getComputedStyle p el) = "0"%string \/
  (rect_width (getBoundingClientRect p el) =? 0)%float = true \/
  (rect_height (getBoundingClientRect p el) =? 0)%float = true ->
  ~ In (el, i) (survivors p) /\
  forall d, In d (captureDomElements p) -> d_index d <> i.
Proof.
  intros Hnth Hcause. apply isVisible_false in Hcause. split.
  - unfold survivors. rewrite filter_In. cbn. intros [_ Hvis]. congruence.
  - intros d Hin Hi. apply descriptor_origin in Hin.
    destruct Hin as [el' [Hnth' [Hvis _]]].
    rewrite Hi, Hnth in Hnth'. inversion Hnth'; subst. congruence.
Qed.

Lemma invisible_candidate_dropped_witness :
  ~ In (button 1 "a" [] "Cancel", 0) (survivors hiddenThenShown) /\
  forall d, In d (captureDomElements hiddenThenShown) -> d_index d <> 0.
Proof.
  apply (invisible_candidate_dropped hiddenThenShown 0).
  - reflexivity.
  - left. reflexivity.
Defined.

End ScanFacts.

(** ** The selector generator *)

Module SelectorFacts.

Import Scanner Examples.
Local Open Scope string_scope.

Lemma truthy_true (s : string) : s <> EmptyString -> truthy s = true.
Proof.
  unfold truthy. intros H. destruct (String.eqb_spec s EmptyString); easy.
Qed.

(** C7, as the specification states it, fails: a node without id whose
    [data-testid] attribute is there but empty does not get the
    [data-testid] selector; the chain goes on to its classes. *)
Lemma empty_testid_falls_through :
  id_ emptyTestId = EmptyString /\
  getAttribute emptyTestId "data-testid" = Some EmptyString /\
  generateSelector emptyTestId <> "[data-testid=" ++ dquote ++ EmptyString ++ dquote ++ "]" /\
  generateSelector emptyTestId = ".btn".
Proof.
  repeat split; try reflexivity. vm_compute. discriminate.
Qed.

(** C7, amended: first match wins in the chain: a non-empty id gives
    [#id] (also when classes are present); else a non-empty [data-testid]
    attribute gives the [data-testid] selector; else one or more classes
    give the dot-joined list of all classes, led by a dot; else the
    lower-case tag name. *)
Theorem generateSelector_chain (el : Element) :
  (id_ el <> EmptyString -> generateSelector el = "#" ++ id_ el) /\
  (id_ el = EmptyString ->
   forall v, getAttribute el "data-testid" = Some v -> v <> EmptyString ->
   generateSelector el = "[data-testid=" ++ dquote ++ v ++ dquote ++ "]") /\
  (id_ el = EmptyString ->
   getAttribute el "data-testid" = None \/
   getAttribute el "data-testid" = Some EmptyString ->
   classList el <> [] ->
   generateSelector el = "." ++ join "." (classList el)) /\
  (id_ el = EmptyString ->
   getAttribute el "data-testid" = None \/
   getAttribute el "data-testid" = Some EmptyString ->
   classList el = [] ->
   generateSelector el = toLowerCase (tagName el)).
Proof.
  unfold generateSelector. repeat split.
  - intros Hid. now rewrite (truthy_true Hid).
  - intros Hid v Hv Hne. rewrite Hid, Hv. cbn. now rewrite (truthy_true Hne).
  - intros Hid Ht Hcl. rewrite Hid. cbn.
    destruct Ht as [Ht | Ht]; rewrite Ht; cbn;
      destruct (classList el); [easy | reflexivity | easy | reflexivity].
  - intros Hid Ht Hcl. rewrite Hid, Hcl. cbn.
    destruct Ht as [Ht | Ht]; rewrite Ht; reflexivity.
Qed.

Lemma generateSelector_chain_witness :
  generateSelector fullButton = "#save" /\
  generateSelector emptyTestId = ".btn".
Proof.
  split.
  - apply (proj1 (generateSelector_chain fullButton)). discriminate.
  - apply (proj1 (proj2 (proj2 (generateSelector_chain emptyTestId)))).
    + reflexivity.
    + right. reflexivity.
    + discriminate.
Defined.

End SelectorFacts.

(** ** The subtree of the overlay *)

Module TreeFacts.

Import Scanner Dom Overlay.

Lemma elementsOf_app (f g : list Node) :
  elementsOf (f ++ g) = elementsOf f ++ elementsOf g.
Proof. unfold elementsOf. apply flat_map_app. Qed.

(** The trigger button and the panel are no highlight boxes. *)
Lemma isHighlight_triggerElement (s : State) : isHighlight (triggerElement s) = false.
Proof. unfold triggerElement. now destruct (listening s). Qed.

Lemma isHighlight_panelElement (s : State) : isHighlight (panelElement s) = false.
Proof. unfold panelElement. now destruct (panelActive s). Qed.

Lemma elementsOf_flat_map (g : Node -> list Node) (l : list Node) :
  elementsOf (flat_map g l) = flat_map (fun c => elementsOf (g c)) l.
Proof.
  induction l as [|c l IH]; cbn; [reflexivity|].
  now rewrite elementsOf_app, IH.
Qed.

Lemma Forall_flat_map_intro {A B} (P : B -> Prop) (g : A -> list B) (l : list A) :
  Forall (fun a => Forall P (g a)) l -> Forall P (flat_map g l).
Proof.
  induction 1 as [|a l Ha _ IH]; cbn; [constructor|].
  apply Forall_app. now split.
Qed.

Lemma isHighlight_withTextContent (el : Element) (t : string) :
  isHighlight (withTextContent el t) = isHighlight el.
Proof. reflexivity. Qed.

(** Once the elements of the class are removed from a subtree, none is left
    in it. *)
Lemma removeWhere_clean (t : Node) :
  Forall (fun el => isHighlight el = false) (elementsOf (removeWhere isHighlight t)).
Proof.
  induction t as [data | el children IH] using Node_ind.
  - constructor.
  - cbn [removeWhere]. destruct (isHighlight el) eqn:Hel; [constructor|].
    unfold elementsOf at 1. cbn [flat_map flatten].
    rewrite app_nil_r. constructor.
    + rewrite isHighlight_withTextContent. exact Hel.
    + change (flat_map flatten ?l) with (elementsOf l).
      rewrite elementsOf_flat_map.
      apply Forall_flat_map_intro. exact IH.
Qed.

Lemma removeWhere_all_clean (forest : list Node) :
  Forall (fun el => isHighlight el = false)
         (elementsOf (flat_map (removeWhere isHighlight) forest)).
Proof.
  rewrite elementsOf_flat_map. apply Forall_flat_map_intro.
  apply Forall_forall. intros t _. apply removeWhere_clean.
Qed.

Lemma find_app {A} (p : A -> bool) (l1 l2 : list A) :
  find p (l1 ++ l2) =
  match find p l1 with
  | Some a => Some a
  | None => find p l2
  end.
Proof.
  induction l1 as [|a l1 IH]; cbn; [reflexivity|]. now destruct (p a).
Qed.

(** The first element that passes one of two tests, when it passes the
    first, is the first to pass the first. *)
Lemma find_either {A} (p q : A -> bool) (l : list A) (c : A) :
  find (fun a => p a || q a) l = Some c -> p c = true -> find p l = Some c.
Proof.
  induction l as [|a l IH]; cbn; [discriminate|].
  destruct (p a) eqn:Hp; cbn.
  - intros H _. exact H.
  - destruct (q a); [|exact IH].
    intros H Hc. inversion H; subst. congruence.
Qed.

(** *** Lookups in a tree that is written to

    A lookup by a test [P] on the properties that a write leaves alone
    finds an element of the same identity after the write, when the element
    it found comes before every element of the identity [n] written to, or
    is the first of them. *)
Section Stable.

Variable n : nat.
Variable P : Element -> bool.
Hypothesis P_text : forall el t, P (withTextContent el t) = P el.

Variable T : Node -> Node.
Hypothesis T_text : forall data, T (TextNode data) = TextNode data.
Hypothesis T_hit :
  forall el ch, nodeId el = n ->
    exists el' ch', T (ElementNode el ch) = ElementNode el' ch' /\
                    nodeId el' = n /\ P el' = P el.
Hypothesis T_miss :
  forall el ch, nodeId el <> n -> T (ElementNode el ch) = ElementNode el (map T ch).

Local Abbreviation Q := (fun el : Element => P el || (nodeId el =? n)).

Lemma stableIn_all (forest : list Node) :
  Forall (fun t =>
     ((forall c, find Q (flatten t) = Some c -> P c = true ->
         exists c', find Q (flatten (T t)) = Some c' /\ P c' = true /\
                    nodeId c' = nodeId c) /\
      (find Q (flatten t) = None -> T t = t))) forest ->
  (forall c, find Q (elementsOf forest) = Some c -> P c = true ->
     exists c', find Q (elementsOf (map T forest)) = Some c' /\ P c' = true /\
                nodeId c' = nodeId c) /\
  (find Q (elementsOf forest) = None -> map T forest = forest).
Proof.
  induction 1 as [|t forest [Hfound Hnone] _ [IHfound IHnone]]; split.
  - discriminate.
  - reflexivity.
  - intros c. unfold elementsOf. cbn [map flat_map]. rewrite !find_app.
    destruct (find Q (flatten t)) as [c0|] eqn:Ht.
    + intros Hc HP. inversion Hc; subst c0.
      destruct (Hfound c eq_refl HP) as [c' [Hc' [HP' Hid]]].
      exists c'. now rewrite Hc'.
    + intros Hc HP. rewrite (Hnone eq_refl), Ht. now apply IHfound.
  - unfold elementsOf. cbn [map flat_map]. rewrite find_app.
    destruct (find Q (flatten t)) eqn:Ht; [discriminate|].
    intros Hrest. now rewrite (Hnone eq_refl), (IHnone Hrest).
Qed.

Lemma stableAt_all (t : Node) :
  (forall c, find Q (flatten t) = Some c -> P c = true ->
     exists c', find Q (flatten (T t)) = Some c' /\ P c' = true /\
                nodeId c' = nodeId c) /\
  (find Q (flatten t) = None -> T t = t).
Proof.
  induction t as [data | el ch IH] using Node_ind.
  - split; [discriminate | intros _; apply T_text].
  - apply stableIn_all in IH. destruct IH as [IHfound IHnone].
    destruct (Nat.eq_dec (nodeId el) n) as [Hid | Hid].
    + destruct (T_hit el ch Hid) as [el' [ch' [HT [Hid' HP']]]].
      split.
      * intros c. cbn [flatten find]. rewrite P_text.
        replace (nodeId (withTextContent el _) =? n) with true
          by (symmetry; now apply Nat.eqb_eq).
        rewrite orb_true_r. intros Hc HP. inversion Hc; subst c.
        rewrite P_text in HP.
        rewrite HT. cbn [flatten find]. rewrite P_text.
        replace (nodeId (withTextContent el' _) =? n) with true
          by (symmetry; now apply Nat.eqb_eq).
        rewrite orb_true_r. eexists. split; [reflexivity|].
        rewrite P_text. split; [congruence|]. cbn. congruence.
      * cbn [flatten find]. rewrite P_text.
        replace (nodeId (withTextContent el _) =? n) with true
          by (symmetry; now apply Nat.eqb_eq).
        rewrite orb_true_r. discriminate.
    + rewrite (T_miss el ch Hid).
      assert (Hn : forall t, (nodeId (withTextContent el t) =? n) = false)
        by (intros t; now apply Nat.eqb_neq).
      split.
      * intros c. cbn [flatten find]. rewrite !P_text, !Hn, !orb_false_r.
        destruct (P el) eqn:HP.
        -- intros Hc _. inversion Hc; subst c.
           eexists. split; [reflexivity|]. now rewrite P_text.
        -- apply IHfound.
      * cbn [flatten find]. rewrite P_text, Hn, orb_false_r.
        destruct (P el); [discriminate|].
        intros Hrest. now rewrite (IHnone Hrest).
Qed.

Lemma find_stable (forest : list Node) (c : Element) :
  find Q (elementsOf forest) = Some c -> P c = true ->
  exists c', find Q (elementsOf (map T forest)) = Some c' /\ P c' = true /\
             nodeId c' = nodeId c.
Proof.
  apply stableIn_all, Forall_forall. intros t _. apply stableAt_all.
Qed.

End Stable.

(** A child appended to the children just written. *)
Lemma appendChild_setChildren (n : nat) (l : list Node) (c t : Node) :
  appendChild n c (setChildren n l t) = setChildren n (l ++ [c]) t.
Proof.
  induction t as [data | el ch IH] using Node_ind; [reflexivity|].
  cbn [setChildren]. destruct (nodeId el =? n) eqn:Hid; cbn [appendChild]; rewrite Hid.
  - reflexivity.
  - f_equal. rewrite map_map. apply map_ext_in. intros x Hx.
    rewrite Forall_forall in IH. now apply IH.
Qed.

Lemma filter_none {A} (p : A -> bool) (l : list A) :
  Forall (fun a => p a = false) l -> filter p l = [].
Proof.
  induction 1 as [|a l Ha _ IH]; cbn; [reflexivity|]. now rewrite Ha.
Qed.

End TreeFacts.

(** ** Composing operations *)

Module FrameFacts.

Import Scanner Dom Overlay Observe Frame.
Local Open Scope overlay_scope.

Section Keeps.

Variable R : State -> State -> Prop.
Hypothesis R_refl : forall s, R s s.
Hypothesis R_trans : forall a b c, R a b -> R b c -> R a c.

Lemma keeps_ret {A} (a : A) : keeps R (ret a).
Proof. intros s. apply R_refl. Qed.

Lemma keeps_throw {A} (e : Exn) : keeps R (@throw A e).
Proof. intros s. apply R_refl. Qed.

Lemma keeps_gets {A} (f : State -> A) : keeps R (gets f).
Proof. intros s. apply R_refl. Qed.

Lemma keeps_propertyOf {A B} (o : option A) (f : A -> B) : keeps R (propertyOf o f).
Proof. destruct o; [apply keeps_ret | apply keeps_throw]. Qed.

Lemma keeps_bind {A B} (m : M A) (k : A -> M B) :
  keeps R m -> (forall a, keeps R (k a)) -> keeps R (bind m k).
Proof.
  intros Hm Hk s. unfold bind. specialize (Hm s).
  destruct (m s) as [a s1 | e s1]; cbn in *.
  - eapply R_trans; [exact Hm | apply Hk].
  - exact Hm.
Qed.

Lemma keeps_tryCatch {A} (m : M A) (h : Exn -> M A) :
  keeps R m -> (forall e, keeps R (h e)) -> keeps R (tryCatch m h).
Proof.
  intros Hm Hh s. unfold tryCatch. specialize (Hm s).
  destruct (m s) as [a s1 | e s1]; cbn in *.
  - exact Hm.
  - eapply R_trans; [exact Hm | apply Hh].
Qed.

Lemma keeps_detached (m : M unit) : keeps R m -> keeps R (detached m).
Proof. intros Hm s. apply Hm. Qed.

Lemma keeps_documentQuerySelector (b : Browser) (selector : string) :
  keeps R (documentQuerySelector b selector).
Proof.
  intros s. unfold documentQuerySelector.
  destruct (querySelector b (document s) selector); apply R_refl.
Qed.

Lemma keeps_forEachAction (b : Browser) (n : nat) (acts : list Action) :
  (forall a, keeps R (displayAction b n a)) -> keeps R (forEachAction b n acts).
Proof.
  intros H. induction acts as [|a acts IH]; cbn [forEachAction].
  - apply keeps_ret.
  - apply keeps_bind; [apply H | intros _; exact IH].
Qed.

(** *** A click keeps what its parts keep *)

Section Click.

Variable b : Browser.
Variable defined : bool.
Variable execute : Action -> M unit.

Hypothesis listener_keeps : forall l, keeps R (runListener b defined execute l).
Hypothesis record_keeps :
  forall el, keeps R (modify (fun s => setLog s (log s ++ [Clicked el]))).
Hypothesis page_keeps :
  forall el phase,
    keeps R (modify (fun s => setPage s (dispatchClick b el phase (page s)))).

Lemma keeps_runListeners (ls : list Listener) :
  keeps R (runListeners b defined execute ls).
Proof.
  induction ls as [|l ls IH]; cbn [runListeners].
  - apply keeps_ret.
  - apply keeps_bind; [apply listener_keeps | intros _; exact IH].
Qed.

Lemma keeps_propagate (path : list nat) :
  keeps R (propagate b defined execute path).
Proof.
  induction path as [|n up IH]; cbn [propagate].
  - apply keeps_ret.
  - apply keeps_bind; [apply keeps_gets | intros ls].
    apply keeps_bind; [apply keeps_runListeners | intros _].
    destruct (existsb isTrigger ls); [apply keeps_ret | exact IH].
Qed.

Lemma keeps_click (el : Element) : keeps R (click b defined execute el).
Proof.
  unfold click. destruct (clickMethod b el); [apply keeps_throw | apply keeps_ret |].
  apply keeps_bind; [apply record_keeps | intros _].
  apply keeps_bind; [apply page_keeps | intros _].
  apply keeps_bind; [apply keeps_gets | intros path].
  apply keeps_bind; [apply keeps_propagate | intros stopped].
  destruct stopped; [apply keeps_ret | apply page_keeps].
Qed.

End Click.

End Keeps.

Lemma sameCollapse_refl (s : State) : sameCollapse s s.
Proof. reflexivity. Qed.

Lemma sameCollapse_trans (a b c : State) :
  sameCollapse a b -> sameCollapse b c -> sameCollapse a c.
Proof. unfold sameCollapse. congruence. Qed.

Lemma sameClicks_refl (s : State) : sameClicks s s.
Proof. reflexivity. Qed.

Lemma sameClicks_trans (a b c : State) :
  sameClicks a b -> sameClicks b c -> sameClicks a c.
Proof. unfold sameClicks. congruence. Qed.

Lemma noNewHighlight_refl (s : State) : noNewHighlight s s.
Proof. unfold noNewHighlight. lia. Qed.

Lemma noNewHighlight_trans (a b c : State) :
  noNewHighlight a b -> noNewHighlight b c -> noNewHighlight a c.
Proof. unfold noNewHighlight. lia. Qed.

Lemma collapseGrows_refl (s : State) : collapseGrows s s.
Proof. unfold collapseGrows. lia. Qed.

Lemma collapseGrows_trans (a b c : State) :
  collapseGrows a b -> collapseGrows b c -> collapseGrows a c.
Proof. unfold collapseGrows. lia. Qed.

Lemma carries_refl (P : State -> Prop) (s : State) : carries P s s.
Proof. intros H. exact H. Qed.

Lemma carries_trans (P : State -> Prop) (a b c : State) :
  carries P a b -> carries P b c -> carries P a c.
Proof. unfold carries. auto. Qed.

Lemma collapseCount_snoc (l : list Timer) (t : Timer) :
  List.length (filter isCollapse (l ++ [t])) =
  List.length (filter isCollapse l) + (if isCollapse t then 1 else 0).
Proof.
  rewrite filter_app, length_app. cbn. now destruct (isCollapse t).
Qed.

Lemma clickCount_snoc (l : list Event) (e : Event) :
  List.length (filter isClick (l ++ [e])) =
  List.length (filter isClick l) + (if isClick e then 1 else 0).
Proof.
  rewrite filter_app, length_app. cbn. now destruct (isClick e).
Qed.

Lemma highlightCount_snoc (l : list Element) (el : Element) :
  List.length (filter isHighlight (l ++ [el])) =
  List.length (filter isHighlight l) + (if isHighlight el then 1 else 0).
Proof.
  rewrite filter_app, length_app. cbn. now destruct (isHighlight el).
Qed.

(** Taking nodes out of the page adds no highlight node. *)
Lemma highlightCount_filter (f : Element -> bool) (l : list Element) :
  List.length (filter isHighlight (filter f l)) <= List.length (filter isHighlight l).
Proof.
  induction l as [|a l IH]; cbn; [lia|].
  destruct (f a); cbn; destruct (isHighlight a); cbn; lia.
Qed.

(** No highlight node is left once they were all removed. *)
Lemma highlightCount_removed (l : list Element) :
  List.length (filter isHighlight (filter (fun el => negb (isHighlight el)) l)) = 0.
Proof.
  induction l as [|a l IH]; cbn; [reflexivity|].
  destruct (isHighlight a) eqn:Ha; cbn; [exact IH|]. now rewrite Ha.
Qed.

(** The structure of an operation, taken apart down to its primitives. *)
Ltac frame_structure refl trans :=
  repeat match goal with
         | |- keeps _ (bind _ _) => apply (@keeps_bind _ trans); [| intros ?]
         | |- keeps _ (tryCatch _ _) => apply (@keeps_tryCatch _ trans); [| intros ?]
         | |- keeps _ (ret _) => apply (@keeps_ret _ refl)
         | |- keeps _ (throw _) => apply (@keeps_throw _ refl)
         | |- keeps _ (gets _) => apply (@keeps_gets _ refl)
         | |- keeps _ (propertyOf _ _) => apply (@keeps_propertyOf _ refl)
         | |- keeps _ (documentQuerySelector _ _) =>
             apply (@keeps_documentQuerySelector _ refl)
         | |- keeps _ (detached _) => apply keeps_detached
         | |- keeps _ (forEachAction _ _ _) =>
             apply (@keeps_forEachAction _ refl trans); intros ?; unfold displayAction
         | |- keeps _ (let _ := _ in _) => cbv zeta
         | |- keeps _ (match ?x with _ => _ end) => destruct x
         end.

(** The operations built from primitives alone, unfolded. *)
Ltac unfold_operations :=
  unfold highlightElement, showNotification, loadHtml2Canvas, analyzeBtnQuery,
    actionsContainerQuery, setInnerHTML, innerHTML, scan, panelQuery, awaitLoad,
    captureScreenshot, sendToBackend.

(** A primitive, run on a state. *)
Ltac frame_primitive :=
  let s := fresh "s" in
  intros s;
  unfold removeHighlights, appendToBody, appendToHead, setTimeout, consoleError,
    createElement, addEventListener, setProperty, appendTo, clearChildren,
    parseMarkup, modify, throw, ret;
  cbn [stateOf];
  try match goal with
      | |- context [attached ?x] => destruct (attached x)
      end.

Ltac state_fields :=
  cbn [page nextId container triggerBtn panel triggerContent panelContent
       listeners panelActive listening sessionId currentPage actions timers log
       setPage setNextId setTriggerContent setPanelContent setListeners
       setPanelActive setListening setSessionId setCurrentPage setActions
       setTimers setLog].

Ltac collapse_solver :=
  unfold sameCollapse, collapseGrows, collapseCount; state_fields;
  try rewrite collapseCount_snoc; cbn [isCollapse task delay]; lia.

Ltac clicks_solver :=
  unfold sameClicks, clickCount; state_fields;
  try rewrite clickCount_snoc; cbn [isClick]; lia.

Ltac highlight_solver :=
  unfold noNewHighlight, highlightCount; state_fields; cbn [nodes setNodes];
  first [ lia | apply highlightCount_filter | cbn; lia ].

End FrameFacts.

(** ** The executor *)

Module ExecutorFacts.

Import Scanner Dom Overlay Observe Observe2 Frame FrameFacts Examples.
Local Open Scope overlay_scope.

Lemma arrayGet_in_range {A} (l : list A) (k : Z) (a : A) :
  arrayGet l k = Some a -> (k <? Z.of_nat (List.length l))%Z = true.
Proof.
  unfold arrayGet. destruct (k <? 0)%Z eqn:Hneg; [discriminate|].
  intros H. apply Z.ltb_ge in Hneg. apply Z.ltb_lt.
  assert (Hn : Z.to_nat k < List.length l) by (apply nth_error_Some; congruence).
  lia.
Qed.

Lemma showNotification_eq (message : string) (s : State) :
  showNotification message s = Done tt (withNewNode s (notificationFor s message)).
Proof. reflexivity. Qed.

(** What a relation has to keep for a whole execution to keep it: the
    operations outside the click, which are built from primitives, and the
    listeners of the overlay, given that the nested execution keeps it. *)
Ltac keeps_operations refl trans prim :=
  unfold_operations; frame_structure refl trans;
  try solve [frame_primitive; prim | auto].

Ltac keeps_execution refl trans prim :=
  unfold executeActionWith, executeBody, highlightStep, clickStep;
  keeps_operations refl trans prim;
  apply (@keeps_click _ refl trans);
  [ intros l; destruct l; cbn [runListener];
    unfold togglePanelWith, startAnalysis, beginAnalysis, analysisFailure;
    keeps_operations refl trans prim
  | intros ?; frame_primitive; prim
  | intros ? ?; frame_primitive; prim ].

(** What the removal of the highlight nodes leaves as it was. *)
Lemma rescanned_timers (s : State) : timers (rescanned s) = timers s.
Proof. unfold rescanned, removeHighlights, modify, stateOf. now destruct (attached s). Qed.

Lemma rescanned_log (s : State) : log (rescanned s) = log s.
Proof. unfold rescanned, removeHighlights, modify, stateOf. now destruct (attached s). Qed.

Lemma rescanned_nextId (s : State) : nextId (rescanned s) = nextId s.
Proof. unfold rescanned, removeHighlights, modify, stateOf. now destruct (attached s). Qed.

Lemma rescanned_container (s : State) : container (rescanned s) = container s.
Proof. unfold rescanned, removeHighlights, modify, stateOf. now destruct (attached s). Qed.

Lemma rescanned_nodes (s : State) :
  nodes (page (rescanned s)) = filter (fun el => negb (isHighlight el)) (nodes (page s)).
Proof. unfold rescanned, removeHighlights, modify, stateOf. now destruct (attached s). Qed.

Section Browser.

Variable b : Browser.
Variable defined : bool.

(** What [highlightElement] does, case by case, on the document without its
    old highlight nodes. *)
Lemma highlightElement_cases (i : Z) (s : State) :
  highlightElement b i s =
  let r := rescanned s in
  if (i <? Z.of_nat (List.length (captureDomElements (documentPage r))))%Z then
    match arrayGet (captureDomElements (documentPage r)) i with
    | None => Thrown TypeError r
    | Some d =>
        match querySelector b (document r) (d_selector d) with
        | QNull => Done tt r
        | QElement el => Done tt (withNewNode r (highlightBoxFor r el))
        | QSyntaxError => Thrown SyntaxError r
        end
    end
  else Done tt r.
Proof.
  cbv zeta.
  unfold highlightElement, bind, removeHighlights, modify, scan, gets, rescanned,
    stateOf.
  destruct (i <? _)%Z; [|reflexivity].
  unfold propertyOf.
  destruct (arrayGet _ i) as [d|]; [|reflexivity].
  unfold ret, documentQuerySelector.
  destruct (querySelector b _ (d_selector d)); reflexivity.
Qed.

(** An index at or past the end of the scanned list draws nothing. *)
Lemma highlightElement_out_of_range (k : Z) (s : State) :
  (Z.of_nat (List.length (captureDomElements (documentPage (rescanned s)))) <= k)%Z ->
  highlightElement b k s = Done tt (rescanned s).
Proof.
  intros Hk. rewrite highlightElement_cases. cbv zeta.
  apply Z.ltb_ge in Hk. now rewrite Hk.
Qed.

Lemma highlightStep_collapse (action : Action) :
  keeps sameCollapse (highlightStep b action).
Proof.
  unfold highlightStep. keeps_operations sameCollapse_refl sameCollapse_trans collapse_solver.
Qed.

Lemma highlightStep_clicks (action : Action) :
  keeps sameClicks (highlightStep b action).
Proof.
  unfold highlightStep. keeps_operations sameClicks_refl sameClicks_trans clicks_solver.
Qed.

Section Nested.

Variable execute : Action -> M unit.

(** What the click step does, case by case. *)
Lemma clickStep_cases (action : Action) (s : State) :
  clickStep b defined execute action s =
  match element_index action with
  | None => Done tt s
  | Some i =>
      if (i <? Z.of_nat (List.length (captureDomElements (documentPage s))))%Z then
        match arrayGet (captureDomElements (documentPage s)) i with
        | None => Thrown TypeError s
        | Some d =>
            match querySelector b (document s) (d_selector d) with
            | QNull => Done tt s
            | QElement el =>
                match clickMethod b el with
                | NoClickMethod => Thrown TypeError s
                | _ =>
                    (click b defined execute el ;;
                     showNotification ("Clicked: " ++ template (label action))%string) s
                end
            | QSyntaxError => Thrown SyntaxError s
            end
        end
      else Done tt s
  end.
Proof.
  unfold clickStep, bind at 1, scan, gets.
  destruct (element_index action) as [i|]; [|reflexivity].
  destruct (i <? _)%Z; [|reflexivity].
  unfold bind at 1, propertyOf.
  destruct (arrayGet _ i) as [d|]; [|reflexivity].
  unfold ret, bind at 1, documentQuerySelector.
  destruct (querySelector b _ (d_selector d)); try reflexivity.
  unfold bind at 1, click. destruct (clickMethod b el); reflexivity.
Qed.

(** A click does not throw on an element that has the method. *)
Lemma click_completes (el : Element) (s : State) :
  clickMethod b el <> NoClickMethod ->
  completed (click b defined execute el s) = true.
Proof.
  intros Hc. unfold click.
  destruct (clickMethod b el); [contradiction | reflexivity |].
  unfold bind, modify, gets.
  match goal with
  | |- context [propagate b defined execute ?p ?st] =>
      assert (Hp : forall path st', completed (propagate b defined execute path st') = true)
  end.
  { induction path as [|n up IH]; intros st'; cbn [propagate]; [reflexivity|].
    unfold bind, gets.
    assert (Hl : forall ls st1, completed (runListeners b defined execute ls st1) = true).
    { induction ls as [|l ls IHl]; intros st1; cbn [runListeners]; [reflexivity|].
      unfold bind.
      assert (Hr : completed (runListener b defined execute l st1) = true).
      { destruct l; cbn [runListener]; unfold detached; try reflexivity.
        unfold togglePanelWith, bind, gets, modify, detached, ret.
        destruct (panelActive st1); [reflexivity|]. cbn.
        destruct (currentPage st1); reflexivity. }
      destruct (runListener b defined execute l st1); [apply IHl | discriminate]. }
    specialize (Hl (listenersAt st' n) st').
    destruct (runListeners b defined execute (listenersAt st' n) st');
      [|discriminate].
    destruct (existsb isTrigger (listenersAt st' n)); [reflexivity | apply IH]. }
  match goal with
  | |- context [propagate b defined execute ?p ?st] =>
      specialize (Hp p st); destruct (propagate b defined execute p st) as [[] ?|];
      [reflexivity | reflexivity | discriminate]
  end.
Qed.

(** The click step throws before it changes anything: on the index, on the
    selector, or on a target without the method. *)
Lemma clickStep_thrown (action : Action) (s s' : State) (e : Exn) :
  clickStep b defined execute action s = Thrown e s' -> s' = s.
Proof.
  rewrite clickStep_cases.
  repeat match goal with
         | |- context [match ?x with _ => _ end] =>
             lazymatch x with
             | context [match _ with _ => _ end] => fail
             | clickMethod b ?el => destruct x eqn:Hclick
             | _ => destruct x
             end
         end;
    intros H; inversion H; subst; try reflexivity;
    exfalso; revert H; unfold bind;
    match goal with
    | |- context [click b defined execute ?el s] =>
        assert (Hc : completed (click b defined execute el s) = true)
          by (apply click_completes; rewrite Hclick; discriminate);
        destruct (click b defined execute el s) as [[] s1|]; [|discriminate]
    end;
    rewrite showNotification_eq; discriminate.
Qed.

(** The [try] block ends with the collapse scheduled, or throws. *)
Lemma executeBody_done (action : Action) (s s' : State) :
  executeBody b defined execute action s = Done tt s' ->
  exists s2,
    clickStep b defined execute action (stateOf (highlightStep b action s)) = Done tt s2 /\
    s' = collapseScheduled s2.
Proof.
  unfold executeBody, bind.
  destruct (highlightStep b action s) as [[] s1 | e s1]; [|discriminate].
  cbn [stateOf].
  destruct (clickStep b defined execute action s1) as [[] s2 | e s2];
    [|discriminate].
  intros H. inversion H. now exists s2.
Qed.

Lemma executeAction_thrown (action : Action) (s s1 : State) (e : Exn) :
  executeBody b defined execute action s = Thrown e s1 ->
  executeActionWith b defined execute action s = Done tt (failureReported s1).
Proof.
  intros H. unfold executeActionWith, tryCatch. rewrite H. reflexivity.
Qed.

(** When the [try] block throws, it has clicked nothing and scheduled no
    collapse. *)
Lemma executeBody_thrown (action : Action) (s s1 : State) (e : Exn) :
  executeBody b defined execute action s = Thrown e s1 ->
  collapseCount s1 = collapseCount s /\ clickCount s1 = clickCount s.
Proof.
  pose proof (highlightStep_collapse action s) as Hh.
  pose proof (highlightStep_clicks action s) as Hc.
  unfold sameCollapse, sameClicks in *.
  unfold executeBody, bind.
  destruct (highlightStep b action s) as [[] s2 | e2 s2]; cbn [stateOf] in *.
  - destruct (clickStep b defined execute action s2) as [[] s3 | e3 s3] eqn:Hs;
      [discriminate|].
    apply clickStep_thrown in Hs. intros H. inversion H. subst. now split.
  - intros H. inversion H. subst. now split.
Qed.

Hypothesis execute_collapse : forall a, keeps collapseGrows (execute a).

Lemma executeActionWith_collapse (action : Action) :
  keeps collapseGrows (executeActionWith b defined execute action).
Proof.
  keeps_execution collapseGrows_refl collapseGrows_trans collapse_solver.
Qed.

End Nested.

(** An execution never takes a collapse back, however the listeners it
    reaches are nested. *)
Lemma nested_collapse (depth : nat) (action : Action) :
  keeps collapseGrows (nested b defined depth action).
Proof.
  revert action. induction depth as [|d IH]; intros action; cbn [nested].
  - apply keeps_ret, collapseGrows_refl.
  - now apply executeActionWith_collapse.
Qed.

Lemma clickStep_collapse (depth : nat) (action : Action) :
  keeps collapseGrows (clickStep b defined (nested b defined depth) action).
Proof.
  pose proof (nested_collapse depth) as Hn.
  unfold clickStep.
  keeps_operations collapseGrows_refl collapseGrows_trans collapse_solver.
  apply (@keeps_click _ collapseGrows_refl collapseGrows_trans);
    [ intros l; destruct l; cbn [runListener];
      unfold togglePanelWith, startAnalysis, beginAnalysis, analysisFailure;
      keeps_operations collapseGrows_refl collapseGrows_trans collapse_solver
    | intros ?; frame_primitive; collapse_solver
    | intros ? ?; frame_primitive; collapse_solver ].
Qed.

(** Past the end of the fresh list, an execution only removes the highlight
    nodes and schedules the collapse of the panel. *)
Lemma executeAction_out_of_range (depth : nat) (action : Action) (k : Z) (s : State) :
  element_index action = Some k ->
  (Z.of_nat (List.length (captureDomElements (documentPage (rescanned s)))) <= k)%Z ->
  executeAction b defined depth action s =
  Done tt (setTimers (rescanned s) (timers s ++ [mkTimer 1000 ClosePanel])).
Proof.
  intros Hi Hk.
  unfold executeAction, executeActionWith, tryCatch, executeBody, highlightStep.
  rewrite Hi. unfold bind at 1. rewrite (highlightElement_out_of_range _ Hk).
  unfold bind at 1. rewrite clickStep_cases, Hi.
  apply Z.ltb_ge in Hk. rewrite Hk.
  unfold setTimeout, modify. now rewrite rescanned_timers.
Qed.

(** C2, amended: an action whose index is at or past the end of the fresh
    descriptor list is skipped in silence: the execution does not throw,
    clicks nothing, reports nothing on the notification channel or the
    console, and schedules the collapse of the panel; the document only
    loses its highlight nodes. *)
Theorem out_of_range_is_skipped (depth : nat) (action : Action) (k : Z) (s : State) :
  element_index action = Some k ->
  (Z.of_nat (List.length (captureDomElements (documentPage (rescanned s)))) <= k)%Z ->
  executeAction b defined depth action s =
  Done tt (setTimers (rescanned s) (timers s ++ [mkTimer 1000 ClosePanel])) /\
  log (stateOf (executeAction b defined depth action s)) = log s /\
  nodes (page (stateOf (executeAction b defined depth action s))) =
  filter (fun el => negb (isHighlight el)) (nodes (page s)).
Proof.
  intros Hi Hk. rewrite (@executeAction_out_of_range _ _ _ _ Hi Hk).
  cbn [stateOf]. repeat split.
  - apply rescanned_log.
  - apply rescanned_nodes.
Qed.

(** The executions whose [try] block ends without a click: those without
    index, with an index past the end of the fresh list, and with a selector
    that resolves to no element. *)
Lemma executeBody_without_index (depth : nat) (action : Action) (s : State) :
  element_index action = None ->
  executeBody b defined (nested b defined depth) action s =
  Done tt (collapseScheduled s).
Proof.
  intros Hi. unfold executeBody, highlightStep. rewrite Hi.
  unfold bind at 1, ret. unfold bind at 1. rewrite clickStep_cases, Hi. reflexivity.
Qed.

Lemma executeBody_out_of_range (depth : nat) (action : Action) (k : Z) (s : State) :
  element_index action = Some k ->
  (Z.of_nat (List.length (captureDomElements (documentPage (rescanned s)))) <= k)%Z ->
  executeBody b defined (nested b defined depth) action s =
  Done tt (collapseScheduled (rescanned s)).
Proof.
  intros Hi Hk. unfold executeBody, highlightStep. rewrite Hi.
  unfold bind at 1. rewrite (highlightElement_out_of_range _ Hk).
  unfold bind at 1. rewrite clickStep_cases, Hi.
  apply Z.ltb_ge in Hk. rewrite Hk. reflexivity.
Qed.

Lemma executeBody_no_element (depth : nat) (action : Action) (k : Z) (d : Descriptor)
    (s : State) :
  element_index action = Some k ->
  arrayGet (captureDomElements (documentPage (rescanned s))) k = Some d ->
  querySelector b (document (rescanned s)) (d_selector d) = QNull ->
  executeBody b defined (nested b defined depth) action s =
  Done tt (collapseScheduled (rescanned s)).
Proof.
  intros Hi Hd Hq. unfold executeBody, highlightStep. rewrite Hi.
  unfold bind at 1. rewrite highlightElement_cases. cbv zeta.
  rewrite (arrayGet_in_range _ _ Hd), Hd, Hq.
  unfold bind at 1. rewrite clickStep_cases, Hi.
  rewrite (arrayGet_in_range _ _ Hd), Hd, Hq. reflexivity.
Qed.

Lemma executeAction_done (depth : nat) (action : Action) (s s1 : State) :
  executeBody b defined (nested b defined depth) action s = Done tt s1 ->
  executeAction b defined depth action s = Done tt s1.
Proof.
  intros H. unfold executeAction, executeActionWith, tryCatch. now rewrite H.
Qed.


End Browser.

(** C2, as the specification states it, fails: on a page of three buttons an action
    that names index 7 is out of range of the fresh list, and the execution
    leaves no notification and no console error: nothing reports a failure. *)
Lemma out_of_range_not_reported :
  let s := opened threeButtons in
  let s' := stateOf (executeAction browser true 3 (action "Save" 7) s) in
  (Z.of_nat (List.length (captureDomElements (documentPage (rescanned s)))) <= 7)%Z /\
  notifications s' = [] /\
  log s' = [].
Proof.
  cbv zeta. repeat split; vm_compute; try reflexivity. discriminate.
Qed.

(** The index a scan reports for an element is not the index an execution
    resolves. On the page of a hidden button followed by a visible one, the
    scan of the document reports the visible button with index 1, the
    trigger button of the overlay with index 2 and the analyze button with
    index 3. An action that names index 1 is resolved against the second
    descriptor of the fresh list: the execution clicks the trigger button,
    which closes the panel, and reports the click under the label of the
    action. *)
Lemma reported_index_resolves_another :
  let s := opened hiddenThenShown in
  let s' := stateOf (executeAction (browserWith resolve) true 3 (action "Save" 1) s) in
  map (fun d => (d_index d, d_selector d)) (captureDomElements (documentPage s)) =
  [(1, "#b"); (2, ".a11y-trigger-btn"); (3, "#analyze-btn")]%string /\
  map (fun e => match e with Clicked el => classList el | _ => [] end)
      (filter isClick (log s')) = [["a11y-trigger-btn"%string]] /\
  notifications s' = ["Clicked: Save"%string] /\
  panelActive s = true /\ panelActive s' = false.
Proof. cbv zeta. vm_compute. repeat split. Qed.

Lemma out_of_range_is_skipped_witness :
  let s := opened threeButtons in
  let a := action "Save" 7 in
  executeAction browser true 3 a s =
  Done tt (setTimers (rescanned s) (timers s ++ [mkTimer 1000 ClosePanel])) /\
  log (stateOf (executeAction browser true 3 a s)) = log s /\
  nodes (page (stateOf (executeAction browser true 3 a s))) =
  filter (fun el => negb (isHighlight el)) (nodes (page s)).
Proof.
  cbv zeta.
  apply (@out_of_range_is_skipped browser true 3 (action "Save" 7) 7
           (opened threeButtons)).
  - reflexivity.
  - vm_compute. discriminate.
Defined.



(** An action whose target is the button of another action: the click runs
    the execution of that action inside, which clicks the second button of
    the page; two elements are clicked, two notifications are shown and two
    collapses are pending. *)
Lemma execution_inside_execution :
  let s' := stateOf (executeAction (browserWith resolve) true 3 (action "Overlay" 4)
                       twoActions) in
  clickCount twoActions = 0 /\ collapseCount twoActions = 0 /\
  clickCount s' = 2 /\
  notifications s' = ["Clicked: Two"; "Clicked: Overlay"]%string /\
  collapseCount s' = 2.
Proof.
  cbv zeta. repeat split; vm_compute; reflexivity.
Qed.

End ExecutorFacts.

(** ** The highlight overlay *)

Module HighlightFacts.

Import Scanner Dom Overlay Observe Observe2 Frame FrameFacts TreeFacts ExecutorFacts
       Examples.
Local Open Scope overlay_scope.

(** The document after the highlight nodes were removed holds none. *)
Lemma rescanned_clean (s : State) :
  Forall (fun el => isHighlight el = false) (document (rescanned s)).
Proof.
  unfold document. apply Forall_flat_map_intro. apply Forall_forall.
  intros el Hin.
  assert (Hel : isHighlight el = false /\ In el (nodes (page s))).
  { unfold rescanned, removeHighlights, modify, stateOf in Hin.
    destruct (attached s); cbn in Hin; apply filter_In in Hin;
      destruct Hin as [Hin Hel]; apply negb_true_iff in Hel; now split. }
  destruct Hel as [Hel Hin'].
  unfold expand.
  destruct (nodeId el =? container (rescanned s)) eqn:Hid; [|now repeat constructor].
  constructor; [exact Hel|].
  assert (Ha : attached s = true).
  { unfold attached. apply existsb_exists. exists el. split; [exact Hin'|].
    unfold rescanned, removeHighlights, modify, stateOf in Hid.
    now destruct (attached s). }
  unfold rescanned, removeHighlights, modify, stateOf. rewrite Ha.
  unfold overlayTree, elementsOf. cbn [flat_map flatten triggerContent panelContent
    setPanelContent setTriggerContent setPage].
  rewrite app_nil_r.
  constructor; [apply isHighlight_triggerElement|].
  apply Forall_app. split; [apply removeWhere_all_clean|].
  constructor; [apply isHighlight_panelElement | apply removeWhere_all_clean].
Qed.

(** A node appended to the body is the last element of the document, as
    long as its identity is not the one of the container. *)
Lemma document_withNewNode (s : State) (el : Element) :
  nodeId el <> container s ->
  document (withNewNode s el) = document s ++ [el].
Proof.
  intros Hid. unfold document, withNewNode.
  cbn [page nodes setTimers setPage setNextId setNodes].
  rewrite flat_map_app. cbn [flat_map]. rewrite app_nil_r. f_equal.
  unfold expand. cbn [container setTimers setPage setNextId].
  apply Nat.eqb_neq in Hid. now rewrite Hid.
Qed.

Section Browser.

Variable b : Browser.

(** After [highlightElement], returned or thrown, at most one highlight node
    is in the document, whatever was there before. *)
Lemma highlightElement_at_most_one (i : Z) (s : State) :
  container s < nextId s ->
  highlightCount (documentPage (stateOf (highlightElement b i s))) <= 1.
Proof.
  intros Hfresh. rewrite highlightElement_cases. cbv zeta.
  pose proof (rescanned_clean s) as Hclean. apply filter_none in Hclean.
  repeat match goal with
         | |- context [match ?x with _ => _ end] => destruct x
         end; cbn [stateOf]; unfold highlightCount, documentPage;
    cbn [nodes setNodes]; try (rewrite Hclean; cbn; lia).
  rewrite document_withNewNode
    by (cbn [nodeId highlightBoxFor]; rewrite rescanned_nextId, rescanned_container; lia).
  rewrite highlightCount_snoc, Hclean. cbn. lia.
Qed.

(** The listeners of the page create no highlight node. *)
Hypothesis click_adds_none :
  forall el phase p, highlightCount (dispatchClick b el phase p) <= highlightCount p.

Lemma noNew_carries {A} (m : M A) :
  keeps noNewHighlight m -> keeps (carries oneBox) m.
Proof.
  intros H s Hs. specialize (H s). unfold noNewHighlight, oneBox in *. lia.
Qed.

Lemma showNotification_highlight (msg : string) :
  keeps noNewHighlight (showNotification msg).
Proof.
  intros s. unfold noNewHighlight, highlightCount. cbn.
  rewrite highlightCount_snoc. cbn. lia.
Qed.

Lemma loadHtml2Canvas_highlight (defined : bool) :
  keeps noNewHighlight (loadHtml2Canvas defined).
Proof.
  intros s. unfold loadHtml2Canvas.
  destruct defined; unfold noNewHighlight, highlightCount; cbn; lia.
Qed.

(** The operations that draw no highlight box, taken apart down to the
    primitives, the notification and the load of the library. *)
Ltac keeps_no_new :=
  unfold analyzeBtnQuery, actionsContainerQuery, setInnerHTML, innerHTML, scan,
    panelQuery, awaitLoad, captureScreenshot, sendToBackend;
  frame_structure noNewHighlight_refl noNewHighlight_trans;
  try solve [ frame_primitive; highlight_solver
            | apply showNotification_highlight
            | apply loadHtml2Canvas_highlight ].

Lemma startAnalysis_highlight (defined : bool) :
  keeps noNewHighlight (startAnalysis b defined).
Proof. unfold startAnalysis, beginAnalysis, analysisFailure. keeps_no_new. Qed.

Lemma togglePanelWith_highlight (analyze : M unit) :
  keeps noNewHighlight analyze -> keeps noNewHighlight (togglePanelWith analyze).
Proof. intros H. unfold togglePanelWith. keeps_no_new. exact H. Qed.

Lemma displayActions_highlight (acts : list Action) :
  keeps noNewHighlight (displayActions b acts).
Proof.
  unfold displayActions. keeps_no_new.
Qed.

Lemma analysisRest_highlight (env : AnalysisEnv) (started : nat * string) :
  keeps noNewHighlight (analysisRest b env started).
Proof.
  unfold analysisRest, requestAnalysis, storeAnalysis. keeps_no_new.
  apply displayActions_highlight.
Qed.

Lemma analyzeCurrentPage_highlight (env : AnalysisEnv) :
  keeps noNewHighlight (analyzeCurrentPage b env).
Proof.
  unfold analyzeCurrentPage, analyzeBody, beginAnalysis, analysisFailure.
  keeps_no_new. apply analysisRest_highlight.
Qed.

Lemma resumeAnalysis_highlight (env : AnalysisEnv) (started : nat * string) :
  keeps noNewHighlight (resumeAnalysis b env started).
Proof.
  unfold resumeAnalysis, analysisFailure. keeps_no_new. apply analysisRest_highlight.
Qed.

Lemma fireTimer_highlight (k : nat) (s : State) :
  noNewHighlight s (fireTimer k s).
Proof.
  unfold fireTimer. destruct (nth_error (timers s) k) as [t|].
  - destruct t as [d [n|]]; cbn [task runTask]; unfold removeNode; highlight_solver.
  - apply noNewHighlight_refl.
Qed.

(** [highlightElement] leaves at most one highlight node among the children
    of the body, whatever was there before. *)
Lemma highlightElement_oneBox (i : Z) (s : State) :
  oneBox (stateOf (highlightElement b i s)).
Proof.
  rewrite highlightElement_cases. cbv zeta. unfold oneBox, highlightCount.
  repeat match goal with
         | |- context [match ?x with _ => _ end] => destruct x
         end; cbn [stateOf]; unfold withNewNode;
    cbn [page nodes setTimers setPage setNextId setNodes];
    try rewrite highlightCount_snoc; rewrite rescanned_nodes, highlightCount_removed;
    cbn; lia.
Qed.

Section Nested.

Variable defined : bool.
Variable execute : Action -> M unit.
Hypothesis execute_oneBox : forall a, keeps (carries oneBox) (execute a).

Lemma click_oneBox (el : Element) :
  keeps (carries oneBox) (click b defined execute el).
Proof.
  apply (@keeps_click _ (carries_refl oneBox) (@carries_trans oneBox)).
  - intros l. destruct l; cbn [runListener].
    + apply noNew_carries, togglePanelWith_highlight, startAnalysis_highlight.
    + apply noNew_carries, keeps_detached, startAnalysis_highlight.
    + apply keeps_detached, execute_oneBox.
  - intros el'. apply noNew_carries. frame_primitive. highlight_solver.
  - intros el' phase s Hs. unfold oneBox in *. cbn.
    pose proof (click_adds_none el' phase (page s)). lia.
Qed.

Lemma executeActionWith_oneBox (action : Action) :
  keeps (carries oneBox) (executeActionWith b defined execute action).
Proof.
  unfold executeActionWith, executeBody.
  apply (@keeps_tryCatch _ (@carries_trans oneBox)).
  - apply (@keeps_bind _ (@carries_trans oneBox)).
    + unfold highlightStep. destruct (element_index action) as [i|].
      * intros s _. apply highlightElement_oneBox.
      * apply keeps_ret, carries_refl.
    + intros _. apply (@keeps_bind _ (@carries_trans oneBox)).
      * unfold clickStep, scan.
        frame_structure (carries_refl oneBox) (@carries_trans oneBox);
          [apply click_oneBox | apply noNew_carries, showNotification_highlight].
      * intros _. apply noNew_carries. frame_primitive. highlight_solver.
  - intros _. apply noNew_carries. keeps_no_new.
Qed.

End Nested.

Lemma nested_oneBox (defined : bool) (depth : nat) (action : Action) :
  keeps (carries oneBox) (nested b defined depth action).
Proof.
  revert action. induction depth as [|d IH]; intros action; cbn [nested].
  - apply keeps_ret, carries_refl.
  - now apply executeActionWith_oneBox.
Qed.

Lemma step_oneBox (s s' : State) : step b s s' -> oneBox s -> oneBox s'.
Proof.
  intros Hstep. destruct Hstep.
  - apply executeActionWith_oneBox. intros a. apply nested_oneBox.
  - apply noNew_carries, analyzeCurrentPage_highlight.
  - apply noNew_carries. unfold togglePanel.
    apply togglePanelWith_highlight, analyzeCurrentPage_highlight.
  - apply noNew_carries, startAnalysis_highlight.
  - apply noNew_carries, togglePanelWith_highlight, startAnalysis_highlight.
  - apply noNew_carries, resumeAnalysis_highlight.
  - intros Hs. pose proof (fireTimer_highlight k s) as H.
    unfold noNewHighlight, oneBox in *. lia.
Qed.

(** Without an element of the class in what the container holds, the
    highlight nodes of the document are those among the children of the
    body. *)
Lemma document_highlights (s : State) :
  Forall (fun el => isHighlight el = false) (elementsOf (overlayTree s)) ->
  highlightCount (documentPage s) = highlightCount (page s).
Proof.
  intros Hclean. apply filter_none in Hclean.
  unfold highlightCount, documentPage, document. cbn [nodes setNodes].
  induction (nodes (page s)) as [|el l IH]; cbn [flat_map filter]; [reflexivity|].
  rewrite filter_app, length_app, IH. unfold expand.
  destruct (nodeId el =? container s); cbn [filter].
  - rewrite isHighlight_withTextContent. destruct (isHighlight el); cbn [List.length app].
    + now rewrite Hclean.
    + now rewrite Hclean.
  - now destruct (isHighlight el).
Qed.


End Browser.



End HighlightFacts.

(** ** The analysis orchestrator *)

Module AnalysisFacts.

Import Scanner Dom Overlay Observe Observe2 Frame FrameFacts ExecutorFacts Examples.
Local Open Scope overlay_scope.

Lemma sameSession_refl (s : State) : sameSession s s.
Proof. repeat split. Qed.

Lemma sameSession_trans (a b c : State) :
  sameSession a b -> sameSession b c -> sameSession a c.
Proof.
  unfold sameSession. intros [H1 [H2 H3]] [H4 [H5 H6]].
  repeat split; congruence.
Qed.

Lemma samePanel_refl (s : State) : samePanel s s.
Proof. reflexivity. Qed.

Lemma samePanel_trans (a b c : State) :
  samePanel a b -> samePanel b c -> samePanel a c.
Proof. unfold samePanel. congruence. Qed.

Lemma logGrows_refl (s : State) : logGrows s s.
Proof. unfold logGrows. lia. Qed.

Lemma logGrows_trans (a b c : State) :
  logGrows a b -> logGrows b c -> logGrows a c.
Proof. unfold logGrows. lia. Qed.

Ltac session_solver := repeat split.

Ltac panel_solver := reflexivity.

Ltac log_solver :=
  unfold logGrows; state_fields; try rewrite length_app; cbn [List.length]; lia.

Ltac keeps_session :=
  keeps_operations sameSession_refl sameSession_trans session_solver.

Ltac keeps_panel :=
  keeps_operations samePanel_refl samePanel_trans panel_solver.

Ltac keeps_log :=
  keeps_operations logGrows_refl logGrows_trans log_solver.

Section Analysis.

Variable b : Browser.
Variable env : AnalysisEnv.

(** Nothing up to the answer of the backend writes the session. *)
Lemma beginAnalysis_session (defined : bool) :
  keeps sameSession (beginAnalysis b defined).
Proof. unfold beginAnalysis. keeps_session. Qed.

Lemma requestAnalysis_session : keeps sameSession (requestAnalysis env).
Proof. unfold requestAnalysis. keeps_session. Qed.

Lemma analysisFailure_session : keeps sameSession (analysisFailure b).
Proof. unfold analysisFailure. keeps_session. Qed.

(** The request returns an answer only when none of the three awaited steps
    failed and the backend answered in the 2xx range with a body that
    parses. *)
Lemma requestAnalysis_done (s s1 : State) (response : option Response) :
  requestAnalysis env s = Done response s1 ->
  loadFails env = false /\
  captureFails env = false /\
  requestFails env = false /\
  exists status,
    statusOk status = true /\
    fetchResult env =
    FetchResponse status
      (match response with Some r => BodyObject r | None => BodyNull end).
Proof.
  unfold loadFails, captureFails, requestFails.
  repeat (cbv beta iota delta
            [requestAnalysis awaitLoad captureScreenshot sendToBackend
             scan bind modify gets ret throw negb];
          try match goal with
              | |- context [html2canvasDefined env] => destruct (html2canvasDefined env)
              | |- context [scriptLoads env] => destruct (scriptLoads env)
              | |- context [screenshotResult env] => destruct (screenshotResult env)
              | |- context [fetchResult env] => destruct (fetchResult env) as [|status body]
              | |- context [statusOk ?x] => destruct (statusOk x) eqn:Hok
              | |- context [match ?x with BodyInvalid => _ | _ => _ end] => destruct x
              end);
    try discriminate;
    intros Heq; inversion Heq; subst;
    repeat split; eexists; split; eassumption || reflexivity.
Qed.

(** An answer that is [null] is not stored: reading its [session_id]
    throws. *)
Lemma storeAnalysis_null (started : nat * string) (s : State) :
  storeAnalysis b started None s = Thrown TypeError s.
Proof. reflexivity. Qed.

(** Without an answer to store, an analysis leaves the session as it was. *)
Lemma unanswered_keeps_session (s : State) :
  (forall r s0 s1, requestAnalysis env s0 <> Done (Some r) s1) ->
  sameSession s (stateOf (analyzeCurrentPage b env s)).
Proof.
  intros Hno.
  pose proof (beginAnalysis_session (html2canvasDefined env) s) as Hbegin.
  unfold analyzeCurrentPage, analyzeBody, analysisRest.
  set (h := fun _ : Exn => _).
  assert (Hh : forall e s', sameSession s' (stateOf (h e s')))
    by (intros; apply analysisFailure_session).
  clearbody h. unfold tryCatch, bind.
  destruct (beginAnalysis b (html2canvasDefined env) s) as [started s0 | e s0];
    cbn [stateOf] in Hbegin.
  - pose proof (requestAnalysis_session s0) as Hreq.
    destruct (requestAnalysis env s0) as [[r|] s1 | e s1] eqn:Hr; cbn in Hreq.
    + exfalso. now apply (Hno r s0 s1).
    + rewrite storeAnalysis_null.
      eapply sameSession_trans; [exact Hbegin|].
      eapply sameSession_trans; [exact Hreq | apply Hh].
    + eapply sameSession_trans; [exact Hbegin|].
      eapply sameSession_trans; [exact Hreq | apply Hh].
  - eapply sameSession_trans; [exact Hbegin | apply Hh].
Qed.

(** C9: when the load of the screenshot library, the capture of the
    screenshot or the request to the backend fails (the request fails on a
    network error, on a status outside 2xx and on a body that does not
    parse), [analyzeCurrentPage] leaves [sessionId], [currentPage] and
    [actions] as they were; and when one of the three differs after the
    call, none of the steps failed and the backend answered in the 2xx range
    with an object. *)
Theorem session_unchanged_on_failure (s : State) :
  (loadFails env = true \/ captureFails env = true \/ requestFails env = true ->
   sessionId (stateOf (analyzeCurrentPage b env s)) = sessionId s /\
   currentPage (stateOf (analyzeCurrentPage b env s)) = currentPage s /\
   actions (stateOf (analyzeCurrentPage b env s)) = actions s) /\
  (sessionId (stateOf (analyzeCurrentPage b env s)) <> sessionId s \/
   currentPage (stateOf (analyzeCurrentPage b env s)) <> currentPage s \/
   actions (stateOf (analyzeCurrentPage b env s)) <> actions s ->
   loadFails env = false /\ captureFails env = false /\ requestFails env = false /\
   exists status r,
     statusOk status = true /\ fetchResult env = FetchResponse status (BodyObject r)).
Proof.
  split.
  - intros Hfail. apply unanswered_keeps_session.
    intros r s0 s1 Hdone. apply requestAnalysis_done in Hdone.
    destruct Hdone as [Hl [Hc [Hr _]]].
    destruct Hfail as [H | [H | H]]; congruence.
  - intros Hdiff.
    destruct (requestAnalysis env s) as [[r|] s1 | e s1] eqn:Hreq.
    + apply requestAnalysis_done in Hreq.
      destruct Hreq as [Hl [Hc [Hr [status [Hok Hfetch]]]]].
      repeat split; try assumption. now exists status, r.
    + exfalso.
      assert (Hsame : sameSession s (stateOf (analyzeCurrentPage b env s))).
      { apply unanswered_keeps_session. intros r s0 s2 Hdone.
        apply requestAnalysis_done in Hdone. apply requestAnalysis_done in Hreq.
        destruct Hdone as [_ [_ [_ [st1 [_ H1]]]]].
        destruct Hreq as [_ [_ [_ [st2 [_ H2]]]]]. congruence. }
      destruct Hsame as [H1 [H2 H3]]. destruct Hdiff as [H | [H | H]]; contradiction.
    + exfalso.
      assert (Hsame : sameSession s (stateOf (analyzeCurrentPage b env s))).
      { apply unanswered_keeps_session. intros r s0 s2 Hdone.
        apply requestAnalysis_done in Hdone.
        destruct Hdone as [Hl [Hc [Hr [st1 [Hok H1]]]]].
        revert Hreq. unfold loadFails, captureFails in *.
        repeat (cbv beta iota delta
                  [requestAnalysis awaitLoad captureScreenshot sendToBackend
                   scan bind modify gets ret throw];
                try match goal with
                    | |- context [html2canvasDefined env] =>
                        destruct (html2canvasDefined env)
                    | |- context [scriptLoads env] => destruct (scriptLoads env)
                    | |- context [screenshotResult env] =>
                        destruct (screenshotResult env)
                    end);
          try discriminate; rewrite H1, Hok; discriminate. }
      destruct Hsame as [H1 [H2 H3]]. destruct Hdiff as [H | [H | H]]; contradiction.
Qed.

(** An analysis does not touch the visibility of the panel. *)
Lemma analyzeCurrentPage_panel : keeps samePanel (analyzeCurrentPage b env).
Proof.
  unfold analyzeCurrentPage, analyzeBody, analysisRest, beginAnalysis, requestAnalysis,
    storeAnalysis, analysisFailure, displayActions.
  keeps_panel.
Qed.

Lemma beginAnalysis_log (defined : bool) : keeps logGrows (beginAnalysis b defined).
Proof. unfold beginAnalysis. keeps_log. Qed.

Lemma requestAnalysis_log : keeps logGrows (requestAnalysis env).
Proof. unfold requestAnalysis. keeps_log. Qed.

Lemma storeAnalysis_log (started : nat * string) (response : option Response) :
  keeps logGrows (storeAnalysis b started response).
Proof. unfold storeAnalysis, displayActions. keeps_log. Qed.

(** A request that returned has been sent. *)
Lemma requestAnalysis_sent (s s1 : State) (response : option Response) :
  requestAnalysis env s = Done response s1 ->
  List.length (log s) < List.length (log s1).
Proof.
  repeat (cbv beta iota delta
            [requestAnalysis awaitLoad captureScreenshot sendToBackend
             scan bind modify gets ret throw negb];
          try match goal with
              | |- context [html2canvasDefined env] => destruct (html2canvasDefined env)
              | |- context [scriptLoads env] => destruct (scriptLoads env)
              | |- context [screenshotResult env] => destruct (screenshotResult env)
              | |- context [fetchResult env] => destruct (fetchResult env) as [|status body]
              | |- context [statusOk ?x] => destruct (statusOk x)
              | |- context [match ?x with BodyInvalid => _ | _ => _ end] => destruct x
              end);
    try discriminate;
    intros Heq; inversion Heq; subst; cbn [log setLog];
    rewrite length_app; cbn; lia.
Qed.

(** The handler puts the error on the console, whatever follows. *)
Lemma analysisFailure_logs (s : State) :
  List.length (log s) < List.length (log (stateOf (analysisFailure b s))).
Proof.
  unfold analysisFailure. unfold bind at 1, consoleError at 1, modify at 1.
  match goal with
  | |- _ < List.length (log (stateOf (?m ?st))) =>
      assert (Hm : logGrows st (stateOf (m st)))
  end.
  { generalize (setLog s (log s ++ [ConsoleError "Analysis failed:"])).
    match goal with
    | |- forall st, logGrows st (stateOf (?m st)) => change (keeps logGrows m)
    end.
    keeps_log. }
  unfold logGrows in Hm. cbn [log setLog] in Hm.
  rewrite length_app in Hm. cbn [List.length] in Hm. lia.
Qed.

(** Every analysis leaves a trace: the request it sent, or the error it
    reported on the console. *)
Lemma analysis_leaves_trace (s : State) :
  List.length (log s) < List.length (log (stateOf (analyzeCurrentPage b env s))).
Proof.
  unfold analyzeCurrentPage, analyzeBody, analysisRest.
  set (h := fun _ : Exn => _).
  assert (Hh : forall e s', List.length (log s') < List.length (log (stateOf (h e s'))))
    by (intros; apply analysisFailure_logs).
  clearbody h. unfold tryCatch, bind.
  pose proof (beginAnalysis_log (html2canvasDefined env) s) as Hbegin.
  unfold logGrows in Hbegin.
  destruct (beginAnalysis b (html2canvasDefined env) s) as [started s0 | e s0];
    cbn [stateOf] in Hbegin.
  - pose proof (requestAnalysis_log s0) as Hreq. unfold logGrows in Hreq.
    destruct (requestAnalysis env s0) as [r s1 | e s1] eqn:Hr; cbn in Hreq.
    + apply requestAnalysis_sent in Hr.
      pose proof (storeAnalysis_log started r s1) as Hst. unfold logGrows in Hst.
      destruct (storeAnalysis b started r s1) as [[] s2 | e s2]; cbn in Hst.
      * cbn. lia.
      * specialize (Hh e s2). lia.
    + specialize (Hh e s1). lia.
  - specialize (Hh e s0). lia.
Qed.

(** C10: [togglePanel] on a hidden panel with no analysis stored
    ([currentPage] is [null]) opens the panel and runs an analysis on the
    opened panel, which leaves its trace (a request or a console error) and
    the panel open; on a hidden panel with an analysis stored it only opens
    the panel, and on an open panel it only hides it: the state is otherwise
    the same, so no analysis ran. *)
Theorem togglePanel_starts_analysis (s : State) :
  (panelActive s = false -> currentPage s = None ->
   togglePanel b env s =
   Done tt (stateOf (analyzeCurrentPage b env (setPanelActive s true))) /\
   panelActive (stateOf (togglePanel b env s)) = true /\
   List.length (log s) < List.length (log (stateOf (togglePanel b env s)))) /\
  (panelActive s = false -> currentPage s <> None ->
   togglePanel b env s = Done tt (setPanelActive s true)) /\
  (panelActive s = true ->
   togglePanel b env s = Done tt (setPanelActive s false)).
Proof.
  unfold togglePanel, togglePanelWith, bind, gets, modify, detached, ret.
  split; [|split].
  - intros Hp Hc. rewrite Hp. cbn [currentPage setPanelActive]. rewrite Hc.
    cbn [stateOf]. split; [reflexivity|]. split.
    + apply (analyzeCurrentPage_panel (setPanelActive s true)).
    + apply (analysis_leaves_trace (setPanelActive s true)).
  - intros Hp Hc. rewrite Hp. cbn [currentPage setPanelActive].
    destruct (currentPage s); [reflexivity | easy].
  - intros Hp. now rewrite Hp.
Qed.

End Analysis.

Lemma session_unchanged_on_failure_witness :
  let s := opened threeButtons in
  let s' := stateOf (analyzeCurrentPage browser backendDown s) in
  sessionId s' = sessionId s /\ currentPage s' = currentPage s /\ actions s' = actions s.
Proof.
  cbv zeta.
  apply (proj1 (session_unchanged_on_failure browser backendDown (opened threeButtons))).
  right. right. reflexivity.
Defined.

Lemma togglePanel_starts_analysis_witness :
  let hidden := initial threeButtons in
  let analysed := stateOf (analyzeCurrentPage browser backendAnswers (opened threeButtons)) in
  let closed := setPanelActive analysed false in
  togglePanel browser backendDown hidden =
  Done tt (stateOf (analyzeCurrentPage browser backendDown (setPanelActive hidden true))) /\
  togglePanel browser backendDown closed = Done tt (setPanelActive closed true) /\
  togglePanel browser backendDown analysed = Done tt (setPanelActive analysed false).
Proof.
  cbv zeta. split; [|split].
  - apply (proj1 (togglePanel_starts_analysis browser backendDown (initial threeButtons)));
      reflexivity.
  - apply (proj1 (proj2 (togglePanel_starts_analysis browser backendDown
             (setPanelActive
                (stateOf (analyzeCurrentPage browser backendAnswers (opened threeButtons)))
                false)))).
    + reflexivity.
    + vm_compute. discriminate.
  - apply (proj2 (proj2 (togglePanel_starts_analysis browser backendDown
             (stateOf (analyzeCurrentPage browser backendAnswers (opened threeButtons)))))).
    vm_compute. reflexivity.
Defined.

End AnalysisFacts.

(** * Further properties of the content script *)

(** ** More on the scanner *)

Module ScanMore.

Import Scanner ScanSpec ScanFacts Overlay Observe Observe2 Examples.

Lemma indexedFrom_sorted {A} (f : A * nat -> bool) (l : list A) :
  forall k,
    StronglySorted lt (map snd (filter f (indexedFrom k l))) /\
    Forall (fun i => k <= i < k + List.length l) (map snd (filter f (indexedFrom k l))).
Proof.
  induction l as [|a l IH]; intros k; cbn.
  - split; constructor.
  - destruct (IH (S k)) as [Hs Hb].
    assert (Hb' : Forall (fun i => k <= i < k + S (List.length l))
                         (map snd (filter f (indexedFrom (S k) l)))).
    { eapply Forall_impl; [|exact Hb]. cbn. intros i Hi. lia. }
    destruct (f (a, k)); cbn.
    + split.
      * constructor; [exact Hs|].
        eapply Forall_impl; [|exact Hb]. cbn. intros i Hi. lia.
      * constructor; [lia | exact Hb'].
    + split; assumption.
Qed.

Lemma firstn_sorted (n : nat) (l : list nat) :
  StronglySorted lt l -> StronglySorted lt (firstn n l).
Proof.
  revert n. induction l as [|a l IH]; intros [|n] Hs; cbn; try constructor.
  - apply IH. now inversion Hs.
  - inversion Hs as [|? ? _ Hall]; subst.
    rewrite Forall_forall in *. intros x Hx. apply Hall.
    now apply (in_firstn n).
Qed.

Lemma firstn_Forall {A} (P : A -> Prop) (n : nat) (l : list A) :
  Forall P l -> Forall P (firstn n l).
Proof.
  rewrite !Forall_forall. intros H x Hx. apply H. now apply (in_firstn n).
Qed.

(** X1: the indices of the descriptors of a scan grow strictly along the
    list, so no two descriptors share an index, and each index is a position
    in the result of [querySelectorAll]. *)
Theorem scan_indices_increasing (p : Page) :
  StronglySorted lt (map d_index (captureDomElements p)) /\
  NoDup (map d_index (captureDomElements p)) /\
  Forall (fun d => d_index d < List.length (querySelectorAll p))
         (captureDomElements p).
Proof.
  rewrite scan_indices. unfold survivors, candidates.
  destruct (indexedFrom_sorted (fun c => isVisible p (fst c)) (querySelectorAll p) 0)
    as [Hs Hb].
  assert (Hsorted : StronglySorted lt
            (map snd (firstn 50 (filter (fun c => isVisible p (fst c))
                                        (indexedFrom 0 (querySelectorAll p)))))).
  { rewrite <- firstn_map. now apply firstn_sorted. }
  split; [exact Hsorted|]. split.
  - clear Hs Hb. induction Hsorted as [|a l _ IH Hall]; constructor; [|exact IH].
    intros Hin. rewrite Forall_forall in Hall. specialize (Hall a Hin). lia.
  - rewrite captureDomElements_survivors. unfold survivors, candidates.
    rewrite Forall_map. apply firstn_Forall. rewrite Forall_map in Hb.
    eapply Forall_impl; [|exact Hb]. cbn. intros c Hc. lia.
Qed.

Lemma trimStart_head (s : string) :
  trimStart s = EmptyString \/
  exists c r, trimStart s = String c r /\ isWhiteSpace c = false.
Proof.
  induction s as [|c s IH]; cbn; [now left|].
  destruct (isWhiteSpace c) eqn:Hc; [exact IH|].
  right. now exists c, s.
Qed.

Lemma trimEnd_head (c : ascii) (r : string) :
  trimEnd (String c r) = EmptyString \/
  exists r', trimEnd (String c r) = String c r'.
Proof.
  cbn. destruct (trimEnd r).
  - destruct (isWhiteSpace c); [now left | right; now eexists].
  - right. now eexists.
Qed.

(** A trimmed string is empty or starts with a character that is no white
    space. *)
Lemma trim_head (s : string) :
  trim s = EmptyString \/
  exists c r, trim s = String c r /\ isWhiteSpace c = false.
Proof.
  unfold trim. destruct (trimStart_head s) as [H | [c [r [H Hc]]]]; rewrite H.
  - now left.
  - destruct (trimEnd_head c r) as [He | [r' He]]; rewrite He.
    + now left.
    + right. now exists c, r'.
Qed.

(** The label taken from the visible text starts with the first character
    of the trimmed text, which is no white space. *)
Lemma visible_label_head (el : Element) :
  truthy (trim (textContent el)) = true ->
  exists c rest,
    elementText el = String c rest /\ isWhiteSpace c = false.
Proof.
  intros Ht. destruct (visible_text_truncated el Ht) as [Heq _].
  destruct (trim_head (textContent el)) as [He | [c [r [He Hc]]]].
  - rewrite He in Ht. discriminate.
  - exists c, (substring 0 99 r). split; [|exact Hc].
    rewrite Heq, He. reflexivity.
Qed.

(** X21: the label taken from the visible text. When the text content of an
    element is more than white space, the label is the trimmed text cut
    after 100 characters: it is not empty, it starts with a character that
    is no white space, and it has at most 100 characters. *)
Theorem visible_label_shape (el : Element) :
  truthy (trim (textContent el)) = true ->
  exists c rest,
    elementText el = String c rest /\
    isWhiteSpace c = false /\
    String.length (elementText el) <= 100.
Proof.
  intros Ht. destruct (visible_label_head el Ht) as [c [r [Heq Hc]]].
  exists c, r. repeat split; [exact Heq | exact Hc |].
  apply (visible_text_truncated el Ht).
Qed.

Lemma truthyOpt_value (o : option string) :
  truthyOpt o = true ->
  match o with Some t => t | None => EmptyString end <> EmptyString.
Proof.
  destruct o as [t|]; cbn; [|discriminate].
  unfold truthy. destruct (String.eqb_spec t EmptyString); cbn; [discriminate|auto].
Qed.

(** X22: a descriptor has an empty label exactly when the element offers
    none: its text content is empty or white space only, and its
    [aria-label], [placeholder], [value], [alt] and [title] are all absent
    or empty. *)
Theorem label_empty_iff (el : Element) :
  elementText el = EmptyString <->
  truthy (trim (textContent el)) = false /\
  truthyOpt (getAttribute el "aria-label") = false /\
  truthyOpt (getAttribute el "placeholder") = false /\
  truthyOpt (value el) = false /\
  truthyOpt (alt el) = false /\
  truthyOpt (title el) = false.
Proof.
  split.
  - intros He.
    destruct (truthy (trim (textContent el))) eqn:Ht.
    { destruct (visible_label_head el Ht) as [c [r [Heq _]]]. congruence. }
    unfold elementText in He. rewrite Ht, andb_false_r in He.
    repeat match type of He with
           | (if truthyOpt ?o then _ else _) = _ =>
               let H := fresh "H" in
               destruct (truthyOpt o) eqn:H;
               [exfalso; now apply (truthyOpt_value _ H) |]
           end.
    repeat split; assumption.
  - intros [H1 [H2 [H3 [H4 [H5 H6]]]]]. unfold elementText.
    now rewrite H1, andb_false_r, H2, H3, H4, H5, H6.
Qed.

Lemma toLowerCase_nonempty (s : string) :
  s <> EmptyString -> toLowerCase s <> EmptyString.
Proof. destruct s; cbn; [contradiction | discriminate]. Qed.

(** X23: the selector of an element is never the empty string, as long as
    the element has a tag name: [document.querySelector] is never called
    with an empty selector. *)
Theorem selector_never_empty (el : Element) :
  tagName el <> EmptyString ->
  generateSelector el <> EmptyString.
Proof.
  intros Htag. unfold generateSelector.
  destruct (truthy (id_ el)); [discriminate|].
  destruct (truthyOpt (getAttribute el "data-testid")) eqn:Ht.
  - destruct (getAttribute el "data-testid"); [discriminate | discriminate].
  - destruct (0 <? List.length (classList el)); [discriminate|].
    now apply toLowerCase_nonempty.
Qed.

(** X24: what is never scanned. A disabled element is a candidate only
    through an [href], a role of button or link, or a tab index; an input
    of type hidden (in any letter case) only through such a role or a tab
    index. A disabled button and a hidden input with none of these never
    appear in a scan. *)
Theorem disabled_and_hidden_excluded (el : Element) :
  (hasAttribute el "disabled" = true ->
   matchesSelectors el = true ->
   sel_anchor el = true \/ sel_roleButton el = true \/
   sel_roleLink el = true \/ sel_tabindex el = true) /\
  (isTag el "input" = true -> typeIsHidden el = true ->
   matchesSelectors el = true ->
   sel_roleButton el = true \/ sel_roleLink el = true \/ sel_tabindex el = true).
Proof.
  unfold matchesSelectors, selectors. cbn [existsb]. split.
  - intros Hd.
    unfold sel_button, sel_input, sel_select, sel_textarea. rewrite Hd.
    cbn [negb]. rewrite !andb_false_r. cbn [orb].
    destruct (sel_anchor el), (sel_roleButton el), (sel_roleLink el),
      (sel_tabindex el); cbn; auto.
  - intros Hi Hh.
    unfold sel_button, sel_anchor, sel_input, sel_select, sel_textarea.
    unfold isTag in *. apply String.eqb_eq in Hi. rewrite Hi, Hh. cbn.
    destruct (sel_roleButton el), (sel_roleLink el), (sel_tabindex el); cbn; auto.
Qed.

End ScanMore.

(** ** More on the executor *)

Module ExecutorMore.

Import Scanner Dom ScanSpec ScanFacts Overlay Observe Observe2 Frame FrameFacts
       TreeFacts ExecutorFacts HighlightFacts AnalysisFacts Examples.
Local Open Scope overlay_scope.

(** The loop of a scan reads the layout and the scroll offsets of the page,
    not its list of nodes. *)
Lemma forEachFrom_setNodes (p : Page) (ns els : list Element) :
  forall i acc,
    forEachFrom (setNodes p ns) els i acc = forEachFrom p els i acc.
Proof.
  induction els as [|el rest IH]; intros i acc; cbn; [reflexivity|].
  now rewrite IH.
Qed.

(** A scan depends on the nodes of the page only through the candidates. *)
Lemma scan_same_candidates (p : Page) (ns : list Element) :
  filter matchesSelectors ns = filter matchesSelectors (nodes p) ->
  captureDomElements (setNodes p ns) = captureDomElements p.
Proof.
  intros H. unfold captureDomElements, querySelectorAll. cbn [nodes setNodes].
  now rewrite H, forEachFrom_setNodes.
Qed.

(** A node appended to the body that is no candidate leaves the scan of
    the document as it was. *)
Lemma scan_after_new_node (s : State) (el : Element) :
  matchesSelectors el = false ->
  nodeId el <> container s ->
  captureDomElements (documentPage (withNewNode s el)) =
  captureDomElements (documentPage s).
Proof.
  intros Hel Hid. unfold documentPage. rewrite (@document_withNewNode s el Hid).
  change (setNodes (page (withNewNode s el)) (document s ++ [el]))
    with (setNodes (setNodes (page s) (document s)) (document s ++ [el])).
  apply scan_same_candidates. cbn [nodes setNodes].
  rewrite filter_app. cbn [filter]. rewrite Hel. apply app_nil_r.
Qed.

Lemma highlightBox_no_candidate (s : State) (el : Element) :
  matchesSelectors (highlightBoxFor s el) = false.
Proof. reflexivity. Qed.

Lemma notification_no_candidate (s : State) (message : string) :
  matchesSelectors (notificationFor s message) = false.
Proof. reflexivity. Qed.

Lemma nth_error_last {A} (l : list A) (a : A) :
  nth_error (l ++ [a]) (List.length l) = Some a.
Proof.
  rewrite nth_error_app2 by lia. now rewrite Nat.sub_diag.
Qed.

Lemma dropNth_last {A} (l : list A) (a : A) :
  dropNth (List.length l) (l ++ [a]) = l.
Proof.
  induction l as [|x l IH]; cbn; [reflexivity|]. now rewrite IH.
Qed.

Lemma filter_fresh (n : nat) (l : list Element) :
  Forall (fun el => nodeId el < n) l ->
  filter (fun el => negb (nodeId el =? n)) l = l.
Proof.
  induction 1 as [|el l Hel _ IH]; cbn; [reflexivity|].
  replace (nodeId el =? n) with false by (symmetry; apply Nat.eqb_neq; lia).
  cbn. now rewrite IH.
Qed.

(** The removal timer of a node that was just created takes out that node
    and no other. *)
Lemma new_node_removed (s : State) (el : Element) :
  freshIds s ->
  nodeId el = nextId s ->
  nodes (page (fireTimer (List.length (timers s)) (withNewNode s el))) =
  nodes (page s) /\
  timers (fireTimer (List.length (timers s)) (withNewNode s el)) = timers s.
Proof.
  intros Hf Hid. unfold fireTimer, withNewNode. cbn [timers setTimers].
  rewrite nth_error_last, dropNth_last. cbn [task runTask].
  unfold removeNode. cbn [page nodes setPage setNodes setTimers setNextId timers].
  split; [|reflexivity].
  rewrite filter_app, (@filter_fresh _ _ Hf). cbn [filter].
  rewrite Hid, Nat.eqb_refl. cbn. apply app_nil_r.
Qed.

Lemma freshIds_rescanned (s : State) : freshIds s -> freshIds (rescanned s).
Proof.
  unfold freshIds. rewrite rescanned_nextId, rescanned_nodes.
  rewrite !Forall_forall. intros H el Hin. apply H.
  apply filter_In in Hin. tauto.
Qed.

Section Browser.

Variable b : Browser.
Variable defined : bool.


(** X4: the nodes the overlay puts into the body are no candidates of a
    scan. A scan of the document after a notification was shown gives the
    list it gave before, and the scan after [highlightElement], returned or
    thrown, gives the list [highlightElement] itself scanned (that of the
    document without its old highlight nodes): the index that both bound
    checks of an execution compare is checked against one and the same
    list. (The identity of the container is one handed out before, as it
    is from its creation on.) *)
Theorem overlay_nodes_not_scanned (i : Z) (message : string) (s : State) :
  container s < nextId s ->
  captureDomElements (documentPage (stateOf (showNotification message s))) =
  captureDomElements (documentPage s) /\
  captureDomElements (documentPage (stateOf (highlightElement b i s))) =
  captureDomElements (documentPage (rescanned s)).
Proof.
  intros Hfresh. split.
  - rewrite showNotification_eq. cbn [stateOf].
    apply scan_after_new_node; [apply notification_no_candidate | cbn; lia].
  - rewrite highlightElement_cases. cbv zeta.
    repeat match goal with
           | |- context [match ?x with _ => _ end] => destruct x
           end; cbn [stateOf]; try reflexivity.
    apply scan_after_new_node; [apply highlightBox_no_candidate|].
    cbn [nodeId highlightBoxFor]. rewrite rescanned_nextId, rescanned_container. lia.
Qed.

Section Nested.

Variable execute : Action -> M unit.
Hypothesis execute_session : forall a, keeps sameSession (execute a).

Lemma executeActionWith_session (action : Action) :
  keeps sameSession (executeActionWith b defined execute action).
Proof.
  keeps_execution sameSession_refl sameSession_trans session_solver.
Qed.

(** A click on an element with the method, outside the container of the
    overlay, reaches the listeners of the page alone. *)
Lemma click_outside (el : Element) (s : State) :
  clickMethod b el = DispatchesClick ->
  eventPath s el = [] ->
  click b defined execute el s = Done tt (clicked b s el).
Proof.
  intros Hc Hp. unfold click. rewrite Hc.
  unfold bind at 1, modify. unfold bind at 1. unfold bind at 1, gets.
  change (eventPath (setPage (setLog s (log s ++ [Clicked el]))
                      (dispatchClick b el Capturing
                         (page (setLog s (log s ++ [Clicked el]))))) el)
    with (eventPath s el).
  rewrite Hp. reflexivity.
Qed.

End Nested.

Lemma nested_session (depth : nat) (action : Action) :
  keeps sameSession (nested b defined depth action).
Proof.
  revert action. induction depth as [|d IH]; intros action; cbn [nested].
  - apply keeps_ret, sameSession_refl.
  - now apply executeActionWith_session.
Qed.

(** X5: an execution reads the session and never writes it, whatever
    listeners its click reaches: [sessionId], [currentPage] and [actions]
    are the same after [executeAction] as before. *)
Theorem executeAction_keeps_session (depth : nat) (action : Action) (s : State) :
  sameSession s (stateOf (executeAction b defined depth action s)).
Proof.
  apply executeActionWith_session. intros a. apply nested_session.
Qed.

Lemma failureReported_counts (s : State) :
  notifications (failureReported (rescanned s)) =
  notifications (rescanned s) ++ ["Failed to execute action"%string] /\
  clickCount (failureReported (rescanned s)) = clickCount s /\
  collapseCount (failureReported (rescanned s)) = collapseCount s.
Proof.
  unfold notifications, clickCount, collapseCount, failureReported, withNewNode.
  cbn [page nodes setNodes log timers setTimers setPage setNextId setLog].
  rewrite filter_app, map_app, clickCount_snoc, collapseCount_snoc.
  rewrite rescanned_log, rescanned_timers. cbn [isClick isCollapse task delay].
  repeat split; cbn; lia.
Qed.

(** X6: a negative index is reported as a failure: reading the descriptor
    throws in [highlightElement], the handler logs the error and shows the
    notification [Failed to execute action]; nothing is clicked and the
    collapse of the panel is not scheduled. *)
Theorem negative_index_reported (depth : nat) (action : Action) (k : Z) (s : State) :
  element_index action = Some k ->
  (k < 0)%Z ->
  executeAction b defined depth action s =
  Done tt (failureReported (rescanned s)) /\
  notifications (failureReported (rescanned s)) =
  notifications (rescanned s) ++ ["Failed to execute action"%string] /\
  clickCount (failureReported (rescanned s)) = clickCount s /\
  collapseCount (failureReported (rescanned s)) = collapseCount s.
Proof.
  intros Hi Hk. split; [|apply failureReported_counts].
  apply (@executeAction_thrown b defined _ action s (rescanned s) TypeError).
  unfold executeBody, highlightStep. rewrite Hi. unfold bind at 1.
  rewrite highlightElement_cases. cbv zeta.
  replace (k <? _)%Z with true by (symmetry; apply Z.ltb_lt; lia).
  unfold arrayGet. replace (k <? 0)%Z with true by (symmetry; apply Z.ltb_lt; lia).
  reflexivity.
Qed.

(** X7: a selector the browser rejects is reported as a failure: when the
    index is in range and [document.querySelector] throws on the selector of
    its descriptor, the handler logs the error and shows the notification;
    nothing is clicked and the collapse is not scheduled. *)
Theorem rejected_selector_reported (depth : nat) (action : Action) (k : Z)
    (d : Descriptor) (s : State) :
  element_index action = Some k ->
  arrayGet (captureDomElements (documentPage (rescanned s))) k = Some d ->
  querySelector b (document (rescanned s)) (d_selector d) = QSyntaxError ->
  executeAction b defined depth action s =
  Done tt (failureReported (rescanned s)) /\
  notifications (failureReported (rescanned s)) =
  notifications (rescanned s) ++ ["Failed to execute action"%string] /\
  clickCount (failureReported (rescanned s)) = clickCount s /\
  collapseCount (failureReported (rescanned s)) = collapseCount s.
Proof.
  intros Hi Hd Hq. split; [|apply failureReported_counts].
  apply (@executeAction_thrown b defined _ action s (rescanned s) SyntaxError).
  unfold executeBody, highlightStep. rewrite Hi. unfold bind at 1.
  rewrite highlightElement_cases. cbv zeta.
  rewrite (arrayGet_in_range _ _ Hd), Hd, Hq. reflexivity.
Qed.


(** X9: an action without [element_index] is executed without a word: no
    highlight is touched, nothing is clicked or reported, and the collapse
    of the panel is scheduled. *)
Theorem missing_index_is_skipped (depth : nat) (action : Action) (s : State) :
  element_index action = None ->
  executeAction b defined depth action s = Done tt (collapseScheduled s).
Proof.
  intros Hi. apply executeAction_done. now apply executeBody_without_index.
Qed.

(** X10: after an execution whose [try] block did not throw, the timer
    scheduled last is the collapse: when it fires, the panel is hidden, and
    the page and the other pending timers are as the execution left
    them. *)
Theorem collapse_timer_closes_panel (depth : nat) (action : Action) (s : State) :
  completed (executeBody b defined (nested b defined depth) action s) = true ->
  let s' := stateOf (executeAction b defined depth action s) in
  let n := List.length (timers s') - 1 in
  nth_error (timers s') n = Some (mkTimer 1000 ClosePanel) /\
  panelActive (fireTimer n s') = false /\
  page (fireTimer n s') = page s' /\
  timers (fireTimer n s') = removelast (timers s').
Proof.
  intros Hc. cbv zeta. unfold executeAction, executeActionWith, tryCatch.
  destruct (executeBody b defined (nested b defined depth) action s)
    as [[] s1 | e s1] eqn:Hb; [|discriminate].
  apply executeBody_done in Hb. destruct Hb as [s2 [_ Hs]]. subst s1.
  cbn [stateOf]. unfold collapseScheduled. cbn [timers setTimers].
  rewrite length_app. cbn [List.length].
  replace (List.length (timers s2) + 1 - 1) with (List.length (timers s2)) by lia.
  unfold fireTimer. cbn [timers setTimers].
  rewrite nth_error_last, dropNth_last, removelast_last.
  repeat split.
Qed.

(** X11: a notification is transient: when the timer that
    [showNotification] set fires, the body holds the children it held
    before the notification was shown, and the timer is gone. (The
    identities of the children of the body are below the next one handed
    out, as they are for every node the overlay created.) *)
Theorem notification_is_transient (message : string) (s : State) :
  freshIds s ->
  let shown := stateOf (showNotification message s) in
  notifications shown = notifications s ++ [message] /\
  nth_error (timers shown) (List.length (timers s)) =
  Some (mkTimer 3000 (RemoveNode (nextId s))) /\
  nodes (page (fireTimer (List.length (timers s)) shown)) = nodes (page s) /\
  timers (fireTimer (List.length (timers s)) shown) = timers s.
Proof.
  intros Hf. cbv zeta. rewrite showNotification_eq. cbn [stateOf].
  split; [|split].
  - unfold notifications, withNewNode.
    cbn [page nodes setPage setNodes setTimers setNextId].
    now rewrite filter_app, map_app.
  - unfold withNewNode. cbn [timers setTimers]. apply nth_error_last.
  - now apply new_node_removed.
Qed.

(** X20: a highlight is transient and alone. When the index is in range and
    its selector resolves to a node, [highlightElement] leaves exactly one
    highlight node in the document, with a removal timer of three seconds;
    when that timer fires, the body holds the children it held before
    without their highlight nodes, and the document holds no highlight
    node. (The identities of the children of the body and of the container
    are below the next one handed out.) *)
Theorem highlight_is_transient (k : Z) (d : Descriptor) (el : Element) (s : State) :
  freshIds s ->
  container s < nextId s ->
  arrayGet (captureDomElements (documentPage (rescanned s))) k = Some d ->
  querySelector b (document (rescanned s)) (d_selector d) = QElement el ->
  let drawn := stateOf (highlightElement b k s) in
  let gone := fireTimer (List.length (timers s)) drawn in
  highlightCount (documentPage drawn) = 1 /\
  nth_error (timers drawn) (List.length (timers s)) =
  Some (mkTimer 3000 (RemoveNode (nextId s))) /\
  nodes (page gone) = nodes (page (rescanned s)) /\
  highlightCount (documentPage gone) = 0.
Proof.
  intros Hf Hfresh Hd Hq. cbv zeta.
  rewrite highlightElement_cases. cbv zeta.
  rewrite (arrayGet_in_range _ _ Hd), Hd, Hq. cbn [stateOf].
  destruct (@new_node_removed (rescanned s) (highlightBoxFor (rescanned s) el)
              (freshIds_rescanned Hf) eq_refl) as [Hn Ht].
  rewrite rescanned_timers in Hn, Ht.
  pose proof (rescanned_clean s) as Hclean. apply filter_none in Hclean.
  split; [|split; [|split]].
  - unfold highlightCount, documentPage. cbn [nodes setNodes].
    rewrite document_withNewNode
      by (cbn [nodeId highlightBoxFor];
          rewrite rescanned_nextId, rescanned_container; lia).
    rewrite highlightCount_snoc, Hclean. reflexivity.
  - unfold withNewNode. cbn [timers setTimers].
    rewrite rescanned_timers, rescanned_nextId. apply nth_error_last.
  - exact Hn.
  - unfold highlightCount, documentPage. cbn [nodes setNodes].
    replace (document (fireTimer (List.length (timers s))
               (withNewNode (rescanned s) (highlightBoxFor (rescanned s) el))))
      with (document (rescanned s)); [now rewrite Hclean|].
    unfold document. rewrite Hn.
    apply flat_map_ext. intros a.
    unfold fireTimer, withNewNode. cbn [timers setTimers].
    rewrite <- (rescanned_timers s), nth_error_last, dropNth_last.
    reflexivity.
Qed.

End Browser.

End ExecutorMore.

(** ** More on the analysis *)

Module AnalysisMore.

Import Scanner Dom ScanSpec ScanFacts Overlay Observe Observe2 Frame FrameFacts
       TreeFacts ExecutorFacts AnalysisFacts ExecutorMore Examples.
Local Open Scope overlay_scope.

Lemma bind_done {A B} (m : M A) (k : A -> M B) (s s1 : State) (a : A) :
  m s = Done a s1 -> bind m k s = k a s1.
Proof. intros H. unfold bind. now rewrite H. Qed.

Arguments bind_done {A B} m k {s s1 a} _.

Lemma bind_thrown {A B} (m : M A) (k : A -> M B) (s s1 : State) (e : Exn) :
  m s = Thrown e s1 -> bind m k s = Thrown e s1.
Proof. intros H. unfold bind. now rewrite H. Qed.

Arguments bind_thrown {A B} m k {s s1 e} _.

Lemma sameLog_refl (s : State) : sameLog s s.
Proof. reflexivity. Qed.

Lemma sameLog_trans (a b c : State) : sameLog a b -> sameLog b c -> sameLog a c.
Proof. unfold sameLog. congruence. Qed.

Ltac same_log_solver := unfold sameLog; state_fields; reflexivity.

Ltac keeps_same_log :=
  keeps_operations sameLog_refl sameLog_trans same_log_solver.

Lemma fetchCount_snoc (l : list Event) (e : Event) :
  List.length (filter isFetch (l ++ [e])) =
  List.length (filter isFetch l) + (if isFetch e then 1 else 0).
Proof.
  rewrite filter_app, length_app. cbn. now destruct (isFetch e).
Qed.

(** *** Lookups in the panel while it is written to *)

Lemma withDisabled_id (d : bool) (el : Element) : id_ (withDisabled d el) = id_ el.
Proof. unfold withDisabled. now destruct (reflectsDisabled el). Qed.

Lemma withDisabled_nodeId (d : bool) (el : Element) :
  nodeId (withDisabled d el) = nodeId el.
Proof. unfold withDisabled. now destruct (reflectsDisabled el). Qed.

Lemma foundAt_same (s s' : State) (i : string) (n k : nat) :
  panelContent s' = panelContent s -> foundAt s i n k -> foundAt s' i n k.
Proof. unfold foundAt, firstOf. now intros ->. Qed.

(** A write to the children of the elements of identity [n] leaves the
    lookup where it was. *)
Lemma foundAt_setChildren (s s' : State) (i : string) (n k : nat) (new : list Node) :
  panelContent s' = map (setChildren n new) (panelContent s) ->
  foundAt s i n k -> foundAt s' i n k.
Proof.
  intros Hp [el [Hf [Hi Hk]]]. unfold foundAt, firstOf in *. rewrite Hp.
  destruct (@find_stable n (fun e => (id_ e =? i)%string)
              (fun _ _ => eq_refl) (setChildren n new)) with
    (forest := panelContent s) (c := el) as [c' [Hc' [HP Hid]]].
  - reflexivity.
  - intros e ch He. exists e, new. cbn [setChildren].
    apply Nat.eqb_eq in He. rewrite He. apply Nat.eqb_eq in He. auto.
  - intros e ch He. cbn [setChildren]. apply Nat.eqb_neq in He. now rewrite He.
  - exact Hf.
  - rewrite Hi. apply String.eqb_refl.
  - exists c'. apply String.eqb_eq in HP. repeat split; congruence.
Qed.

(** So does a write to their [disabled] property. *)
Lemma foundAt_updateElement (s s' : State) (i : string) (n k : nat) (d : bool) :
  panelContent s' = map (updateElement n (withDisabled d)) (panelContent s) ->
  foundAt s i n k -> foundAt s' i n k.
Proof.
  intros Hp [el [Hf [Hi Hk]]]. unfold foundAt, firstOf in *. rewrite Hp.
  destruct (@find_stable n (fun e => (id_ e =? i)%string)
              (fun _ _ => eq_refl) (updateElement n (withDisabled d))) with
    (forest := panelContent s) (c := el) as [c' [Hc' [HP Hid]]].
  - reflexivity.
  - intros e ch He. eexists. eexists. cbn [updateElement].
    apply Nat.eqb_eq in He. rewrite He. apply Nat.eqb_eq in He.
    split; [reflexivity|]. now rewrite withDisabled_nodeId, withDisabled_id.
  - intros e ch He. cbn [updateElement]. apply Nat.eqb_neq in He. now rewrite He.
  - exact Hf.
  - rewrite Hi. apply String.eqb_refl.
  - exists c'. apply String.eqb_eq in HP. repeat split; congruence.
Qed.

Lemma queried_found (s : State) (i : string) (n k : nat) :
  foundAt s i n k -> exists el, queried s i = Some el /\ nodeId el = k.
Proof.
  intros [el [Hf [Hi Hk]]]. exists el. split; [|exact Hk].
  unfold queried. unfold firstOf in Hf.
  apply (find_either _ _ _ Hf). rewrite Hi. apply String.eqb_refl.
Qed.

Section Analysis.

Variable b : Browser.
Variable env : AnalysisEnv.

Lemma foundAt_written (s : State) (i : string) (n k : nat) (markup : string) :
  foundAt s i n k -> foundAt (written b n markup s) i n k.
Proof. apply foundAt_setChildren with (new := parseHTML b (nextId s) markup). reflexivity. Qed.

Lemma foundAt_disabledSet (s : State) (i : string) (n k : nat) (d : bool) :
  foundAt s i n k -> foundAt (disabledSet d n s) i n k.
Proof. apply foundAt_updateElement with (d := d). reflexivity. Qed.

Lemma foundAt_begun (s : State) (i : string) (n k : nat) (defined : bool) :
  foundAt s i n k -> foundAt (begun b defined n s) i n k.
Proof.
  intros H. unfold begun.
  assert (H1 : foundAt
            (disabledSet true n
               (written b n (analyzingMarkup (pictograph b Hourglass)) s)) i n k)
    by now apply foundAt_disabledSet, foundAt_written.
  destruct defined; [exact H1|]. revert H1. now apply foundAt_same.
Qed.

Lemma analyzeBtnQuery_queried (s : State) (el : Element) :
  queried s "analyze-btn" = Some el -> analyzeBtnQuery s = Done (nodeId el) s.
Proof.
  intros H. unfold analyzeBtnQuery, bind, panelQuery, gets.
  fold (queried s "analyze-btn"). now rewrite H.
Qed.

Lemma analyzeBtnQuery_none (s : State) :
  hasAnalyzeBtn s = false -> analyzeBtnQuery s = Thrown TypeError s.
Proof.
  unfold hasAnalyzeBtn, analyzeBtnQuery, bind, panelQuery, gets.
  fold (queried s "analyze-btn").
  destruct (queried s "analyze-btn"); [discriminate | reflexivity].
Qed.

Lemma analyzeBtnQuery_found (s : State) (n btn : nat) :
  foundAt s "analyze-btn" n btn -> analyzeBtnQuery s = Done btn s.
Proof.
  intros H. destruct (queried_found H) as [el [Hq Hid]].
  rewrite (analyzeBtnQuery_queried _ Hq). now rewrite Hid.
Qed.

Lemma actionsContainerQuery_queried (s : State) (el : Element) :
  queried s "a11y-actions" = Some el -> actionsContainerQuery s = Done (nodeId el) s.
Proof.
  intros H. unfold actionsContainerQuery, bind, panelQuery, gets.
  fold (queried s "a11y-actions"). now rewrite H.
Qed.

Lemma actionsContainerQuery_found (s : State) (n cid : nat) :
  foundAt s "a11y-actions" n cid -> actionsContainerQuery s = Done cid s.
Proof.
  intros H. destruct (queried_found H) as [el [Hq Hid]].
  rewrite (actionsContainerQuery_queried _ Hq). now rewrite Hid.
Qed.

Lemma setInnerHTML_eq (n : nat) (markup : string) (s : State) :
  setInnerHTML b n markup s = Done tt (written b n markup s).
Proof. reflexivity. Qed.

Lemma setProperty_eq (n : nat) (d : bool) (s : State) :
  setProperty n (withDisabled d) s = Done tt (disabledSet d n s).
Proof. reflexivity. Qed.

(** *** The parts of an analysis, case by case *)

Lemma beginAnalysis_eq (defined : bool) (s : State) (el : Element) :
  queried s "analyze-btn" = Some el ->
  beginAnalysis b defined s =
  Done (nodeId el, originalText b (nodeId el) s) (begun b defined (nodeId el) s).
Proof.
  intros H. unfold beginAnalysis.
  rewrite (bind_done _ _ (analyzeBtnQuery_queried _ H)).
  unfold bind at 1, innerHTML, gets.
  rewrite (bind_done _ _ (setInnerHTML_eq _ _ _)).
  rewrite (bind_done _ _ (setProperty_eq _ _ _)).
  unfold begun, loadHtml2Canvas. destruct defined; reflexivity.
Qed.

Lemma beginAnalysis_none (defined : bool) (s : State) :
  hasAnalyzeBtn s = false -> beginAnalysis b defined s = Thrown TypeError s.
Proof.
  intros H. unfold beginAnalysis.
  now rewrite (bind_thrown _ _ (analyzeBtnQuery_none _ H)).
Qed.

Lemma analysisFailure_eq (s : State) (btn cid : nat) :
  analyzeBtnIs s btn -> actionsContainerIs s btn cid ->
  analysisFailure b s = Done tt (failureShown b btn cid s).
Proof.
  unfold analyzeBtnIs, actionsContainerIs. intros Hb Hc. unfold analysisFailure.
  assert (H0 : consoleError "Analysis failed:" s = Done tt (analysisRejected s))
    by reflexivity.
  rewrite (bind_done _ _ H0).
  assert (Hb1 : foundAt (analysisRejected s) "analyze-btn" btn btn)
    by (revert Hb; now apply foundAt_same).
  assert (Hc1 : foundAt (analysisRejected s) "a11y-actions" btn cid)
    by (revert Hc; now apply foundAt_same).
  rewrite (bind_done _ _ (analyzeBtnQuery_found Hb1)).
  rewrite (bind_done _ _ (setInnerHTML_eq _ _ _)).
  rewrite (bind_done _ _ (setProperty_eq _ _ _)).
  rewrite (bind_done _ _
             (actionsContainerQuery_found
                (foundAt_disabledSet false
                   (foundAt_written (failedMarkup (pictograph b CrossMark)) Hc1)))).
  reflexivity.
Qed.

Lemma analysisFailure_none (s : State) :
  hasAnalyzeBtn s = false ->
  analysisFailure b s = Thrown TypeError (analysisRejected s).
Proof.
  intros H. unfold analysisFailure.
  assert (H0 : consoleError "Analysis failed:" s = Done tt (analysisRejected s))
    by reflexivity.
  rewrite (bind_done _ _ H0).
  assert (H1 : hasAnalyzeBtn (analysisRejected s) = false) by exact H.
  now rewrite (bind_thrown _ _ (analyzeBtnQuery_none _ H1)).
Qed.

Lemma requestAnalysis_eq (s : State) :
  requestAnalysis env s =
  if loadFails env then Thrown ScriptLoadError s
  else match screenshotResult env with
       | None => Thrown ScreenshotError s
       | Some screenshot => answerOf env (requestSent screenshot s)
       end.
Proof.
  unfold requestAnalysis, awaitLoad, captureScreenshot, sendToBackend, scan, loadFails,
    answerOf, requestSent, bind, gets, modify, ret, throw.
  destruct (html2canvasDefined env), (scriptLoads env); cbn [negb andb];
    try reflexivity;
    (destruct (screenshotResult env); [|reflexivity]);
    (destruct (fetchResult env) as [|status body]; [reflexivity|]);
    (destruct (negb (statusOk status)); [reflexivity|]);
    destruct body; reflexivity.
Qed.

Lemma displayAction_eq (cid : nat) (action : Action) (s : State) :
  displayAction b cid action s =
  Done tt
    (setPanelContent
       (setListeners (setNextId s (nextAfterButton b (nextId s) action))
                     (listeners s ++ [(nextId s, OnAction action)]))
       (map (appendChild cid (buttonNode b (nextId s) action)) (panelContent s))).
Proof.
  unfold displayAction, bind, createElement, parseMarkup, addEventListener, appendTo,
    modify, buttonNode, actionButton, nextAfterButton.
  destruct (isPrimary action); reflexivity.
Qed.

(** The loop of [displayActions] appends one button after the other to the
    children the container was given. *)
Lemma forEachAction_eq (cid : nat) (acts : list Action) :
  forall (s : State) (acc forest : list Node),
    panelContent s = map (setChildren cid acc) forest ->
    forEachAction b cid acts s =
    Done tt
      (setPanelContent
         (setListeners (setNextId s (nextAfter b (nextId s) acts))
                       (listeners s ++ listenersFrom b (nextId s) acts))
         (map (setChildren cid (acc ++ buttonsFrom b (nextId s) acts)) forest)).
Proof.
  induction acts as [|action rest IH]; intros s acc forest Hp.
  - cbn [forEachAction nextAfter]. unfold ret, listenersFrom, buttonsFrom.
    cbn [identitiesFrom combine map]. rewrite !app_nil_r, <- Hp.
    now destruct s.
  - cbn [forEachAction]. rewrite (bind_done _ _ (displayAction_eq cid action s)).
    rewrite (IH _ (acc ++ [buttonNode b (nextId s) action]) forest).
    + cbn [nextId listeners setPanelContent setListeners setNextId nextAfter].
      unfold listenersFrom, buttonsFrom. cbn [identitiesFrom combine map fst snd].
      now rewrite <- !app_assoc.
    + cbn [panelContent setPanelContent]. rewrite Hp, map_map.
      apply map_ext. intros t. apply appendChild_setChildren.
Qed.

Lemma displayActions_eq (acts : list Action) (s : State) (el : Element) :
  queried s "a11y-actions" = Some el ->
  displayActions b acts s = Done tt (displayed b acts (nodeId el) s).
Proof.
  intros H. unfold displayActions, displayed.
  rewrite (bind_done _ _ (actionsContainerQuery_queried _ H)).
  unfold bind, clearChildren, modify.
  destruct (List.length acts =? 0); [reflexivity|].
  rewrite (@forEachAction_eq (nodeId el) acts _ [] (panelContent s)) by reflexivity.
  reflexivity.
Qed.

Lemma storeAnalysis_without_analysis (started : nat * string) (r : Response)
    (s : State) :
  analysis r = None ->
  storeAnalysis b started (Some r) s =
  Thrown TypeError (setCurrentPage (setSessionId s (session_id r)) None).
Proof.
  intros H. unfold storeAnalysis, bind, propertyOf, ret, modify, throw.
  now rewrite H.
Qed.

Lemma storeAnalysis_eq (started : nat * string) (r : Response) (an : Analysis)
    (s : State) (el : Element) :
  analysis r = Some an ->
  queried s "a11y-actions" = Some el ->
  storeAnalysis b started (Some r) s =
  Done tt
    (restored b (fst started) (snd started)
       (displayed b (match an_actions an with Some l => l | None => [] end)
                  (nodeId el) (sessionStored r an s))).
Proof.
  intros Han Hq. unfold storeAnalysis.
  unfold bind at 1, propertyOf at 1, ret at 1.
  unfold bind at 1, modify at 1.
  unfold bind at 1, propertyOf at 1, ret at 1.
  unfold bind at 1, modify at 1.
  rewrite Han. cbn [propertyOf].
  unfold bind at 1, ret at 1.
  unfold bind at 1, modify at 1.
  unfold bind at 1, gets at 1.
  cbn [actions setActions].
  fold (sessionStored r an s).
  assert (Hq1 : queried (sessionStored r an s) "a11y-actions" = Some el) by exact Hq.
  rewrite (bind_done _ _ (displayActions_eq _ _ Hq1)).
  rewrite (bind_done _ _ (setInnerHTML_eq _ _ _)).
  reflexivity.
Qed.

(** X12: without the analyze button nothing is analysed. A call of
    [analyzeCurrentPage] on a panel that holds no element with the id
    [analyze-btn] throws on the missing button before anything is captured
    or sent, throws again in its handler, and ends as a rejected promise
    with one more error on the console and nothing else changed; the part
    of the call that a click runs ends the same way. *)
Theorem analysis_without_button (defined : bool) (s : State) :
  hasAnalyzeBtn s = false ->
  analyzeCurrentPage b env s = Thrown TypeError (analysisRejected s) /\
  startAnalysis b defined s = Thrown TypeError (analysisRejected s).
Proof.
  intros H. split.
  - unfold analyzeCurrentPage, tryCatch, analyzeBody.
    rewrite (bind_thrown _ _ (beginAnalysis_none _ _ H)).
    now apply analysisFailure_none.
  - unfold startAnalysis, tryCatch.
    rewrite (bind_thrown _ _ (beginAnalysis_none _ _ H)).
    now apply analysisFailure_none.
Qed.

Lemma listenersFrom_actions (n : nat) (acts : list Action) :
  map snd (listenersFrom b n acts) = map OnAction acts.
Proof.
  unfold listenersFrom. revert n.
  induction acts as [|a r IH]; intros n; cbn; [reflexivity|]. now rewrite IH.
Qed.

(** X13: a successful analysis replaces the session. With the analyze
    button and the container of the actions where the panel was built with
    them, the library available, the screenshot taken and an answer in the
    2xx range whose body is an object with an [analysis], the call is
    fulfilled: one request was sent, [sessionId] is the [session_id] of the
    answer, [currentPage] its [analysis], [actions] its actions (none when
    the answer has no [actions]); the container shows them, with one
    listener registered for each action, in their order; the analyze button
    was given back its markup and enabled, if it is still there; the
    visibility of the panel is as before. *)
Theorem analysis_stores_answer (s : State) (btn cid : nat) (screenshot : string)
    (status : nat) (r : Response) (an : Analysis) :
  analyzeBtnIs s btn ->
  actionsContainerIs s btn cid ->
  loadFails env = false ->
  screenshotResult env = Some screenshot ->
  fetchResult env = FetchResponse status (BodyObject r) ->
  statusOk status = true ->
  analysis r = Some an ->
  let acts := match an_actions an with Some l => l | None => [] end in
  let s' :=
    restored b btn (originalText b btn s)
      (displayed b acts cid
         (sessionStored r an
            (requestSent screenshot (begun b (html2canvasDefined env) btn s)))) in
  analyzeCurrentPage b env s = Done tt s' /\
  sessionId s' = session_id r /\
  currentPage s' = Some an /\
  actions s' = acts /\
  map snd (listeners s') = map snd (listeners s) ++ map OnAction acts /\
  panelActive s' = panelActive s /\
  fetchCount s' = fetchCount s + 1.
Proof.
  intros Hb Hc Hl Hs Hf Hok Han. cbv zeta.
  destruct (queried_found Hb) as [eb [Hqb Hidb]].
  assert (Hc1 : foundAt
            (sessionStored r an
               (requestSent screenshot (begun b (html2canvasDefined env) btn s)))
            "a11y-actions" btn cid).
  { generalize (foundAt_begun (html2canvasDefined env) Hc). now apply foundAt_same. }
  destruct (queried_found Hc1) as [ec [Hqc Hidc]].
  split.
  - unfold analyzeCurrentPage, tryCatch, analyzeBody.
    rewrite (bind_done _ _ (beginAnalysis_eq _ _ Hqb)). rewrite Hidb.
    unfold analysisRest.
    assert (Hreq : requestAnalysis env (begun b (html2canvasDefined env) btn s) =
                   Done (Some r)
                     (requestSent screenshot (begun b (html2canvasDefined env) btn s))).
    { rewrite requestAnalysis_eq, Hl, Hs. unfold answerOf. now rewrite Hf, Hok. }
    rewrite (bind_done _ _ Hreq).
    rewrite (@storeAnalysis_eq _ _ _
               (requestSent screenshot (begun b (html2canvasDefined env) btn s))
               _ Han Hqc). now rewrite Hidc.
  - unfold restored, displayed, disabledSet, written.
    destruct (List.length (match an_actions an with Some l => l | None => [] end) =? 0)
      eqn:Hlen; state_fields; unfold sessionStored, requestSent; state_fields;
      (repeat split; try reflexivity).
    + apply Nat.eqb_eq in Hlen. apply length_zero_iff_nil in Hlen. rewrite Hlen.
      cbn [map]. rewrite app_nil_r. unfold begun.
      now destruct (html2canvasDefined env).
    + unfold begun. now destruct (html2canvasDefined env).
    + unfold fetchCount. state_fields. rewrite fetchCount_snoc. cbn [isFetch].
      unfold begun. now destruct (html2canvasDefined env).
    + rewrite map_app, listenersFrom_actions. unfold begun.
      now destruct (html2canvasDefined env).
    + unfold begun. now destruct (html2canvasDefined env).
    + unfold fetchCount. state_fields. rewrite fetchCount_snoc. cbn [isFetch].
      unfold begun. now destruct (html2canvasDefined env).
Qed.

(** X14: an answer without [analysis] is stored in part. With the analyze
    button and the container in the panel and a 2xx answer whose body is an
    object that has no [analysis], the call overwrites [sessionId] with the
    [session_id] of the answer and clears [currentPage] before it fails;
    [actions] keeps the former list, the call is fulfilled, and the
    container shows the failure message. *)
Theorem answer_without_analysis (s : State) (btn cid : nat) (screenshot : string)
    (status : nat) (r : Response) :
  analyzeBtnIs s btn ->
  actionsContainerIs s btn cid ->
  loadFails env = false ->
  screenshotResult env = Some screenshot ->
  fetchResult env = FetchResponse status (BodyObject r) ->
  statusOk status = true ->
  analysis r = None ->
  let s' :=
    failureShown b btn cid
      (setCurrentPage
         (setSessionId
            (requestSent screenshot (begun b (html2canvasDefined env) btn s))
            (session_id r))
         None) in
  analyzeCurrentPage b env s = Done tt s' /\
  sessionId s' = session_id r /\
  currentPage s' = None /\
  actions s' = actions s.
Proof.
  intros Hb Hc Hl Hs Hf Hok Han. cbv zeta.
  destruct (queried_found Hb) as [eb [Hqb Hidb]].
  split.
  - unfold analyzeCurrentPage, tryCatch, analyzeBody.
    rewrite (bind_done _ _ (beginAnalysis_eq _ _ Hqb)). rewrite Hidb.
    unfold analysisRest.
    assert (Hreq : requestAnalysis env (begun b (html2canvasDefined env) btn s) =
                   Done (Some r)
                     (requestSent screenshot (begun b (html2canvasDefined env) btn s))).
    { rewrite requestAnalysis_eq, Hl, Hs. unfold answerOf. now rewrite Hf, Hok. }
    rewrite (bind_done _ _ Hreq).
    rewrite (@storeAnalysis_without_analysis _ _ _ Han).
    apply analysisFailure_eq.
    + generalize (foundAt_begun (html2canvasDefined env) Hb). now apply foundAt_same.
    + generalize (foundAt_begun (html2canvasDefined env) Hc). now apply foundAt_same.
  - unfold failureShown, analysisRejected, disabledSet, written, requestSent.
    state_fields. unfold begun.
    destruct (html2canvasDefined env); repeat split.
Qed.

(** What the handler lets out. *)
Lemma analysisFailure_log (s : State) :
  log (stateOf (analysisFailure b s)) = log s ++ [ConsoleError "Analysis failed:"].
Proof.
  unfold analysisFailure.
  assert (H0 : consoleError "Analysis failed:" s = Done tt (analysisRejected s))
    by reflexivity.
  rewrite (bind_done _ _ H0).
  match goal with
  | |- log (stateOf (?m ?st)) = _ => assert (Hm : keeps sameLog m)
  end.
  { keeps_same_log. }
  rewrite (Hm (analysisRejected s)). reflexivity.
Qed.

Lemma beginAnalysis_same_log (defined : bool) : keeps sameLog (beginAnalysis b defined).
Proof. unfold beginAnalysis. keeps_same_log. Qed.

Lemma storeAnalysis_same_log (started : nat * string) (response : option Response) :
  keeps sameLog (storeAnalysis b started response).
Proof. unfold storeAnalysis, displayActions. keeps_same_log. Qed.

(** What an analysis lets out: at most one request, then at most one error
    on the console. The request is sent from the state at the first
    [await], when the library is there and the screenshot was taken. *)
Lemma analysis_log (s : State) :
  exists sent rest,
    log (stateOf (analyzeCurrentPage b env s)) = log s ++ sent ++ rest /\
    (rest = [] \/ rest = [ConsoleError "Analysis failed:"]) /\
    match beginAnalysis b (html2canvasDefined env) s with
    | Thrown _ _ => sent = []
    | Done _ s1 =>
        if loadFails env then sent = []
        else match screenshotResult env with
             | None => sent = []
             | Some screenshot =>
                 sent = [FetchPost (backendUrl ++ "/api/analyze-page") screenshot
                                   (captureDomElements (documentPage s1))
                                   (locationHref (page s1))]
             end
    end.
Proof.
  unfold analyzeCurrentPage, tryCatch, analyzeBody.
  pose proof (beginAnalysis_same_log (html2canvasDefined env) s) as Hbegin.
  unfold sameLog in Hbegin.
  destruct (beginAnalysis b (html2canvasDefined env) s) as [started s0 | e s0] eqn:Hb;
    cbn [stateOf] in Hbegin.
  - rewrite (bind_done _ _ Hb). unfold analysisRest, bind.
    rewrite requestAnalysis_eq.
    destruct (loadFails env).
    { exists [], [ConsoleError "Analysis failed:"].
      rewrite analysisFailure_log, Hbegin. auto. }
    destruct (screenshotResult env) as [screenshot|].
    2:{ exists [], [ConsoleError "Analysis failed:"].
        rewrite analysisFailure_log, Hbegin. auto. }
    assert (Hsent : log (requestSent screenshot s0) =
                    log s ++ [FetchPost (backendUrl ++ "/api/analyze-page") screenshot
                                        (captureDomElements (documentPage s0))
                                        (locationHref (page s0))]).
    { unfold requestSent. cbn [log setLog]. now rewrite Hbegin. }
    eexists.
    assert (Hcases :
              forall o : Outcome (option Response),
                stateOf o = requestSent screenshot s0 ->
                exists rest,
                  log (stateOf
                         match
                           match o with
                           | Done a s' => storeAnalysis b started a s'
                           | Thrown e s' => Thrown e s'
                           end
                         with
                         | Done a s' => Done a s'
                         | Thrown _ s' => analysisFailure b s'
                         end) =
                  log (requestSent screenshot s0) ++ rest /\
                  (rest = [] \/ rest = [ConsoleError "Analysis failed:"])).
    { intros [r s1 | e s1]; cbn [stateOf]; intros ->.
      - pose proof (storeAnalysis_same_log started r (requestSent screenshot s0)) as Hst.
        unfold sameLog in Hst.
        destruct (storeAnalysis b started r (requestSent screenshot s0))
          as [[] s2 | e s2]; cbn [stateOf] in *.
        + exists []. rewrite app_nil_r. auto.
        + exists [ConsoleError "Analysis failed:"].
          rewrite analysisFailure_log, Hst. auto.
      - exists [ConsoleError "Analysis failed:"].
        rewrite analysisFailure_log. auto. }
    destruct (Hcases (answerOf env (requestSent screenshot s0))) as [rest [Hlog Hrest]].
    { unfold answerOf. destruct (fetchResult env) as [|status body]; [reflexivity|].
      destruct (negb (statusOk status)); [reflexivity|]. destruct body; reflexivity. }
    exists rest. rewrite Hlog, Hsent, <- app_assoc. auto.
  - rewrite (bind_thrown _ _ Hb).
    exists [], [ConsoleError "Analysis failed:"].
    rewrite analysisFailure_log, Hbegin. auto.
Qed.

Lemma fetchCount_app (l1 l2 : list Event) :
  List.length (filter isFetch (l1 ++ l2)) =
  List.length (filter isFetch l1) + List.length (filter isFetch l2).
Proof. now rewrite filter_app, length_app. Qed.

(** X15: at most one request per analysis, and none before the screenshot:
    an analysis sends one request to the backend or none, and it sends none
    when the panel holds no analyze button, when the library fails to load
    or when the capture of the screenshot fails. *)
Theorem analysis_requests (s : State) :
  fetchCount (stateOf (analyzeCurrentPage b env s)) <= fetchCount s + 1 /\
  (hasAnalyzeBtn s = false \/ loadFails env = true \/ captureFails env = true ->
   fetchCount (stateOf (analyzeCurrentPage b env s)) = fetchCount s).
Proof.
  destruct (analysis_log s) as [sent [rest [Hlog [Hrest Hsent]]]].
  unfold fetchCount. rewrite Hlog, !fetchCount_app.
  assert (Hr : List.length (filter isFetch rest) = 0)
    by (destruct Hrest as [-> | ->]; reflexivity).
  rewrite Hr. split.
  - destruct (beginAnalysis b (html2canvasDefined env) s); [|subst sent; cbn; lia].
    destruct (loadFails env); [subst sent; cbn; lia|].
    destruct (screenshotResult env); subst sent; cbn; lia.
  - intros Hfail.
    assert (Hnone : sent = []).
    { destruct Hfail as [H | [H | H]].
      - now rewrite (beginAnalysis_none _ _ H) in Hsent.
      - rewrite H in Hsent.
        now destruct (beginAnalysis b (html2canvasDefined env) s).
      - unfold captureFails in H.
        destruct (screenshotResult env); [discriminate|].
        destruct (beginAnalysis b (html2canvasDefined env) s); [|exact Hsent].
        now destruct (loadFails env). }
    rewrite Hnone. cbn. lia.
Qed.



(** X18: with an analysis stored, toggling the panel twice gives back the
    state: the panel opens and closes, or closes and opens, and nothing
    else happens, whatever the environment. *)
Theorem toggle_twice (env' : AnalysisEnv) (s : State) :
  currentPage s <> None ->
  togglePanel b env' (stateOf (togglePanel b env s)) = Done tt s.
Proof.
  intros Hc.
  destruct s as [p n c t pn tc pc ls active lst sid cur acts ts lg]. cbn in Hc.
  unfold togglePanel, togglePanelWith, bind, gets, modify, ret.
  destruct active, cur; cbn; try reflexivity; contradiction.
Qed.

Lemma identitiesFrom_length (n : nat) (acts : list Action) :
  List.length (identitiesFrom b n acts) = List.length acts.
Proof.
  revert n. induction acts as [|a r IH]; intros n; cbn; [reflexivity|].
  now rewrite IH.
Qed.

Lemma identitiesFrom_sorted (acts : list Action) :
  forall n,
    StronglySorted lt (identitiesFrom b n acts) /\
    Forall (fun k => n <= k) (identitiesFrom b n acts).
Proof.
  induction acts as [|a r IH]; intros n; cbn [identitiesFrom].
  - split; constructor.
  - destruct (IH (nextAfterButton b n a)) as [Hs Hb].
    assert (Hlt : Forall (fun k => n < k) (identitiesFrom b (nextAfterButton b n a) r)).
    { eapply Forall_impl; [|exact Hb]. unfold nextAfterButton. cbn. intros k Hk. lia. }
    split.
    + constructor; [exact Hs | exact Hlt].
    + constructor; [lia|]. eapply Forall_impl; [|exact Hlt]. cbn. intros k Hk. lia.
Qed.

(** X19: what [displayActions] shows. On a panel with the container of the
    actions, the call is fulfilled and the container holds, in place of what
    it held, one button for each action, in the order of the actions, each
    with a click listener bound to its action; the buttons are distinct
    elements. The label in the markup of a button is not empty (the word
    [Action] stands in for a missing or empty label), and a button is
    marked primary only when its action has a confidence. An empty list of
    actions shows the [No actions found.] message in place of buttons, and
    no listener is registered. *)
Theorem displayed_buttons (acts : list Action) (s : State) (el : Element) :
  queried s "a11y-actions" = Some el ->
  let cid := nodeId el in
  let s' := stateOf (displayActions b acts s) in
  let ids := identitiesFrom b (nextId s) acts in
  displayActions b acts s = Done tt (displayed b acts cid s) /\
  (acts = [] ->
   panelContent s' =
   map (setChildren cid (parseHTML b (nextId s) noActionsMarkup)) (panelContent s) /\
   listeners s' = listeners s) /\
  (acts <> [] ->
   panelContent s' =
   map (setChildren cid
          (map (fun ka => ElementNode (actionButton (fst ka) (snd ka))
                            (parseHTML b (S (fst ka)) (buttonMarkup (snd ka))))
               (combine ids acts)))
       (panelContent s) /\
   listeners s' =
   listeners s ++ map (fun ka => (fst ka, OnAction (snd ka))) (combine ids acts)) /\
  List.length ids = List.length acts /\
  NoDup ids /\
  (forall action, orDefault (label action) "Action" <> EmptyString) /\
  (forall n action,
     In "primary"%string (classList (actionButton n action)) ->
     confidence action <> None).
Proof.
  intros Hq. cbv zeta. rewrite (displayActions_eq _ _ Hq). cbn [stateOf].
  split; [reflexivity|]. split; [|split; [|split; [|split; [|split]]]].
  - intros ->. unfold displayed, written. cbn [List.length Nat.eqb].
    state_fields. split; [|reflexivity].
    rewrite map_map. apply map_ext. intros t.
    induction t as [data | e ch IH] using Node_ind; [reflexivity|].
    cbn [setChildren]. destruct (nodeId e =? nodeId el) eqn:He; cbn [setChildren];
      rewrite He; [reflexivity|].
    f_equal. rewrite map_map. apply map_ext_in. intros x Hx.
    rewrite Forall_forall in IH. now apply IH.
  - intros Hne. unfold displayed.
    destruct acts as [|a r]; [contradiction|]. cbn [List.length Nat.eqb].
    state_fields. split; reflexivity.
  - apply identitiesFrom_length.
  - destruct (identitiesFrom_sorted acts (nextId s)) as [Hs _].
    clear Hq. induction Hs as [|k l _ IH Hall]; constructor; [|exact IH].
    intros Hin. rewrite Forall_forall in Hall. specialize (Hall k Hin). lia.
  - intros action. unfold orDefault.
    destruct (label action) as [t|]; cbn; [|discriminate].
    unfold JsString.truthy. destruct (String.eqb_spec t EmptyString); cbn;
      [discriminate | assumption].
  - intros n action. unfold actionButton, isPrimary.
    destruct (confidence action); [discriminate|].
    cbn. intros [H | []]. discriminate.
Qed.

End Analysis.

End AnalysisMore.

(** ** The voice trigger *)

Module VoiceFacts.

Import Scanner Overlay Observe Observe2 Voice Examples.
Local Open Scope string_scope.

Lemma append_assoc' (a b c : string) : (a ++ b) ++ c = a ++ (b ++ c).
Proof. induction a as [|x a IH]; cbn; [reflexivity | now rewrite IH]. Qed.

Lemma append_nil_r (a : string) : a ++ EmptyString = a.
Proof. induction a as [|x a IH]; cbn; [reflexivity | now rewrite IH]. Qed.

Lemma toLowerCase_app (a b : string) :
  toLowerCase (a ++ b) = toLowerCase a ++ toLowerCase b.
Proof. induction a as [|x a IH]; cbn; [reflexivity | now rewrite IH]. Qed.

Lemma startsWith_app (w b : string) : startsWith (w ++ b) w = true.
Proof.
  induction w as [|c w IH]; cbn; [reflexivity|].
  now rewrite Ascii.eqb_refl, IH.
Qed.

(** A string includes each of its parts. *)
Lemma includes_middle (a w b : string) : includes (a ++ w ++ b) w = true.
Proof.
  induction a as [|c a IH]; cbn.
  - destruct (w ++ b) eqn:He; cbn; rewrite <- He, startsWith_app; reflexivity.
  - rewrite IH. apply orb_true_r.
Qed.

Lemma collectFinal_acc (rs : list SpeechResult) :
  forall acc, collectFinal rs acc = acc ++ collectFinal rs EmptyString.
Proof.
  induction rs as [|r rs IH]; intros acc; cbn.
  - now rewrite append_nil_r.
  - destruct (isFinal r); [|apply IH].
    rewrite (IH (acc ++ transcript r)), (IH (transcript r)).
    apply append_assoc'.
Qed.

Lemma collectFinal_app (l1 l2 : list SpeechResult) (acc : string) :
  collectFinal (l1 ++ l2) acc = collectFinal l2 (collectFinal l1 acc).
Proof.
  revert acc. induction l1 as [|r l1 IH]; intros acc; cbn; [reflexivity | apply IH].
Qed.

Lemma collectFinal_interim (rs : list SpeechResult) (acc : string) :
  Forall (fun r => isFinal r = false) rs -> collectFinal rs acc = acc.
Proof.
  revert acc. induction rs as [|r rs IH]; intros acc H; cbn; [reflexivity|].
  inversion H as [|? ? Hr Hrs]; subst. rewrite Hr. now apply IH.
Qed.

Section Environment.

Variable b : Browser.
Variable env : AnalysisEnv.

(** X25: the wake phrase, in any letter case and anywhere in a final
    segment, toggles the panel: when one of the results from [resultIndex]
    on is final and its transcript holds a part whose lower case is
    [hey assistant], [onresult] calls [togglePanel], whatever the other
    results are. *)
Theorem wake_phrase_toggles (event : SpeechEvent) (r : SpeechResult)
    (before phrase after : string) (w : Widget) :
  In r (skipn (resultIndex event) (results event)) ->
  isFinal r = true ->
  transcript r = before ++ phrase ++ after ->
  toLowerCase phrase = wakeWord ->
  onresult b env event w = setOverlay w (stateOf (togglePanel b env (overlay w))).
Proof.
  intros Hin Hfin Ht Hp. unfold onresult, finalTranscript.
  apply in_split in Hin. destruct Hin as [l1 [l2 Hsplit]]. rewrite Hsplit.
  rewrite collectFinal_app. cbn [collectFinal]. rewrite Hfin.
  rewrite (collectFinal_acc l2), Ht, !toLowerCase_app, Hp.
  rewrite !append_assoc'.
  rewrite <- (append_assoc' (toLowerCase (collectFinal l1 EmptyString))
                            (toLowerCase before)).
  rewrite includes_middle. reflexivity.
Qed.

(** X26: interim results never toggle the panel: when none of the results
    from [resultIndex] on is final, [onresult] changes nothing, whatever the
    transcripts say. *)
Theorem interim_results_ignored (event : SpeechEvent) (w : Widget) :
  Forall (fun r => isFinal r = false) (skipn (resultIndex event) (results event)) ->
  onresult b env event w = w.
Proof.
  intros H. unfold onresult, finalTranscript.
  now rewrite (collectFinal_interim EmptyString H).
Qed.

End Environment.

Lemma toggleVoiceListening_started (w : Widget) :
  recognizing w = true -> recognizing (toggleVoiceListening w) = true.
Proof.
  intros H. unfold toggleVoiceListening.
  destruct (recognition w); cbn; [now rewrite H | exact H].
Qed.

(** X27: [toggleVoiceListening] only starts. Without a recognition no
    number of calls changes anything; with one, the recognition is started
    after one call or more, and no number of calls stops a recognition that
    is started. *)
Theorem toggleVoiceListening_only_starts (n : nat) (w : Widget) :
  (recognition w = false -> toggleTimes n w = w) /\
  (recognizing w = true -> recognizing (toggleTimes n w) = true) /\
  (recognition w = true -> 0 < n -> recognizing (toggleTimes n w) = true).
Proof.
  assert (Hkeep : forall k v, recognizing v = true -> recognizing (toggleTimes k v) = true).
  { induction k as [|k IH]; intros v Hv; cbn; [exact Hv|].
    apply IH. now apply toggleVoiceListening_started. }
  split; [|split].
  - intros Hr. induction n as [|n IH]; cbn; [reflexivity|].
    unfold toggleVoiceListening at 1. rewrite Hr. cbn. exact IH.
  - apply Hkeep.
  - intros Hr Hn. destruct n as [|n]; [lia|]. cbn. apply Hkeep.
    unfold toggleVoiceListening. rewrite Hr. cbn.
    destruct (recognizing w) eqn:Hg; cbn; [exact Hg | reflexivity].
Qed.

End VoiceFacts.

(** ** The background script and the popup *)

Module RelayFacts.

Import Overlay Voice Background Popup Examples.
Local Open Scope string_scope.

Lemma lookup_setKey_same (key : string) (v : SettingValue) (st : Storage) :
  storageLookup key (setKey key v st) = Some v.
Proof.
  induction st as [|[k w] r IH]; cbn.
  - now rewrite String.eqb_refl.
  - destruct (k =? key) eqn:Hk; cbn; [now rewrite String.eqb_refl|].
    now rewrite Hk.
Qed.

Lemma lookup_setKey_other (key key' : string) (v : SettingValue) (st : Storage) :
  key' <> key ->
  storageLookup key' (setKey key v st) = storageLookup key' st.
Proof.
  intros Hne. induction st as [|[k w] r IH]; cbn.
  - destruct (String.eqb_spec key key'); [congruence | reflexivity].
  - destruct (String.eqb_spec k key) as [->|Hk]; cbn.
    + destruct (String.eqb_spec key key'); [congruence | reflexivity].
    + destruct (k =? key'); [reflexivity | exact IH].
Qed.

(** X28: every install or update resets the settings: whatever was stored,
    after [onInstalled] the keys [backendUrl], [enabled] and [wakeWord]
    hold the defaults, every other key holds what it held, and the answer
    to [getSettings] is the default [backendUrl] and [enabled], without
    [wakeWord]. *)
Theorem install_resets_settings (st : Storage) :
  storageLookup "backendUrl" (onInstalled st) = Some (SString "http://localhost:8000") /\
  storageLookup "enabled" (onInstalled st) = Some (SBool true) /\
  storageLookup "wakeWord" (onInstalled st) = Some (SString "hey assistant") /\
  (forall key, key <> "backendUrl" -> key <> "enabled" -> key <> "wakeWord" ->
     storageLookup key (onInstalled st) = storageLookup key st) /\
  (forall tabs,
     reply (Background.onMessage "getSettings" tabs (onInstalled st)) =
     Some (Settings [("backendUrl", SString "http://localhost:8000");
                     ("enabled", SBool true)])).
Proof.
  unfold onInstalled, storageSet, defaults. cbn [fold_left fst snd].
  assert (H1 : storageLookup "backendUrl"
                 (setKey "wakeWord" (SString "hey assistant")
                    (setKey "enabled" (SBool true)
                       (setKey "backendUrl" (SString "http://localhost:8000") st))) =
               Some (SString "http://localhost:8000")).
  { rewrite !lookup_setKey_other by discriminate. apply lookup_setKey_same. }
  assert (H2 : storageLookup "enabled"
                 (setKey "wakeWord" (SString "hey assistant")
                    (setKey "enabled" (SBool true)
                       (setKey "backendUrl" (SString "http://localhost:8000") st))) =
               Some (SBool true)).
  { rewrite lookup_setKey_other by discriminate. apply lookup_setKey_same. }
  repeat split.
  - exact H1.
  - exact H2.
  - apply lookup_setKey_same.
  - intros key Ha Hb Hc. now rewrite !lookup_setKey_other.
  - intros tabs. unfold Background.onMessage, storageGet. cbn [String.eqb Ascii.eqb Bool.eqb flat_map app].
    cbn. now rewrite H1, H2.
Qed.

(** X29: what the relay of the background script lets through. It sends a
    message to a tab exactly for the actions [analyzePage] and
    [toggleVoice] when the query found a tab, to the first tab found and
    with the action it received; it never forwards [toggleWidget] or any
    other action. It replies exactly when it forwarded or was asked for the
    settings: with no tab found it keeps the channel open and never
    replies. *)
Theorem relay_forwards (action : string) (tabs : list nat) (st : Storage) :
  let r := Background.onMessage action tabs st in
  (forwarded r <> None <->
   (action = "analyzePage" \/ action = "toggleVoice") /\ tabs <> []) /\
  (forall tab a, forwarded r = Some (tab, a) -> a = action /\ hd_error tabs = Some tab) /\
  (reply r <> None <-> forwarded r <> None \/ action = "getSettings") /\
  (keepsChannel r = true <->
   action = "analyzePage" \/ action = "toggleVoice" \/ action = "getSettings").
Proof.
  cbv zeta. unfold Background.onMessage, forwardTo.
  destruct (String.eqb_spec action "analyzePage") as [->|H1].
  { destruct tabs as [|t ts]; cbn; repeat split; intros; try tauto; try discriminate;
      try (intuition congruence); try (left; discriminate).
    all: try (match goal with H : Some _ = Some _ |- _ => inversion H; subst end; reflexivity). }
  destruct (String.eqb_spec action "toggleVoice") as [->|H2].
  { destruct tabs as [|t ts]; cbn; repeat split; intros; try tauto; try discriminate;
      try (intuition congruence); try (left; discriminate).
    all: try (match goal with H : Some _ = Some _ |- _ => inversion H; subst end; reflexivity). }
  destruct (String.eqb_spec action "getSettings") as [->|H3].
  { cbn; repeat split; intros; try tauto; try discriminate; try (intuition congruence). }
  cbn; repeat split; intros; try tauto; try discriminate; try (intuition congruence).
Qed.

(** X30: from the popup to the page. With a tab found and the message
    delivered, a click on the analyze button of the popup sends one
    [analyzePage] message to the first tab, shows [Analysis started!], and
    the content script that receives the message runs one analysis; a click
    on the voice button sends one [toggleVoice] message and shows
    [Voice toggled], also when the page has no recognition, where the
    content script that receives the message does nothing. Without a tab no
    message is sent. *)
Theorem popup_to_content (b : Browser) (env : AnalysisEnv) (tab : nat) (tabs : list nat)
    (p : PopupState) (w : Widget) :
  let pa := analyzeClick (QueryTabs (tab :: tabs)) true p in
  let pv := voiceClick (QueryTabs (tab :: tabs)) true p in
  (sent pa = (sent p ++ [(tab, "analyzePage")])%list /\
   status pa = "Analysis started!" /\
   received b env [(tab, "analyzePage")] w =
   setOverlay w (stateOf (analyzeCurrentPage b env (overlay w)))) /\
  (sent pv = (sent p ++ [(tab, "toggleVoice")])%list /\
   status pv = "Voice toggled" /\
   (recognition w = false -> received b env [(tab, "toggleVoice")] w = w)) /\
  (forall delivered,
     sent (analyzeClick (QueryTabs []) delivered p) = sent p /\
     sent (analyzeClick QueryFails delivered p) = sent p /\
     sent (voiceClick (QueryTabs []) delivered p) = sent p /\
     sent (voiceClick QueryFails delivered p) = sent p).
Proof.
  cbv zeta. repeat split.
  intros Hr. unfold received. cbn. unfold toggleVoiceListening. now rewrite Hr.
Qed.

End RelayFacts.

(** ** The further properties at concrete inputs *)

Module ExtraWitnesses.

Import Scanner Dom ScanSpec Overlay Observe Observe2 Voice Examples Examples2.
Import ScanMore ExecutorMore AnalysisMore VoiceFacts.
Local Open Scope string_scope.

Lemma freshIds_opened : freshIds (opened threeButtons).
Proof.
  unfold freshIds. cbn.
  repeat (apply Forall_cons; [cbn; lia|]). apply Forall_nil.
Defined.

Lemma container_opened : container (opened threeButtons) < nextId (opened threeButtons).
Proof. vm_compute. lia. Defined.

(** On the panel as [init] builds it, the container of the actions has the
    identity 1008 and the analyze button, inside it, the identity 1009. *)
Lemma analyzeBtn_opened : analyzeBtnIs (opened threeButtons) 1009.
Proof.
  eexists. split; [vm_compute; reflexivity | split; reflexivity].
Defined.

Lemma actionsContainer_opened : actionsContainerIs (opened threeButtons) 1009 1008.
Proof.
  eexists. split; [vm_compute; reflexivity | split; reflexivity].
Defined.

Lemma overlay_nodes_not_scanned_witness :
  captureDomElements
    (documentPage (stateOf (showNotification "Done" (opened threeButtons)))) =
  captureDomElements (documentPage (opened threeButtons)).
Proof.
  apply (proj1 (@overlay_nodes_not_scanned browser 1 "Done" (opened threeButtons)
                  container_opened)).
Defined.

Lemma negative_index_reported_witness :
  executeAction browser true 3 (action "Save" (-1)) (opened threeButtons) =
  Done tt (failureReported (rescanned (opened threeButtons))).
Proof.
  apply (proj1 (@negative_index_reported browser true 3
                  (action "Save" (-1)) (-1) (opened threeButtons) eq_refl eq_refl)).
Defined.

Lemma rejected_selector_reported_witness :
  executeAction (browserWith rejectAll) true 3 (action "Save" 1) (opened threeButtons) =
  Done tt (failureReported (rescanned (opened threeButtons))).
Proof.
  refine (proj1 (@rejected_selector_reported (browserWith rejectAll) true 3
                   (action "Save" 1) 1
                   (describe threeButtons (button 2 "b" [] "Two") 1)
                   (opened threeButtons) eq_refl _ _)).
  - vm_compute. reflexivity.
  - reflexivity.
Defined.


Lemma missing_index_is_skipped_witness :
  executeAction browser true 3 (mkAction (Some "Save") None None None)
    (opened threeButtons) =
  Done tt (collapseScheduled (opened threeButtons)).
Proof.
  apply (@missing_index_is_skipped browser true 3
           (mkAction (Some "Save") None None None) (opened threeButtons) eq_refl).
Defined.

Lemma collapse_timer_closes_panel_witness :
  let s' := stateOf (executeAction browser true 3 (action "Two" 1)
                       (opened threeButtons)) in
  panelActive s' = true /\
  panelActive (fireTimer (List.length (timers s') - 1) s') = false.
Proof.
  cbv zeta. split; [vm_compute; reflexivity|].
  apply (@collapse_timer_closes_panel browser true 3 (action "Two" 1)
           (opened threeButtons)).
  vm_compute. reflexivity.
Defined.

Lemma notification_is_transient_witness :
  nodes (page (fireTimer 0 (stateOf (showNotification "Done" (opened threeButtons))))) =
  nodes (page (opened threeButtons)).
Proof.
  apply (@notification_is_transient "Done" (opened threeButtons) freshIds_opened).
Defined.

Lemma highlight_is_transient_witness :
  highlightCount
    (documentPage (stateOf (highlightElement browser 1 (opened threeButtons)))) = 1.
Proof.
  refine (proj1 (@highlight_is_transient browser 1
                   (describe threeButtons (button 2 "b" [] "Two") 1)
                   (button 1 "a" [] "One") (opened threeButtons)
                   freshIds_opened container_opened _ _)).
  - vm_compute. reflexivity.
  - reflexivity.
Defined.

Lemma analysis_without_button_witness :
  let s := stateOf (analyzeCurrentPage browser backendDown (opened threeButtons)) in
  analyzeCurrentPage browser backendAnswers s = Thrown TypeError (analysisRejected s).
Proof.
  cbv zeta.
  apply (proj1 (@analysis_without_button browser backendAnswers true
                  (stateOf (analyzeCurrentPage browser backendDown (opened threeButtons)))
                  ltac:(vm_compute; reflexivity))).
Defined.

Lemma analysis_stores_answer_witness :
  sessionId analysed = Some "s1" /\
  actions analysed = [action "Save" 1].
Proof.
  destruct (@analysis_stores_answer browser backendAnswers (opened threeButtons)
              1009 1008 "data:image/jpeg;base64," 200
              (mkResponse (Some "s1") (Some (mkAnalysis (Some [action "Save" 1]))))
              (mkAnalysis (Some [action "Save" 1]))
              analyzeBtn_opened actionsContainer_opened
              eq_refl eq_refl eq_refl eq_refl eq_refl)
    as [Heq [Hs [_ [Ha _]]]].
  unfold analysed. rewrite Heq. split; [exact Hs | exact Ha].
Defined.

Lemma answer_without_analysis_witness :
  let s' := stateOf (analyzeCurrentPage browser backendAnswersBare
                       (opened threeButtons)) in
  sessionId s' = Some "s2" /\ currentPage s' = None.
Proof.
  cbv zeta.
  destruct (@answer_without_analysis browser backendAnswersBare (opened threeButtons)
              1009 1008 "data:image/jpeg;base64," 200 (mkResponse (Some "s2") None)
              analyzeBtn_opened actionsContainer_opened
              eq_refl eq_refl eq_refl eq_refl eq_refl)
    as [Heq [Hs [Hc _]]].
  rewrite Heq. split; [exact Hs | exact Hc].
Defined.



Lemma analyze_button_not_sent :
  nodeId analyzeBtn = 1009 /\
  map d_index (captureDomElements (documentPage (opened threeButtons))) =
  [0; 1; 2; 3; 4] /\
  map d_index
    (captureDomElements
       (documentPage (begun browser true 1009 (opened threeButtons)))) =
  [0; 1; 2; 3].
Proof. vm_compute. repeat split. Qed.

Lemma toggle_twice_witness :
  togglePanel browser backendDown (stateOf (togglePanel browser backendDown analysed)) =
  Done tt analysed.
Proof.
  apply (@toggle_twice browser backendDown backendDown analysed).
  vm_compute. discriminate.
Defined.

Lemma displayed_buttons_witness :
  listeners (stateOf (displayActions browser [action "Save" 1] (opened threeButtons))) =
  (listeners (opened threeButtons) ++ [(1010, OnAction (action "Save" 1))])%list.
Proof.
  destruct (@displayed_buttons browser [action "Save" 1] (opened threeButtons)
              actionsContainer ltac:(vm_compute; reflexivity))
    as [_ [_ [H _]]].
  destruct (H ltac:(discriminate)) as [_ Hl]. exact Hl.
Defined.

Lemma visible_label_shape_witness :
  exists c rest,
    elementText (button 1 "a" [] "  Save  ") = String c rest /\
    isWhiteSpace c = false /\
    String.length (elementText (button 1 "a" [] "  Save  ")) <= 100.
Proof.
  apply (@visible_label_shape (button 1 "a" [] "  Save  ") eq_refl).
Defined.

Lemma selector_never_empty_witness :
  generateSelector (button 1 "" [] "Save") <> EmptyString.
Proof.
  apply (@selector_never_empty (button 1 "" [] "Save")). discriminate.
Defined.

Lemma wake_phrase_toggles_witness :
  panelActive (overlay (onresult browser backendDown spoken widget)) = true.
Proof.
  rewrite (@wake_phrase_toggles browser backendDown spoken
             (mkSpeechResult true "Please say HEY Assistant now")
             "Please say " "HEY Assistant" " now" widget
             (or_introl eq_refl) eq_refl eq_refl eq_refl).
  vm_compute. reflexivity.
Defined.

Lemma interim_results_ignored_witness :
  onresult browser backendDown interim widget = widget.
Proof.
  apply (@interim_results_ignored browser backendDown interim widget).
  cbn. repeat constructor.
Defined.

End ExtraWitnesses.

